(** * The log collector server of claude-debug-mode (scripts/debug-server.js)

    A shallow embedding of the request listener of [debug-server.js] and of
    the start-up code in front of it, together with the parts of the
    JavaScript platform the listener calls: [JSON.parse], [JSON.stringify],
    string conversion of values, and the synchronous [fs] calls.  Behind
    them come the rest of the script (the command line, the launch, the
    banner and the total printed at the shutdown), the smaller server of
    the skill document, and the log call of the instrumentation templates.

    Conventions of the model.
    - A JavaScript string is the list of its UTF-16 code units; the code
      units are written as numbers (34 is the quotation mark, 92 the reverse
      solidus, 123 and 125 the braces, 91 and 93 the brackets, 44 the comma,
      58 the colon, 10 the line feed, 48 to 57 the digits).
    - A Number is kept as its sign, its significant decimal digits and the
      position of the decimal point, the data [Number::toString] prints
      from.  Literals too large for a double become [Infinity], literals
      below half of the least subnormal become zero; rounding of a long
      mantissa to 53 bits is not modelled, and -0 is identified with 0 (the
      listener cannot tell them apart).  A literal of at most 15
      significant digits that is not below 1e-307 is held by a double
      exactly enough to be printed with the same digits ([exact_number]);
      what is said of the digits a caller has sent is said of such numbers.
    - The log file is the string [fs.readFileSync(LOG_FILE, 'utf-8')]
      returns; encoding to UTF-8 and back is the identity on what
      [JSON.stringify] writes.  Only the server writes the file.  A
      file-system call that fails changes nothing.
    - The clock, the random generator and the failure of a file-system call
      are inputs of a request ([env]).
    - What the listener prints on the console is not recorded; the string
      conversions it performs for it are, because they can throw.
    - A request is handled once its body has arrived completely, one request
      after the other.  The body arrives in chunks of bytes, cut wherever
      the transport cuts them; the listener decodes every chunk by itself
      ([collect]), and [body] is the string it has put together.  A
      response is what node sends: its status, its headers and its body,
      which is empty in answer to a HEAD request.  The limits of the
      platform (stack depth, memory) are not modelled.
    - The script is a CommonJS module without a strict-mode directive. *)

From Stdlib Require Import List NArith ZArith Lia Bool String Ascii.
From Stdlib Require Decimal DecimalN.
Import ListNotations.

Local Open Scope N_scope.

(** ** Strings *)

Definition jsstring := list N.

Definition str (s : string) : jsstring :=
  map N_of_ascii (list_ascii_of_string s).

Fixpoint jsstring_eqb (a b : jsstring) : bool :=
  match a, b with
  | [], [] => true
  | x :: a', y :: b' => (x =? y) && jsstring_eqb a' b'
  | _, _ => false
  end.

Definition is_empty (t : jsstring) : bool :=
  match t with [] => true | _ :: _ => false end.

(** [strip_prefix p t] is the rest of [t] behind the prefix [p]. *)
Fixpoint strip_prefix (p t : jsstring) : option jsstring :=
  match p with
  | [] => Some t
  | x :: p' =>
      match t with
      | y :: t' => if x =? y then strip_prefix p' t' else None
      | [] => None
      end
  end.

(** Separator-joined concatenation, [Array.prototype.join]. *)
Fixpoint join (sep : jsstring) (parts : list jsstring) : jsstring :=
  match parts with
  | [] => []
  | [p] => p
  | p :: rest => p ++ sep ++ join sep rest
  end.

(** The lines of a text: the pieces between its line feeds. *)
Fixpoint lines_from (cur : jsstring) (t : jsstring) : list jsstring :=
  match t with
  | [] => [rev cur]
  | c :: r => if c =? 10 then rev cur :: lines_from [] r
              else lines_from (c :: cur) r
  end.

Definition lines (t : jsstring) : list jsstring := lines_from [] t.

Definition newlines (t : jsstring) : nat := count_occ N.eq_dec t 10.

(** A text without a line feed. *)
Definition single_line (t : jsstring) : bool :=
  forallb (fun c => negb (c =? 10)) t.

(** A text between quotation marks. *)
Definition quoted (s : string) : jsstring := 34 :: str s ++ [34].

(** Whether the first unit of a text satisfies [p]. *)
Definition starts_with (p : N -> bool) (t : jsstring) : bool :=
  match t with c :: _ => p c | [] => false end.

(** ** Decimal digits *)

Definition is_digit (c : N) : bool := (48 <=? c) && (c <=? 57).

Fixpoint span_digits (t : jsstring) : jsstring * jsstring :=
  match t with
  | c :: r =>
      if is_digit c
      then let (ds, rest) := span_digits r in (c :: ds, rest)
      else ([], t)
  | [] => ([], [])
  end.

Fixpoint uint_chars (u : Decimal.uint) : jsstring :=
  match u with
  | Decimal.Nil => []
  | Decimal.D0 u => 48 :: uint_chars u
  | Decimal.D1 u => 49 :: uint_chars u
  | Decimal.D2 u => 50 :: uint_chars u
  | Decimal.D3 u => 51 :: uint_chars u
  | Decimal.D4 u => 52 :: uint_chars u
  | Decimal.D5 u => 53 :: uint_chars u
  | Decimal.D6 u => 54 :: uint_chars u
  | Decimal.D7 u => 55 :: uint_chars u
  | Decimal.D8 u => 56 :: uint_chars u
  | Decimal.D9 u => 57 :: uint_chars u
  end.

Definition digit_uint (c : N) (u : Decimal.uint) : Decimal.uint :=
  match c - 48 with
  | 0 => Decimal.D0 u
  | 1 => Decimal.D1 u
  | 2 => Decimal.D2 u
  | 3 => Decimal.D3 u
  | 4 => Decimal.D4 u
  | 5 => Decimal.D5 u
  | 6 => Decimal.D6 u
  | 7 => Decimal.D7 u
  | 8 => Decimal.D8 u
  | _ => Decimal.D9 u
  end.

Fixpoint chars_uint (ds : jsstring) : Decimal.uint :=
  match ds with
  | [] => Decimal.Nil
  | c :: r => digit_uint c (chars_uint r)
  end.

(** The number a run of decimal digits denotes, and the digits of a number. *)
Definition digits_value (ds : jsstring) : N := N.of_uint (chars_uint ds).

Definition decimal (n : N) : jsstring := uint_chars (N.to_uint n).

(** ** Numbers *)

(** [Dec neg ds n] is the number (-1)^neg * 0.d1d2...dk * 10^n, where
    [ds] holds the characters d1 ... dk. *)
Inductive number : Type :=
| Zero
| Dec (neg : bool) (ds : jsstring) (n : Z)
| Infinity (neg : bool).

Fixpoint strip_leading (ds : jsstring) (n : Z) : jsstring * Z :=
  match ds with
  | c :: r => if c =? 48 then strip_leading r (n - 1)%Z else (ds, n)
  | [] => ([], n)
  end.

Fixpoint strip_trailing (ds : jsstring) : jsstring :=
  match ds with
  | [] => []
  | c :: r =>
      match strip_trailing r with
      | [] => if c =? 48 then [] else [c]
      | r' => c :: r'
      end
  end.

(** Round to nearest, ties to even, at the two ends of the binary64 range:
    a magnitude of at least 2^1024 - 2^970 becomes Infinity, one of at most
    2^-1075 becomes zero.  The magnitude is 0.ds * 10^n. *)
Definition dec_overflows (ds : jsstring) (n : Z) : bool :=
  let k := Z.of_nat (List.length ds) in
  let d := Z.of_N (digits_value ds) in
  let limit := (2 ^ 1024 - 2 ^ 970)%Z in
  if (309 <? n)%Z then true
  else if (n <? 1)%Z then false
  else if (k <=? n)%Z then (limit <=? d * 10 ^ (n - k))%Z
  else (limit * 10 ^ (k - n) <=? d)%Z.

Definition dec_underflows (ds : jsstring) (n : Z) : bool :=
  let k := Z.of_nat (List.length ds) in
  let d := Z.of_N (digits_value ds) in
  if (n <? -330)%Z then true
  else if (0 <? n)%Z then false
  else (d * 2 ^ 1075 <=? 10 ^ (k - n))%Z.

(** The Number denoted by the digits [ds] with the decimal point [n] places
    behind the first of them. *)
Definition make_number (neg : bool) (ds : jsstring) (n : Z) : number :=
  let (ds1, n1) := strip_leading ds n in
  let ds2 := strip_trailing ds1 in
  if is_empty ds2 then Zero
  else if dec_underflows ds2 n1 then Zero
  else if dec_overflows ds2 n1 then Infinity neg
  else Dec neg ds2 n1.

Definition number_of_N (n : N) : number :=
  let ds := decimal n in make_number false ds (Z.of_nat (List.length ds)).

Definition is_finite (x : number) : bool :=
  match x with Infinity _ => false | _ => true end.

Definition sign_prefix (neg : bool) : jsstring :=
  if neg then str "-" else [].

(** [Number::toString] in radix 10. *)
Definition Number_toString (x : number) : jsstring :=
  match x with
  | Zero => str "0"
  | Infinity neg => sign_prefix neg ++ str "Infinity"
  | Dec neg ds n =>
      let k := Z.of_nat (List.length ds) in
      sign_prefix neg ++
      (if (k <=? n)%Z && (n <=? 21)%Z then
         ds ++ repeat 48 (Z.to_nat (n - k))
       else if (0 <? n)%Z && (n <=? 21)%Z then
         firstn (Z.to_nat n) ds ++ str "." ++ skipn (Z.to_nat n) ds
       else if (-6 <? n)%Z && (n <=? 0)%Z then
         str "0." ++ repeat 48 (Z.to_nat (- n)) ++ ds
       else
         let e := (n - 1)%Z in
         let es := (if (e <? 0)%Z then str "-" else str "+")
                   ++ decimal (Z.abs_N e) in
         match ds with
         | [] => []
         | [d] => d :: str "e" ++ es
         | d :: more => d :: str "." ++ more ++ str "e" ++ es
         end)
  end.

(** A JSON number token: [-]? int frac? exp?, with int = 0 | [1-9][0-9]*. *)
Definition lex_sign (t : jsstring) : bool * jsstring :=
  match t with
  | c :: r => if c =? 45 then (true, r) else (false, t)
  | [] => (false, t)
  end.

Definition lex_int (t : jsstring) : option (jsstring * jsstring) :=
  let (ds, rest) := span_digits t in
  match ds with
  | [] => None
  | d :: more => if (d =? 48) && negb (is_empty more) then None
                 else Some (ds, rest)
  end.

Definition lex_frac (t : jsstring) : option (jsstring * jsstring) :=
  match t with
  | c :: r =>
      if c =? 46 then
        let (ds, rest) := span_digits r in
        if is_empty ds then None else Some (ds, rest)
      else Some ([], t)
  | [] => Some ([], t)
  end.

Definition lex_exp (t : jsstring) : option (Z * jsstring) :=
  match t with
  | c :: r =>
      if (c =? 101) || (c =? 69) then
        let (neg, r1) :=
          match r with
          | s :: r' => if s =? 45 then (true, r')
                       else if s =? 43 then (false, r') else (false, r)
          | [] => (false, r)
          end in
        let (ds, rest) := span_digits r1 in
        if is_empty ds then None
        else let e := Z.of_N (digits_value ds) in
             Some (if neg then (- e)%Z else e, rest)
      else Some (0%Z, t)
  | [] => Some (0%Z, t)
  end.

Definition lex_number (t : jsstring) : option (number * jsstring) :=
  let (neg, t1) := lex_sign t in
  match lex_int t1 with
  | None => None
  | Some (int, t2) =>
      match lex_frac t2 with
      | None => None
      | Some (frac, t3) =>
          match lex_exp t3 with
          | None => None
          | Some (e, t4) =>
              Some (make_number neg (int ++ frac)
                      (Z.of_nat (List.length int) + e), t4)
          end
      end
  end.

(** ** JSON strings *)

Definition hex_digit (v : N) : N := if v <? 10 then 48 + v else 87 + v.

(** The four lower-case hexadecimal digits of a code unit. *)
Definition hex4 (c : N) : jsstring :=
  [hex_digit (c / 4096 mod 16); hex_digit (c / 256 mod 16);
   hex_digit (c / 16 mod 16); hex_digit (c mod 16)].

Definition hex_value (c : N) : option N :=
  if is_digit c then Some (c - 48)
  else if (97 <=? c) && (c <=? 102) then Some (c - 87)
  else if (65 <=? c) && (c <=? 70) then Some (c - 55)
  else None.

Definition hex4_value (a b c d : N) : option N :=
  match hex_value a, hex_value b, hex_value c, hex_value d with
  | Some x, Some y, Some z, Some w => Some (((x * 16 + y) * 16 + z) * 16 + w)
  | _, _, _, _ => None
  end.

Definition is_high_surrogate (c : N) : bool := (55296 <=? c) && (c <=? 56319).
Definition is_low_surrogate (c : N) : bool := (56320 <=? c) && (c <=? 57343).

Definition unicode_escape (c : N) : jsstring := str "\u" ++ hex4 c.

(** What [QuoteJSONString] writes for the code unit [c]; [paired] tells
    whether a surrogate [c] belongs to a surrogate pair. *)
Definition quote_unit (paired : bool) (c : N) : jsstring :=
  if c =? 8 then str "\b"
  else if c =? 9 then str "\t"
  else if c =? 10 then str "\n"
  else if c =? 12 then str "\f"
  else if c =? 13 then str "\r"
  else if c =? 34 then [92; 34]
  else if c =? 92 then str "\\"
  else if c <? 32 then unicode_escape c
  else if (is_high_surrogate c || is_low_surrogate c) && negb paired
       then unicode_escape c
  else [c].

Fixpoint quote_units (after_high : bool) (s : jsstring) : jsstring :=
  match s with
  | [] => []
  | c :: r =>
      let paired :=
        if is_low_surrogate c then after_high
        else is_high_surrogate c && starts_with is_low_surrogate r in
      quote_unit paired c ++ quote_units (is_high_surrogate c && paired) r
  end.

Definition QuoteJSONString (s : jsstring) : jsstring :=
  34 :: quote_units false s ++ [34].

Definition unescape (c : N) : option N :=
  if c =? 34 then Some 34          (* quotation mark *)
  else if c =? 92 then Some 92     (* reverse solidus *)
  else if c =? 47 then Some 47     (* solidus *)
  else if c =? 98 then Some 8      (* b: backspace *)
  else if c =? 102 then Some 12    (* f: form feed *)
  else if c =? 110 then Some 10    (* n: line feed *)
  else if c =? 114 then Some 13    (* r: carriage return *)
  else if c =? 116 then Some 9     (* t: tab *)
  else None.

Definition cons_unit (c : N) (r : option (jsstring * jsstring))
  : option (jsstring * jsstring) :=
  match r with
  | Some (s, rest) => Some (c :: s, rest)
  | None => None
  end.

(** The characters of a JSON string behind its opening quote, up to and
    including the closing quote. *)
Fixpoint lex_string (t : jsstring) : option (jsstring * jsstring) :=
  match t with
  | [] => None
  | c :: r =>
      if c =? 34 then Some ([], r)
      else if c =? 92 then
        match r with
        | [] => None
        | x :: r1 =>
            if x =? 117 then
              match r1 with
              | h1 :: h2 :: h3 :: h4 :: r2 =>
                  match hex4_value h1 h2 h3 h4 with
                  | Some u => cons_unit u (lex_string r2)
                  | None => None
                  end
              | _ => None
              end
            else
              match unescape x with
              | Some u => cons_unit u (lex_string r1)
              | None => None
              end
        end
      else if c <? 32 then None
      else cons_unit c (lex_string r)
  end.

(** ** Values *)

(** The values [JSON.parse] returns.  The own properties of an object are
    listed in the order of [OrdinaryOwnPropertyKeys]: array indices in
    ascending order, then the other keys in the order of their creation. *)
#[local] Unset Elimination Schemes.
Inductive value : Type :=
| Null
| Bool (b : bool)
| Num (x : number)
| Str (s : jsstring)
| Arr (elements : list value)
| Obj (properties : list (jsstring * value)).
#[local] Set Elimination Schemes.

(** An array index is the canonical decimal form of an integer below
    2^32 - 1. *)
Definition array_index (k : jsstring) : option N :=
  match k with
  | [] => None
  | c :: more =>
      if forallb is_digit k && negb ((c =? 48) && negb (is_empty more))
      then let i := digits_value k in
           if i <? 4294967295 then Some i else None
      else None
  end.

Fixpoint has_property (k : jsstring) (ps : list (jsstring * value)) : bool :=
  match ps with
  | [] => false
  | (k', _) :: r => jsstring_eqb k' k || has_property k r
  end.

Fixpoint get_property (k : jsstring) (ps : list (jsstring * value))
  : option value :=
  match ps with
  | [] => None
  | (k', v) :: r => if jsstring_eqb k' k then Some v else get_property k r
  end.

Fixpoint replace_property (k : jsstring) (v : value)
  (ps : list (jsstring * value)) : list (jsstring * value) :=
  match ps with
  | [] => []
  | (k', v') :: r =>
      if jsstring_eqb k' k then (k', v) :: r
      else (k', v') :: replace_property k v r
  end.

(** A new array index goes in front of the first key that is a larger
    index or no index at all. *)
Fixpoint insert_index (i : N) (k : jsstring) (v : value)
  (ps : list (jsstring * value)) : list (jsstring * value) :=
  match ps with
  | [] => [(k, v)]
  | (k', v') :: r =>
      match array_index k' with
      | Some j => if j <? i then (k', v') :: insert_index i k v r
                  else (k, v) :: ps
      | None => (k, v) :: ps
      end
  end.

(** [CreateDataProperty] and assignment to a property of an ordinary
    object. *)
Definition set_property (k : jsstring) (v : value)
  (ps : list (jsstring * value)) : list (jsstring * value) :=
  if has_property k ps then replace_property k v ps
  else match array_index k with
       | Some i => insert_index i k v ps
       | None => ps ++ [(k, v)]
       end.

(** ** JSON.stringify *)

Fixpoint JSON_stringify (v : value) : jsstring :=
  match v with
  | Null => str "null"
  | Bool b => if b then str "true" else str "false"
  | Num x => if is_finite x then Number_toString x else str "null"
  | Str s => QuoteJSONString s
  | Arr vs => str "[" ++ join (str ",") (map JSON_stringify vs) ++ str "]"
  | Obj ps =>
      str "{" ++
      join (str ",")
        (map (fun p => QuoteJSONString (fst p) ++ str ":"
                       ++ JSON_stringify (snd p)) ps)
      ++ str "}"
  end.

(** ** JSON.parse *)

Definition is_whitespace (c : N) : bool :=
  (c =? 32) || (c =? 9) || (c =? 10) || (c =? 13).

Fixpoint skip_whitespace (t : jsstring) : jsstring :=
  match t with
  | c :: r => if is_whitespace c then skip_whitespace r else t
  | [] => []
  end.

Definition literal (word : jsstring) (v : value) (t : jsstring)
  : option (value * jsstring) :=
  match strip_prefix word t with
  | Some rest => Some (v, rest)
  | None => None
  end.

(** The grammar of JSON texts.  The values keep their members as they are
    written; [internalize] below turns them into objects.  [fuel] bounds
    the number of nested calls. *)
Fixpoint parse_value (fuel : nat) (t : jsstring) : option (value * jsstring) :=
  match fuel with
  | O => None
  | S fuel =>
      match skip_whitespace t with
      | [] => None
      | c :: r =>
          if c =? 123 then                      (* an object *)
            match skip_whitespace r with
            | [] => None
            | c1 :: r1 =>
                if c1 =? 125 then Some (Obj [], r1)
                else match parse_members fuel r with
                     | Some (ps, rest) => Some (Obj ps, rest)
                     | None => None
                     end
            end
          else if c =? 91 then                  (* an array *)
            match skip_whitespace r with
            | [] => None
            | c1 :: r1 =>
                if c1 =? 93 then Some (Arr [], r1)
                else match parse_elements fuel r with
                     | Some (vs, rest) => Some (Arr vs, rest)
                     | None => None
                     end
            end
          else if c =? 34 then                  (* a string *)
            match lex_string r with
            | Some (s, rest) => Some (Str s, rest)
            | None => None
            end
          else if c =? 116 then literal (str "true") (Bool true) (c :: r)
          else if c =? 102 then literal (str "false") (Bool false) (c :: r)
          else if c =? 110 then literal (str "null") Null (c :: r)
          else
            match lex_number (c :: r) with
            | Some (x, rest) => Some (Num x, rest)
            | None => None
            end
      end
  end

with parse_elements (fuel : nat) (t : jsstring)
  : option (list value * jsstring) :=
  match fuel with
  | O => None
  | S fuel =>
      match parse_value fuel t with
      | None => None
      | Some (v, r) =>
          match skip_whitespace r with
          | [] => None
          | c :: r1 =>
              if c =? 44 then                   (* a comma *)
                match parse_elements fuel r1 with
                | Some (vs, rest) => Some (v :: vs, rest)
                | None => None
                end
              else if c =? 93 then Some ([v], r1)  (* the closing bracket *)
              else None
          end
      end
  end

with parse_members (fuel : nat) (t : jsstring)
  : option (list (jsstring * value) * jsstring) :=
  match fuel with
  | O => None
  | S fuel =>
      match skip_whitespace t with
      | [] => None
      | q :: r =>
          if q =? 34 then
            match lex_string r with
            | None => None
            | Some (k, r1) =>
                match skip_whitespace r1 with
                | [] => None
                | c :: r2 =>
                    if c =? 58 then             (* the colon *)
                      match parse_value fuel r2 with
                      | None => None
                      | Some (v, r3) =>
                          match skip_whitespace r3 with
                          | [] => None
                          | d :: r4 =>
                              if d =? 44 then
                                match parse_members fuel r4 with
                                | Some (ps, rest) => Some ((k, v) :: ps, rest)
                                | None => None
                                end
                              else if d =? 125 then Some ([(k, v)], r4)
                              else None
                          end
                      end
                    else None
                end
            end
          else None
      end
  end.

(** The object a list of written members denotes: the members are created
    one after the other, a repeated key overwrites its value in place. *)
Definition build_object (ps : list (jsstring * value))
  : list (jsstring * value) :=
  fold_left (fun acc p => set_property (fst p) (snd p) acc) ps [].

Fixpoint internalize (v : value) : value :=
  match v with
  | Arr vs => Arr (map internalize vs)
  | Obj ps =>
      Obj (build_object (map (fun p => (fst p, internalize (snd p))) ps))
  | _ => v
  end.

(** [JSON.parse]; [None] stands for the SyntaxError it throws. *)
Definition JSON_parse (text : jsstring) : option value :=
  match parse_value (S (2 * List.length text)) text with
  | Some (v, rest) =>
      if is_empty (skip_whitespace rest) then Some (internalize v) else None
  | None => None
  end.

(** ** Conversions of values *)

(** The results of a list of conversions, if none of them throws. *)
Fixpoint all_some {A : Type} (l : list (option A)) : option (list A) :=
  match l with
  | [] => Some []
  | Some a :: rest =>
      match all_some rest with
      | Some r => Some (a :: r)
      | None => None
      end
  | None :: _ => None
  end.

(** [ToBoolean]; [None] is [undefined]. *)
Definition ToBoolean (v : option value) : bool :=
  match v with
  | None => false
  | Some Null => false
  | Some (Bool b) => b
  | Some (Num Zero) => false
  | Some (Num _) => true
  | Some (Str s) => negb (is_empty s)
  | Some (Arr _) => true
  | Some (Obj _) => true
  end.

(** [ToString]; [None] stands for the TypeError it throws.  An array is
    joined with commas, [null] elements giving the empty string.  An object
    is converted by [Object.prototype.toString] unless it has an own
    property [toString]: a parsed value is never callable, and
    [Object.prototype.valueOf] returns the object itself, so that
    [OrdinaryToPrimitive] finds no primitive and throws. *)
Fixpoint ToString (v : value) : option jsstring :=
  match v with
  | Null => Some (str "null")
  | Bool b => Some (if b then str "true" else str "false")
  | Num x => Some (Number_toString x)
  | Str s => Some s
  | Arr vs =>
      option_map (join (str ","))
        (all_some (map (fun v => match v with
                                 | Null => Some []
                                 | _ => ToString v
                                 end) vs))
  | Obj ps =>
      if has_property (str "toString") ps then None
      else Some (str "[object Object]")
  end.

(** A substitution of a template literal. *)
Definition substitution (v : option value) : option jsstring :=
  match v with
  | None => Some (str "undefined")
  | Some v => ToString v
  end.

(** ** State, completions and the operations on them *)

Record response : Type := mkResponse {
  statusCode : N;
  headers : list (jsstring * jsstring);
  content : jsstring;
  writableEnded : bool
}.

(** The log file ([None]: it does not exist) and the counter. *)
Record state : Type := mkState {
  log_file : option jsstring;
  logCount : N
}.

(** A request when its end event is emitted: [body] is the string the
    data handlers of the ingest route have put together, each chunk having
    been decoded by itself ([collect], below). *)
Record request : Type := mkRequest {
  method : jsstring;
  url : jsstring;
  body : jsstring
}.

(** What the platform decides during one request: the two readings of
    [Date.now()], the value of [Math.random().toString(36).slice(2, 6)],
    and whether the file-system call of the request throws. *)
Record env : Type := mkEnv {
  clock_id : N;
  clock_ts : N;
  random_suffix : jsstring;
  fs_error : bool
}.

Inductive completion (A : Type) : Type :=
| Normal (a : A)
| Throw.
Arguments Normal {A} a.
Arguments Throw {A}.

(** A statement acts on the server state and on the response under
    construction; what it did before it throws stays done. *)
Definition js (A : Type) : Type :=
  state * response -> completion A * (state * response).

Definition ret {A : Type} (a : A) : js A := fun w => (Normal a, w).

Definition throw {A : Type} : js A := fun w => (Throw, w).

Definition bind {A B : Type} (c : js A) (k : A -> js B) : js B :=
  fun w =>
    match c w with
    | (Normal a, w') => k a w'
    | (Throw, w') => (Throw, w')
    end.

Definition try_catch {A : Type} (c : js A) (handler : js A) : js A :=
  fun w =>
    match c w with
    | (Normal a, w') => (Normal a, w')
    | (Throw, w') => handler w'
    end.

Notation "x <- c ;; k" := (bind c (fun x => k))
  (at level 61, c at next level, right associativity).
Notation "c ;; k" := (bind c (fun _ => k))
  (at level 61, right associativity).

Definition of_option {A : Type} (o : option A) : js A :=
  match o with
  | Some a => ret a
  | None => throw
  end.

Definition set_header (k v : jsstring) (hs : list (jsstring * jsstring))
  : list (jsstring * jsstring) :=
  if existsb (fun h => jsstring_eqb (fst h) k) hs
  then map (fun h => if jsstring_eqb (fst h) k then (k, v) else h) hs
  else hs ++ [(k, v)].

Definition res_setHeader (k v : jsstring) : js unit :=
  fun '(st, r) =>
    (Normal tt,
     (st, mkResponse (statusCode r) (set_header k v (headers r))
            (content r) (writableEnded r))).

Definition res_writeHead (code : N) (hs : list (jsstring * jsstring))
  : js unit :=
  fun '(st, r) =>
    (Normal tt,
     (st, mkResponse code
            (fold_left (fun acc h => set_header (fst h) (snd h) acc)
               hs (headers r))
            (content r) (writableEnded r))).

(** The data node sends with the response to [req]: none in answer to a
    HEAD request, which gets the head of the response only. *)
Definition sent (req : request) (data : jsstring) : jsstring :=
  if jsstring_eqb (method req) (str "HEAD") then [] else data.

(** [res.end(data)] for the response to [req]. *)
Definition res_end (req : request) (data : jsstring) : js unit :=
  fun '(st, r) =>
    (Normal tt,
     (st, mkResponse (statusCode r) (headers r) (sent req data) true)).

Definition read_logCount : js N :=
  fun '(st, r) => (Normal (logCount st), (st, r)).

Definition write_logCount (n : N) : js unit :=
  fun '(st, r) => (Normal tt, (mkState (log_file st) n, r)).

(** The synchronous file-system calls on the log file.  A call that fails
    throws and leaves the file as it was. *)
Definition fs_existsSync : js bool :=
  fun '(st, r) =>
    (Normal (match log_file st with Some _ => true | None => false end),
     (st, r)).

Definition fs_readFileSync (fails : bool) : js jsstring :=
  fun '(st, r) =>
    match log_file st with
    | Some text => if fails then (Throw, (st, r)) else (Normal text, (st, r))
    | None => (Throw, (st, r))
    end.

Definition fs_writeFileSync (fails : bool) (data : jsstring) : js unit :=
  fun '(st, r) =>
    if fails then (Throw, (st, r))
    else (Normal tt, (mkState (Some data) (logCount st), r)).

Definition fs_appendFileSync (fails : bool) (data : jsstring) : js unit :=
  fun '(st, r) =>
    if fails then (Throw, (st, r))
    else (Normal tt,
          (mkState (Some (match log_file st with
                          | Some text => text ++ data
                          | None => data
                          end)) (logCount st), r)).

(** Reading a property of the parsed value, for the names the listener
    reads ([id], [hypothesisId], [location], [message]): none of them is a
    property of a prototype, so that only an object can have one.  Reading
    a property of [null] throws. *)
Definition get (data : value) (k : jsstring) : js (option value) :=
  match data with
  | Null => throw
  | Obj ps => ret (get_property k ps)
  | _ => ret None
  end.

(** Assigning to a property of the parsed value, for the names the
    listener assigns ([id], [serverTimestamp]).  The script is not in strict
    mode: assigning to a property of a boolean, a number or a string does
    nothing.  On an array the assignment makes a property that is no
    element, which neither [JSON.stringify] nor the listener looks at. *)
Definition put (data : value) (k : jsstring) (v : value) : js value :=
  match data with
  | Null => throw
  | Obj ps => ret (Obj (set_property k v ps))
  | _ => ret data
  end.

(** ** The request listener *)

Definition new_response : response := mkResponse 200 [] [] false.

(** [`log_${Date.now()}_${Math.random().toString(36).slice(2, 6)}`] *)
Definition fresh_id (e : env) : jsstring :=
  str "log_" ++ Number_toString (number_of_N (clock_id e)) ++ str "_"
  ++ random_suffix e.

(** [data.id || fresh]: the value assigned to [data.id]. *)
Definition id_or_fresh (e : env) (id : option value) : value :=
  match id with
  | Some v => if ToBoolean id then v else Str (fresh_id e)
  | None => Str (fresh_id e)
  end.

(** The line the listener prints for an entry:
    [`[${logCount}] ${hyp} ${data.location}: ${data.message}`]. *)
Definition console_line (data : value) : js jsstring :=
  h <- get data (str "hypothesisId") ;;
  hyp <- (if ToBoolean h
          then s <- of_option (substitution h) ;; ret (str "[" ++ s ++ str "]")
          else ret []) ;;
  n <- read_logCount ;;
  l <- get data (str "location") ;;
  location <- of_option (substitution l) ;;
  m <- get data (str "message") ;;
  message <- of_option (substitution m) ;;
  ret (str "[" ++ Number_toString (number_of_N n) ++ str "] " ++ hyp
       ++ str " " ++ location ++ str ": " ++ message).

(** The body of the [try] block of the ingest route. *)
Definition ingest (e : env) (req : request) : js unit :=
  data <- of_option (JSON_parse (body req)) ;;
  (* Add server-side metadata *)
  id <- get data (str "id") ;;
  data <- put data (str "id") (id_or_fresh e id) ;;
  data <- put data (str "serverTimestamp") (Num (number_of_N (clock_ts e))) ;;
  (* Append to log file *)
  fs_appendFileSync (fs_error e) (JSON_stringify data ++ [10]) ;;
  n <- read_logCount ;;
  write_logCount (n + 1) ;;
  (* Console output for visibility *)
  _ <- console_line data ;;
  res_writeHead 200 [] ;;
  res_end req (str "ok").

Definition server (PORT : N) (e : env) (req : request) : js unit :=
  (* CORS headers for browser requests *)
  res_setHeader (str "Access-Control-Allow-Origin") (str "*") ;;
  res_setHeader (str "Access-Control-Allow-Methods")
    (str "GET, POST, OPTIONS") ;;
  res_setHeader (str "Access-Control-Allow-Headers") (str "Content-Type") ;;
  (* Handle preflight *)
  if jsstring_eqb (method req) (str "OPTIONS") then
    res_writeHead 204 [] ;;
    res_end req []
  (* Health check endpoint *)
  else if jsstring_eqb (url req) (str "/health") then
    res_writeHead 200 [(str "Content-Type", str "application/json")] ;;
    n <- read_logCount ;;
    res_end req (JSON_stringify
               (Obj [(str "status", Str (str "ok"));
                     (str "logCount", Num (number_of_N n));
                     (str "port", Num (number_of_N PORT))]))
  (* Get logs endpoint *)
  else if jsstring_eqb (url req) (str "/logs")
          && jsstring_eqb (method req) (str "GET") then
    try_catch
      (present <- fs_existsSync ;;
       logs <- (if present then fs_readFileSync (fs_error e) else ret []) ;;
       res_writeHead 200 [(str "Content-Type", str "application/x-ndjson")] ;;
       res_end req logs)
      (res_writeHead 500 [] ;;
       res_end req (str "Error reading logs"))
  (* Clear logs endpoint *)
  else if jsstring_eqb (url req) (str "/clear")
          && jsstring_eqb (method req) (str "POST") then
    fs_writeFileSync (fs_error e) [] ;;
    write_logCount 0 ;;
    res_writeHead 200 [] ;;
    res_end req (str "Logs cleared")
  (* Debug log endpoint *)
  else if jsstring_eqb (url req) (str "/debug")
          && jsstring_eqb (method req) (str "POST") then
    try_catch
      (ingest e req)
      (res_writeHead 400 [] ;;
       res_end req (str "Invalid JSON"))
  (* 404 for unknown routes *)
  else
    res_writeHead 404 [] ;;
    res_end req (str "Not found").

(** One request from its arrival to its response.  [Throw] is an exception
    that leaves the listener: nothing catches it and the process ends. *)
Definition handle (PORT : N) (e : env) (req : request) (st : state)
  : completion response * state :=
  match server PORT e req (st, new_response) with
  | (Normal _, (st', r)) => (Normal r, st')
  | (Throw, (st', _)) => (Throw, st')
  end.

(** The requests of the four operations; a route does not look at the
    body of a request it has no use for. *)
Definition Ingest (payload : jsstring) : request :=
  mkRequest (str "POST") (str "/debug") payload.
Definition Health (b : jsstring) : request :=
  mkRequest (str "GET") (str "/health") b.
Definition GetLogs (b : jsstring) : request :=
  mkRequest (str "GET") (str "/logs") b.
Definition Clear (b : jsstring) : request :=
  mkRequest (str "POST") (str "/clear") b.

(** The three headers set in front of the routes, and the response a
    route completes with them. *)
Definition cors_headers : list (jsstring * jsstring) :=
  [(str "Access-Control-Allow-Origin", str "*");
   (str "Access-Control-Allow-Methods", str "GET, POST, OPTIONS");
   (str "Access-Control-Allow-Headers", str "Content-Type")].

Definition reply (code : N) (extra : list (jsstring * jsstring))
  (data : jsstring) : response :=
  mkResponse code (cors_headers ++ extra) data true.

(** The value the ingest route serializes for the parsed value [data]:
    the two assignments of the listener applied to it. *)
Definition stamped (e : env) (data : value) : value :=
  match data with
  | Obj ps =>
      Obj (set_property (str "serverTimestamp") (Num (number_of_N (clock_ts e)))
             (set_property (str "id")
                (id_or_fresh e (get_property (str "id") ps)) ps))
  | _ => data
  end.

(** Whether the conversions for the console line of [data] succeed. *)
Definition echo_converts (data : value) : bool :=
  match data with
  | Obj ps =>
      let shown k :=
        match substitution (get_property k ps) with
        | Some _ => true
        | None => false
        end in
      (if ToBoolean (get_property (str "hypothesisId") ps)
       then shown (str "hypothesisId") else true)
      && shown (str "location") && shown (str "message")
  | _ => true
  end.

(** The text of the log file, empty when there is no file. *)
Definition log_text (st : state) : jsstring :=
  match log_file st with
  | Some text => text
  | None => []
  end.

(** ** Start-up *)

(** The disk before the process starts, and what the two file-system calls
    of the start-up do. *)
Record disk : Type := mkDisk {
  log_dir_exists : bool;
  old_log_file : option jsstring
}.

Record boot : Type := mkBoot {
  mkdir_error : bool;
  write_error : bool
}.

(** The statements in front of [http.createServer]; [Throw] ends the
    process before it listens. *)
Definition startup (d : disk) (b : boot) : completion state :=
  (* Ensure log directory exists *)
  if negb (log_dir_exists d) && mkdir_error b then Throw
  (* Clear log file on start *)
  else if write_error b then Throw
  else Normal (mkState (Some []) 0).

(** The states of a running server: the one the start-up leaves, and those
    the answered requests lead to. *)
Inductive running (PORT : N) : state -> Prop :=
| running_start : forall d b st,
    startup d b = Normal st -> running PORT st
| running_step : forall st e req r st',
    running PORT st ->
    handle PORT e req st = (Normal r, st') ->
    running PORT st'.

(** A run of requests, one after the other, until one ends the process. *)
Fixpoint serve (PORT : N) (reqs : list (env * request)) (st : state)
  : completion (list response) * state :=
  match reqs with
  | [] => (Normal [], st)
  | (e, req) :: rest =>
      match handle PORT e req st with
      | (Normal r, st') =>
          match serve PORT rest st' with
          | (Normal rs, st'') => (Normal (r :: rs), st'')
          | (Throw, st'') => (Throw, st'')
          end
      | (Throw, st') => (Throw, st')
      end
  end.

(** The entries the ingest route writes: the entry of a payload that
    parses to a value other than [null]. *)
Definition accepted (v : value) : Prop :=
  exists e payload data,
    JSON_parse payload = Some data /\ data <> Null /\ v = stamped e data.

(** ** Sample inputs *)

Definition sample_env : env :=
  mkEnv 1700000000000 1700000000001 (str "k3j9") false.

Definition sample_disk : disk := mkDisk true (Some (str "stale" ++ [10])).

Definition no_boot_error : boot := mkBoot false false.

(** The state the start-up leaves. *)
Definition started : state := mkState (Some []) 0.

(** The payload of the scenario of the specification:
    location a.js:1, message x, hypothesisId A. *)
Definition sample_payload : jsstring :=
  str "{" ++ quoted "location" ++ str ":" ++ quoted "a.js:1" ++ str ","
  ++ quoted "message" ++ str ":" ++ quoted "x" ++ str ","
  ++ quoted "hypothesisId" ++ str ":" ++ quoted "A" ++ str "}".

(** An object whose [id] is the empty string. *)
Definition empty_id_payload : jsstring :=
  str "{" ++ quoted "id" ++ str ":" ++ quoted "" ++ str "}".

(** An object whose [location] has an own property [toString]. *)
Definition opaque_location_payload : jsstring :=
  str "{" ++ quoted "location" ++ str ":{" ++ quoted "toString"
  ++ str ":1}}".


(** ** Values in the form [JSON.parse] returns them *)

(** The digits of a number that is neither zero nor infinite: decimal
    digits, at least one, the first and the last of them not 0. *)
Definition significant (ds : jsstring) : bool :=
  forallb is_digit ds && negb (is_empty ds)
  && negb (hd 48 ds =? 48) && negb (last ds 48 =? 48).

Definition number_ok (x : number) : bool :=
  match x with
  | Dec _ ds n =>
      significant ds && negb (dec_underflows ds n) && negb (dec_overflows ds n)
  | _ => true
  end.

(** [precedes k k'] holds when a property [k] may stand in front of a
    property [k'] in the list of the own properties. *)
Definition precedes (k k' : jsstring) : bool :=
  match array_index k, array_index k' with
  | Some i, Some j => i <? j
  | Some _, None => true
  | None, Some _ => false
  | None, None => negb (jsstring_eqb k k')
  end.

Fixpoint keys_ordered (ps : list (jsstring * value)) : bool :=
  match ps with
  | [] => true
  | (k, _) :: rest =>
      forallb (fun p => precedes k (fst p)) rest && keys_ordered rest
  end.

Fixpoint value_ok (v : value) : bool :=
  match v with
  | Num x => number_ok x
  | Arr vs => forallb value_ok vs
  | Obj ps => keys_ordered ps && forallb (fun p => value_ok (snd p)) ps
  | _ => true
  end.

(** What [JSON.stringify] keeps of a value: an infinite number is written
    as [null]. *)
Fixpoint written (v : value) : value :=
  match v with
  | Num x => if is_finite x then v else Null
  | Arr vs => Arr (map written vs)
  | Obj ps => Obj (map (fun p => (fst p, written (snd p))) ps)
  | _ => v
  end.

(** The values all of whose numbers are finite. *)
Fixpoint all_finite (v : value) : bool :=
  match v with
  | Num x => is_finite x
  | Arr vs => forallb all_finite vs
  | Obj ps => forallb (fun p => all_finite (snd p)) ps
  | _ => true
  end.

(** The number of nested calls [parse_value] makes on the text of a
    value. *)
Fixpoint calls (v : value) : nat :=
  match v with
  | Arr vs => S (list_sum (map (fun v => S (calls v)) vs))
  | Obj ps => S (list_sum (map (fun p => S (calls (snd p))) ps))
  | _ => 1
  end.

(** The characters that may follow a number in a JSON text: anything that
    does not continue the token. *)
Definition ends_number (rest : jsstring) : bool :=
  negb (starts_with
          (fun c => is_digit c || (c =? 46) || (c =? 101) || (c =? 69)) rest).

(** The text of a log file that holds the entries [vs]. *)
Definition ndjson (vs : list value) : jsstring :=
  List.concat (map (fun v => JSON_stringify v ++ [10]) vs).

(** ** Induction on values *)

(** The induction principle of [value], with the hypotheses for the
    elements of an array and the properties of an object. *)
Section value_induction.
Variable P : value -> Prop.
Hypothesis PNull : P Null.
Hypothesis PBool : forall b, P (Bool b).
Hypothesis PNum : forall x, P (Num x).
Hypothesis PStr : forall s, P (Str s).
Hypothesis PArr : forall vs, Forall P vs -> P (Arr vs).
Hypothesis PObj : forall ps, Forall (fun p => P (snd p)) ps -> P (Obj ps).

Fixpoint value_ind (v : value) : P v :=
  match v with
  | Null => PNull
  | Bool b => PBool b
  | Num x => PNum x
  | Str s => PStr s
  | Arr vs =>
      PArr vs
        ((fix all (vs : list value) : Forall P vs :=
            match vs with
            | [] => Forall_nil P
            | v :: rest => Forall_cons v (value_ind v) (all rest)
            end) vs)
  | Obj ps =>
      PObj ps
        ((fix all (ps : list (jsstring * value))
            : Forall (fun p => P (snd p)) ps :=
            match ps with
            | [] => Forall_nil _
            | p :: rest => Forall_cons p (value_ind (snd p)) (all rest)
            end) ps)
  end.
End value_induction.

(** ** The command line *)

(** The characters [parseInt] skips in front of a number: white space and
    line terminators (tab to carriage return, space, no-break space, the
    space separators of Unicode, line and paragraph separator, and the
    byte order mark). *)
Definition is_StrWhiteSpaceChar (c : N) : bool :=
  (9 <=? c) && (c <=? 13) || (c =? 32) || (c =? 160) || (c =? 5760)
  || (8192 <=? c) && (c <=? 8202) || (c =? 8232) || (c =? 8233)
  || (c =? 8239) || (c =? 8287) || (c =? 12288) || (c =? 65279).

Fixpoint trim_start (t : jsstring) : jsstring :=
  match t with
  | c :: r => if is_StrWhiteSpaceChar c then trim_start r else t
  | [] => []
  end.

Fixpoint span_hex (t : jsstring) : jsstring * jsstring :=
  match t with
  | c :: r =>
      match hex_value c with
      | Some _ => let (ds, rest) := span_hex r in (c :: ds, rest)
      | None => ([], t)
      end
  | [] => ([], [])
  end.

Definition hex_digits_value (ds : jsstring) : N :=
  fold_left (fun acc c => acc * 16 + match hex_value c with
                                     | Some v => v
                                     | None => 0
                                     end) ds 0.

Definition negate (neg : bool) (x : number) : number :=
  match x with
  | Zero => Zero
  | Dec s ds n => Dec (xorb neg s) ds n
  | Infinity s => Infinity (xorb neg s)
  end.

(** [parseInt(string)] without a radix; [None] is NaN.  The sign is taken
    off first, then the prefix 0x or 0X, which selects radix 16; the number
    is the longest run of digits that follows, whatever comes behind it.
    As for the JSON numbers, rounding to 53 bits is not modelled: it moves
    no number across 65535, the only bound the script compares a port
    with, and it leaves the integers below 2^53 as they are written. *)
Definition parseInt (input : jsstring) : option number :=
  let S := trim_start input in
  let (neg, S) := match S with
                  | 45 :: r => (true, r)
                  | 43 :: r => (false, r)
                  | _ => (false, S)
                  end in
  let hex := match S with
             | 48 :: x :: r => if (x =? 120) || (x =? 88) then Some r else None
             | _ => None
             end in
  match hex with
  | Some r =>
      let (Z, _) := span_hex r in
      if is_empty Z then None
      else Some (negate neg (number_of_N (hex_digits_value Z)))
  | None =>
      let (Z, _) := span_digits S in
      if is_empty Z then None
      else Some (make_number neg Z (Z.of_nat (List.length Z)))
  end.

(** [parseInt(process.argv[2]) || 3947]; an argument that is not given is
    [undefined], which [parseInt] converts to the string undefined. *)
Definition PORT_of (argv2 : option jsstring) : number :=
  match parseInt (match argv2 with
                  | Some s => s
                  | None => str "undefined"
                  end) with
  | None | Some Zero => number_of_N 3947
  | Some x => x
  end.

Definition LOG_DIR : jsstring := str ".claude-logs".

(** [process.argv[3] || path.join(LOG_DIR, 'debug.ndjson')]; [path.join]
    puts the separator of the platform between the two names (47, the
    solidus, on POSIX; 92, the reverse solidus, on Windows). *)
Definition LOG_FILE_of (sep : N) (argv3 : option jsstring) : jsstring :=
  let default := LOG_DIR ++ [sep] ++ str "debug.ndjson" in
  match argv3 with
  | Some s => if is_empty s then default else s
  | None => default
  end.

(** ** Listening *)

(** The ports [server.listen] accepts: the integers from 0 to 65535.  Any
    other number makes it throw a RangeError. *)
Definition legal_port (x : number) : option N :=
  match x with
  | Zero => Some 0
  | Dec false ds n =>
      let k := Z.of_nat (List.length ds) in
      if (k <=? n)%Z
      then let p := digits_value ds * 10 ^ Z.to_N (n - k) in
           if p <=? 65535 then Some p else None
      else None
  | _ => None
  end.

(** The script from its first statement to the moment the server listens:
    the port it listens on and the state it starts with, or [Throw] when
    the process ends before; in both cases together with the log file as
    the script leaves it on the disk.  [listen_error] says that the port
    cannot be bound (it is in use, or the process may not bind it): the
    server then emits an error event nobody listens to, which ends the
    process. *)
Definition launch (argv2 : option jsstring) (d : disk) (b : boot)
  (listen_error : bool) : completion (N * state) * option jsstring :=
  let PORT := PORT_of argv2 in
  match startup d b with
  | Throw => (Throw, old_log_file d)
  | Normal st =>
      match legal_port PORT with
      | None => (Throw, log_file st)
      | Some p =>
          if listen_error then (Throw, log_file st)
          else (Normal (p, st), log_file st)
      end
  end.

(** [String.prototype.padEnd] with the default filler, the space. *)
Definition padEnd (maxLength : nat) (s : jsstring) : jsstring :=
  s ++ repeat 32 (maxLength - List.length s).

(** The rows of the box the callback of [server.listen] prints: the lines
    of its template literal between the first and the last line feed.  The
    box is drawn with the characters 9552 to 9571 (double lines). *)
Definition banner_rows (PORT : N) (LOG_FILE : jsstring) : list jsstring :=
  let bar (l r : N) := l :: repeat 9552 58 ++ [r] in
  let row (text : jsstring) := 9553 :: text ++ [9553] in
  [bar 9556 9559;
   row (str "           Hypothesis Debug Server Running                ");
   bar 9568 9571;
   row (str "  Port:     "
        ++ padEnd 44 (Number_toString (number_of_N PORT)));
   row (str "  Log file: " ++ padEnd 44 LOG_FILE);
   bar 9568 9571;
   row (str "  Endpoints:                                              ");
   row (str "    POST /debug  - Receive debug logs                     ");
   row (str "    GET  /health - Health check                           ");
   row (str "    GET  /logs   - Retrieve all logs                      ");
   row (str "    POST /clear  - Clear log file                         ");
   bar 9568 9571;
   row (str "  Press Ctrl+C to stop                                    ");
   bar 9562 9565].

(** ** Shutdown *)

(** The line the callback of [server.close] prints after SIGINT, in the
    state the server has when it has closed:
    [`Total logs received: ${logCount}`]. *)
Definition total_line (st : state) : jsstring :=
  str "Total logs received: " ++ Number_toString (number_of_N (logCount st)).

(** ** The server of the skill document *)

(** The script the skill document has written to [.claude-logs/server.js]
    (SKILL.md, Phase 2, Step 1): the same listener with two routes less,
    a fixed port and log file, no counter, and an [id] that is always
    assigned.  The start-up makes the directory and leaves the log
    file alone. *)
Definition inline_startup (d : disk) (b : boot) : completion state :=
  if negb (log_dir_exists d) && mkdir_error b then Throw
  else Normal (mkState (old_log_file d) 0).

(** The body of the [try] block of its ingest route. *)
Definition inline_ingest (e : env) (req : request) : js unit :=
  data <- of_option (JSON_parse (body req)) ;;
  data <- put data (str "id") (Str (fresh_id e)) ;;
  fs_appendFileSync (fs_error e) (JSON_stringify data ++ [10]) ;;
  res_writeHead 200 [] ;;
  res_end req (str "ok").

Definition inline_server (e : env) (req : request) : js unit :=
  res_setHeader (str "Access-Control-Allow-Origin") (str "*") ;;
  res_setHeader (str "Access-Control-Allow-Methods")
    (str "GET, POST, OPTIONS") ;;
  res_setHeader (str "Access-Control-Allow-Headers") (str "Content-Type") ;;
  if jsstring_eqb (method req) (str "OPTIONS") then
    res_writeHead 204 [] ;;
    res_end req []
  else if jsstring_eqb (url req) (str "/health") then
    res_writeHead 200 [] ;;
    res_end req (str "ok")
  else if jsstring_eqb (url req) (str "/debug")
          && jsstring_eqb (method req) (str "POST") then
    try_catch
      (inline_ingest e req)
      (res_writeHead 400 [] ;;
       res_end req (str "bad json"))
  else
    res_writeHead 404 [] ;;
    res_end req [].

Definition inline_handle (e : env) (req : request) (st : state)
  : completion response * state :=
  match inline_server e req (st, new_response) with
  | (Normal _, (st', r)) => (Normal r, st')
  | (Throw, (st', _)) => (Throw, st')
  end.

(** A run of requests against it. *)
Fixpoint inline_serve (reqs : list (env * request)) (st : state)
  : completion (list response) * state :=
  match reqs with
  | [] => (Normal [], st)
  | (e, req) :: rest =>
      match inline_handle e req st with
      | (Normal r, st') =>
          match inline_serve rest st' with
          | (Normal rs, st'') => (Normal (r :: rs), st'')
          | (Throw, st'') => (Throw, st'')
          end
      | (Throw, st') => (Throw, st')
      end
  end.

(** The value its ingest route serializes for the parsed value [data]. *)
Definition inline_entry (e : env) (data : value) : value :=
  match data with
  | Obj ps => Obj (set_property (str "id") (Str (fresh_id e)) ps)
  | _ => data
  end.

(** ** The instrumented program *)

(** The object the log call of the instrumentation templates passes to
    [JSON.stringify] (instrumentation-templates.md, JavaScript, and the
    skill document): seven properties in this order, [timestamp] being
    [Date.now()] and [data] an object of the values logged. *)
Definition log_call (location message : jsstring) (data : value)
  (timestamp : N) (sessionId runId hypothesisId : jsstring) : value :=
  Obj [(str "location", Str location);
       (str "message", Str message);
       (str "data", data);
       (str "timestamp", Num (number_of_N timestamp));
       (str "sessionId", Str sessionId);
       (str "runId", Str runId);
       (str "hypothesisId", Str hypothesisId)].

(** ** Well-formed strings *)

(** Whether a string is well-formed UTF-16 ([String.prototype.isWellFormed]):
    every surrogate is half of a pair.  These are the strings UTF-8 encodes
    without loss, so that what [fs.appendFileSync] has written is what
    [fs.readFileSync] returns. *)
Fixpoint well_formed (t : jsstring) : bool :=
  match t with
  | [] => true
  | c :: r =>
      if is_high_surrogate c then
        match r with
        | d :: r' => is_low_surrogate d && well_formed r'
        | [] => false
        end
      else negb (is_low_surrogate c) && well_formed r
  end.

(** Further sample inputs. *)

(** An object whose [id] is a non-empty string. *)
Definition own_id_payload : jsstring :=
  str "{" ++ quoted "id" ++ str ":" ++ quoted "mine" ++ str ","
  ++ quoted "message" ++ str ":" ++ quoted "m" ++ str "}".

Definition failing_env : env :=
  mkEnv 1700000000002 1700000000003 (str "zz9a") true.

(** An object whose [message] holds an unpaired surrogate, written as an
    escape. *)
Definition lone_surrogate_payload : jsstring :=
  str "{" ++ quoted "message" ++ str ":" ++ [34] ++ str "\ud83d" ++ [34]
  ++ str "}".

(** ** The body of a request *)

(** The state of the UTF-8 decoder between two bytes: the code point read
    so far, the number of bytes it still needs, and the range the next byte
    must lie in. *)
Record utf8_state : Type := mkUtf8 {
  code_point : N;
  bytes_needed : nat;
  lower_boundary : N;
  upper_boundary : N
}.

Definition utf8_initial : utf8_state := mkUtf8 0 0 128 191.

(** The code units of a code point. *)
Definition code_units (c : N) : jsstring :=
  if c <? 65536 then [c]
  else [55296 + (c - 65536) / 1024; 56320 + (c - 65536) mod 1024].

(** A byte that is met when no byte is needed: a character of its own, the
    first byte of a longer character, or an error, for which the decoder
    writes the replacement character 65533. *)
Definition utf8_lead (b : N) : jsstring * utf8_state :=
  if b <=? 127 then ([b], utf8_initial)
  else if (194 <=? b) && (b <=? 223) then ([], mkUtf8 (b mod 32) 1 128 191)
  else if (224 <=? b) && (b <=? 239) then
    ([], mkUtf8 (b mod 16) 2 (if b =? 224 then 160 else 128)
           (if b =? 237 then 159 else 191))
  else if (240 <=? b) && (b <=? 244) then
    ([], mkUtf8 (b mod 8) 3 (if b =? 240 then 144 else 128)
           (if b =? 244 then 143 else 191))
  else ([65533], utf8_initial).

(** The UTF-8 decoder of the platform.  A byte that cannot continue the
    character begun ends it with one replacement character and is then read
    as a first byte; so does the end of the bytes. *)
Fixpoint utf8_decode_from (s : utf8_state) (bytes : list N) : jsstring :=
  match bytes with
  | [] => match bytes_needed s with O => [] | S _ => [65533] end
  | b :: rest =>
      match bytes_needed s with
      | O => let (out, s') := utf8_lead b in out ++ utf8_decode_from s' rest
      | S k =>
          if (lower_boundary s <=? b) && (b <=? upper_boundary s) then
            let c := code_point s * 64 + b mod 64 in
            match k with
            | O => code_units c ++ utf8_decode_from utf8_initial rest
            | S _ => utf8_decode_from (mkUtf8 c k 128 191) rest
            end
          else
            let (out, s') := utf8_lead b in
            65533 :: out ++ utf8_decode_from s' rest
      end
  end.

(** [chunk.toString()] for a Buffer [chunk], which is what [body += chunk]
    appends: the chunk is decoded by itself, from the initial state. *)
Definition Buffer_toString (chunk : list N) : jsstring :=
  utf8_decode_from utf8_initial chunk.

(** [let body = ''; req.on('data', chunk => body += chunk)]: the string the
    end handler finds, for the chunks in which the body has arrived. *)
Definition collect (chunks : list (list N)) : jsstring :=
  fold_left (fun body chunk => body ++ Buffer_toString chunk) chunks [].

(** The bytes of a code point in UTF-8. *)
Definition encode_code_point (c : N) : list N :=
  if c <? 128 then [c]
  else if c <? 2048 then [192 + c / 64; 128 + c mod 64]
  else if c <? 65536 then
    [224 + c / 4096; 128 + (c / 64) mod 64; 128 + c mod 64]
  else [240 + c / 262144; 128 + (c / 4096) mod 64; 128 + (c / 64) mod 64;
        128 + c mod 64].

(** The bytes a sender puts on the wire for a string: its UTF-8 encoding,
    a surrogate that is not half of a pair being replaced by the
    replacement character. *)
Fixpoint utf8_encode (s : jsstring) : list N :=
  match s with
  | [] => []
  | c :: r =>
      if is_high_surrogate c then
        match r with
        | d :: r' =>
            if is_low_surrogate d
            then encode_code_point
                   (65536 + (c - 55296) * 1024 + (d - 56320))
                 ++ utf8_encode r'
            else [239; 191; 189] ++ utf8_encode r
        | [] => [239; 191; 189]
        end
      else if is_low_surrogate c then [239; 191; 189] ++ utf8_encode r
      else encode_code_point c ++ utf8_encode r
  end.

(** ** Numbers a double holds to the digit *)



(** ** The entries of a run *)

(** The entry a request adds to the log file, if it adds one: the request
    is a POST to /debug, its body parses to a value other than [null], and
    the append succeeds. *)
Definition entry_of (e : env) (req : request) : option value :=
  if jsstring_eqb (url req) (str "/debug")
     && jsstring_eqb (method req) (str "POST") then
    match JSON_parse (body req) with
    | None | Some Null => None
    | Some data => if fs_error e then None else Some (stamped e data)
    end
  else None.

(** The entries of a run of requests, in the order of the requests. *)
Definition entries_of (reqs : list (env * request)) : list value :=
  flat_map (fun er => match entry_of (fst er) (snd er) with
                      | Some v => [v]
                      | None => []
                      end) reqs.





(** The log call as the templates write it, and its body in two pieces. *)
Definition sample_call : value :=
  log_call (str "filename.js:15") (str "Function entry")
    (Obj [(str "a", Num (number_of_N 5))]) 1700000000000
    (str "SESSION_ID") (str "initial") (str "A").

Definition sample_call_pieces : list jsstring :=
  [firstn 40 (JSON_stringify sample_call);
   skipn 40 (JSON_stringify sample_call)].

(** * Properties *)

(** ** Strings and digits *)

Lemma jsstring_eqb_eq (a b : jsstring) : jsstring_eqb a b = true <-> a = b.
Proof.
  revert b; induction a as [|x a IH]; intros [|y b]; simpl; split;
    try congruence; try reflexivity.
  - rewrite andb_true_iff, N.eqb_eq, IH. intros [-> ->]; reflexivity.
  - intros H; injection H as -> ->.
    rewrite N.eqb_refl; simpl. apply IH; reflexivity.
Qed.

Lemma jsstring_eqb_refl (a : jsstring) : jsstring_eqb a a = true.
Proof. apply jsstring_eqb_eq; reflexivity. Qed.

Lemma jsstring_eqb_neq (a b : jsstring) : jsstring_eqb a b = false <-> a <> b.
Proof.
  rewrite <- jsstring_eqb_eq. destruct (jsstring_eqb a b); split; congruence.
Qed.

Lemma jsstring_eqb_sym (a b : jsstring) : jsstring_eqb a b = jsstring_eqb b a.
Proof.
  destruct (jsstring_eqb a b) eqn:E.
  - apply jsstring_eqb_eq in E; subst. symmetry; apply jsstring_eqb_refl.
  - symmetry. apply jsstring_eqb_neq. apply jsstring_eqb_neq in E. congruence.
Qed.

Lemma strip_prefix_app (p rest : jsstring) : strip_prefix p (p ++ rest) = Some rest.
Proof.
  induction p as [|x p IH]; simpl; [reflexivity|].
  rewrite N.eqb_refl; exact IH.
Qed.

Lemma is_digit_spec (c : N) : is_digit c = true <-> 48 <= c <= 57.
Proof. unfold is_digit. rewrite andb_true_iff, !N.leb_le. reflexivity. Qed.

Lemma uint_chars_digits (u : Decimal.uint) : forallb is_digit (uint_chars u) = true.
Proof. induction u; simpl; auto. Qed.

Lemma chars_uint_uint_chars (u : Decimal.uint) : chars_uint (uint_chars u) = u.
Proof. induction u; simpl; try rewrite IHu; reflexivity. Qed.

Lemma digit_cases (c : N) :
  is_digit c = true ->
  c = 48 \/ c = 49 \/ c = 50 \/ c = 51 \/ c = 52 \/
  c = 53 \/ c = 54 \/ c = 55 \/ c = 56 \/ c = 57.
Proof. rewrite is_digit_spec. lia. Qed.

Lemma uint_chars_chars_uint (ds : jsstring) :
  forallb is_digit ds = true -> uint_chars (chars_uint ds) = ds.
Proof.
  induction ds as [|c ds IH]; simpl; [reflexivity|].
  rewrite andb_true_iff. intros [Hc Hds].
  destruct (digit_cases c Hc) as [->|[->|[->|[->|[->|[->|[->|[->|[->| ->]]]]]]]]];
    simpl; rewrite (IH Hds); reflexivity.
Qed.

Lemma digits_value_decimal (n : N) : digits_value (decimal n) = n.
Proof.
  unfold digits_value, decimal. rewrite chars_uint_uint_chars.
  apply DecimalN.Unsigned.of_to.
Qed.

Lemma decimal_digits (n : N) : forallb is_digit (decimal n) = true.
Proof. apply uint_chars_digits. Qed.

Lemma decimal_nonempty (n : N) : is_empty (decimal n) = false.
Proof.
  unfold decimal. destruct n as [|p]; [reflexivity|]. simpl.
  pose proof (DecimalPos.Unsigned.to_uint_nonnil p) as H.
  destruct (Pos.to_uint p); [congruence| reflexivity ..].
Qed.

(** A digit string that is [0] or does not start with 0 is the decimal
    form of its value. *)
Lemma decimal_digits_value (c : N) (more : jsstring) :
  forallb is_digit (c :: more) = true ->
  (c =? 48) && negb (is_empty more) = false ->
  decimal (digits_value (c :: more)) = c :: more.
Proof.
  intros Hd Hz. unfold decimal, digits_value.
  rewrite DecimalN.Unsigned.to_of.
  rewrite <- (uint_chars_chars_uint (c :: more) Hd) at 2. f_equal.
  simpl in Hd. apply andb_true_iff in Hd as [Hc Hm].
  destruct (digit_cases c Hc) as [->|[->|[->|[->|[->|[->|[->|[->|[->| ->]]]]]]]]];
    simpl; try reflexivity.
  destruct more; [reflexivity | discriminate].
Qed.

Lemma span_digits_app (ds rest : jsstring) :
  forallb is_digit ds = true ->
  starts_with is_digit rest = false ->
  span_digits (ds ++ rest) = (ds, rest).
Proof.
  intros Hds Hrest. induction ds as [|c ds IH]; simpl.
  - destruct rest as [|c r]; [reflexivity|]. simpl in *. rewrite Hrest. reflexivity.
  - simpl in Hds. apply andb_true_iff in Hds as [Hc Hds].
    rewrite Hc, (IH Hds). reflexivity.
Qed.

Lemma span_digits_spec (t : jsstring) :
  forallb is_digit (fst (span_digits t)) = true /\
  fst (span_digits t) ++ snd (span_digits t) = t.
Proof.
  induction t as [|c t [IH1 IH2]]; simpl; [auto|].
  destruct (is_digit c) eqn:Hc; [|auto].
  destruct (span_digits t) as [ds rest]; simpl in *.
  rewrite Hc, IH1, IH2. auto.
Qed.

(** ** Numbers *)

Lemma strip_leading_zeros (m : nat) (ds : jsstring) (n : Z) :
  strip_leading (repeat 48 m ++ ds) n = strip_leading ds (n - Z.of_nat m)%Z.
Proof.
  revert n; induction m as [|m IH]; intros n; simpl repeat; simpl app.
  - f_equal; lia.
  - simpl. rewrite IH. f_equal; lia.
Qed.

Lemma strip_leading_head (ds : jsstring) (n : Z) :
  (hd 48 ds =? 48) = false -> strip_leading ds n = (ds, n).
Proof. destruct ds as [|c r]; simpl; [discriminate|]. intros ->; reflexivity. Qed.

Lemma strip_trailing_zeros (m : nat) (ds : jsstring) :
  strip_trailing (ds ++ repeat 48 m) = strip_trailing ds.
Proof.
  assert (Hz : strip_trailing (repeat 48 m) = []).
  { induction m as [|m IH]; simpl; [reflexivity|]. rewrite IH; reflexivity. }
  induction ds as [|c r IH]; simpl; [exact Hz|]. rewrite IH; reflexivity.
Qed.

Lemma strip_trailing_last (ds : jsstring) :
  is_empty ds = false -> (last ds 48 =? 48) = false -> strip_trailing ds = ds.
Proof.
  induction ds as [|c r IH]; [discriminate|]. intros _ Hl.
  destruct r as [|c' r'].
  - simpl in *. rewrite Hl; reflexivity.
  - change (last (c :: c' :: r') 48) with (last (c' :: r') 48) in Hl.
    change (strip_trailing (c :: c' :: r'))
      with (match strip_trailing (c' :: r') with
            | [] => if c =? 48 then [] else [c]
            | r0 => c :: r0 end).
    rewrite (IH eq_refl Hl). reflexivity.
Qed.

Lemma significant_digits (ds : jsstring) :
  significant ds = true ->
  forallb is_digit ds = true /\ is_empty ds = false /\
  (hd 48 ds =? 48) = false /\ (last ds 48 =? 48) = false.
Proof.
  unfold significant. rewrite !andb_true_iff, !negb_true_iff. tauto.
Qed.

Lemma strip_leading_spec (ds : jsstring) (n : Z) :
  forallb is_digit ds = true ->
  forallb is_digit (fst (strip_leading ds n)) = true /\
  (is_empty (fst (strip_leading ds n)) = true \/
   (hd 48 (fst (strip_leading ds n)) =? 48) = false).
Proof.
  revert n; induction ds as [|c r IH]; intros n Hd; simpl; [auto|].
  simpl in Hd. apply andb_true_iff in Hd as [Hc Hr].
  destruct (c =? 48) eqn:E; [apply IH; exact Hr|].
  simpl. rewrite Hc, Hr, E. auto.
Qed.

Lemma strip_trailing_spec (ds : jsstring) :
  forallb is_digit ds = true ->
  forallb is_digit (strip_trailing ds) = true /\
  (is_empty (strip_trailing ds) = true \/
   (last (strip_trailing ds) 48 =? 48) = false) /\
  ((hd 48 ds =? 48) = false ->
   is_empty ds = false ->
   is_empty (strip_trailing ds) = false /\
   hd 48 (strip_trailing ds) = hd 48 ds).
Proof.
  induction ds as [|c r IH]; intros Hd; [simpl; auto|].
  simpl in Hd. apply andb_true_iff in Hd as [Hc Hr].
  destruct (IH Hr) as (IH1 & IH2 & _). simpl.
  destruct (strip_trailing r) as [|c' r'] eqn:E.
  - destruct (c =? 48) eqn:Ec; simpl.
    + repeat split; auto; try (intros; congruence).
    + rewrite Hc, Ec. repeat split; auto.
  - split; [|split].
    + simpl. rewrite Hc. exact IH1.
    + right. destruct IH2 as [IH2|IH2]; [discriminate|].
      change (last (c :: c' :: r') 48) with (last (c' :: r') 48). exact IH2.
    + intros _ _. split; reflexivity.
Qed.

Lemma make_number_ok (neg : bool) (ds : jsstring) (n : Z) :
  forallb is_digit ds = true -> number_ok (make_number neg ds n) = true.
Proof.
  intros Hd. unfold make_number.
  pose proof (strip_leading_spec ds n Hd) as [H1 H2].
  destruct (strip_leading ds n) as [ds1 n1]; simpl in H1, H2.
  pose proof (strip_trailing_spec ds1 H1) as (H3 & H4 & H5).
  destruct (is_empty (strip_trailing ds1)) eqn:E; [reflexivity|].
  destruct (dec_underflows (strip_trailing ds1) n1) eqn:U; [reflexivity|].
  destruct (dec_overflows (strip_trailing ds1) n1) eqn:O; [reflexivity|].
  simpl. rewrite U, O. unfold significant. rewrite H3, E. simpl.
  destruct H4 as [H4|H4]; [congruence|]. rewrite H4.
  destruct H2 as [H2|H2].
  - destruct ds1; [discriminate E | discriminate H2].
  - destruct (H5 H2) as [_ H6].
    + destruct ds1; [discriminate E | reflexivity].
    + rewrite H6, H2. reflexivity.
Qed.

Lemma make_number_significant (neg : bool) (ds : jsstring) (n : Z) :
  number_ok (Dec neg ds n) = true -> make_number neg ds n = Dec neg ds n.
Proof.
  simpl. rewrite !andb_true_iff, !negb_true_iff. intros [[Hs U] O].
  apply significant_digits in Hs as (Hd & He & Hh & Hl).
  unfold make_number. rewrite (strip_leading_head ds n Hh).
  rewrite (strip_trailing_last ds He Hl), He, U, O. reflexivity.
Qed.

Lemma number_of_N_ok (n : N) : number_ok (number_of_N n) = true.
Proof. apply make_number_ok, decimal_digits. Qed.

Lemma ends_number_spec (rest : jsstring) :
  ends_number rest = true ->
  starts_with is_digit rest = false /\
  starts_with (fun c => c =? 46) rest = false /\
  starts_with (fun c => (c =? 101) || (c =? 69)) rest = false.
Proof.
  unfold ends_number. rewrite negb_true_iff.
  destruct rest as [|c r]; simpl; [auto|].
  rewrite !orb_false_iff. intros [[[-> ->] ->] ->]; auto.
Qed.

Lemma lex_sign_prefix (neg : bool) (t : jsstring) :
  starts_with (fun c => c =? 45) t = false ->
  lex_sign (sign_prefix neg ++ t) = (neg, t).
Proof.
  destruct neg; simpl; [reflexivity|].
  destruct t as [|c r]; simpl; [reflexivity|]. intros ->; reflexivity.
Qed.

Lemma lex_int_app (c : N) (more rest : jsstring) :
  forallb is_digit (c :: more) = true ->
  (c =? 48) && negb (is_empty more) = false ->
  starts_with is_digit rest = false ->
  lex_int ((c :: more) ++ rest) = Some (c :: more, rest).
Proof.
  intros Hd Hz Hr. unfold lex_int.
  rewrite (span_digits_app (c :: more) rest Hd Hr), Hz. reflexivity.
Qed.

Lemma lex_frac_absent (rest : jsstring) :
  starts_with (fun c => c =? 46) rest = false -> lex_frac rest = Some ([], rest).
Proof. destruct rest as [|c r]; simpl; [reflexivity|]. intros ->; reflexivity. Qed.

Lemma lex_frac_digits (ds rest : jsstring) :
  forallb is_digit ds = true -> is_empty ds = false ->
  starts_with is_digit rest = false ->
  lex_frac (46 :: ds ++ rest) = Some (ds, rest).
Proof.
  intros Hd He Hr. unfold lex_frac. rewrite N.eqb_refl.
  rewrite (span_digits_app ds rest Hd Hr), He. reflexivity.
Qed.

Lemma lex_exp_absent (rest : jsstring) :
  starts_with (fun c => (c =? 101) || (c =? 69)) rest = false ->
  lex_exp rest = Some (0%Z, rest).
Proof. destruct rest as [|c r]; simpl; [reflexivity|]. intros ->; reflexivity. Qed.

Lemma lex_exp_decimal (e : Z) (rest : jsstring) :
  starts_with is_digit rest = false ->
  lex_exp (101 :: ((if (e <? 0)%Z then str "-" else str "+")
                   ++ decimal (Z.abs_N e)) ++ rest) = Some (e, rest).
Proof.
  intros Hr.
  assert (Hspan : span_digits (decimal (Z.abs_N e) ++ rest)
                  = (decimal (Z.abs_N e), rest))
    by (apply span_digits_app; [apply decimal_digits | exact Hr]).
  destruct (e <? 0)%Z eqn:E;
    [change (str "-") with [45] | change (str "+") with [43]];
    cbn [app lex_exp]; rewrite N.eqb_refl; cbn [orb N.eqb Pos.eqb];
    rewrite Hspan, decimal_nonempty, digits_value_decimal; do 2 f_equal.
  - apply Z.ltb_lt in E. rewrite N2Z.inj_abs_N. lia.
  - apply Z.ltb_ge in E. rewrite N2Z.inj_abs_N. lia.
Qed.

Lemma forallb_firstn {A : Type} (p : A -> bool) (n : nat) (l : list A) :
  forallb p l = true -> forallb p (firstn n l) = true.
Proof.
  revert n; induction l as [|x l IH]; intros [|n]; simpl; auto.
  rewrite !andb_true_iff. intros [-> H]; auto.
Qed.

Lemma forallb_skipn {A : Type} (p : A -> bool) (n : nat) (l : list A) :
  forallb p l = true -> forallb p (skipn n l) = true.
Proof.
  revert n; induction l as [|x l IH]; intros [|n]; simpl; auto.
  rewrite !andb_true_iff. intros [_ H]; auto.
Qed.

Lemma forallb_repeat {A : Type} (p : A -> bool) (x : A) (n : nat) :
  p x = true -> forallb p (repeat x n) = true.
Proof. intros H; induction n; simpl; [reflexivity|]. rewrite H; exact IHn. Qed.

Lemma make_number_padded (neg : bool) (ds : jsstring) (n : Z) (a b : nat) :
  number_ok (Dec neg ds n) = true ->
  make_number neg (repeat 48 a ++ ds ++ repeat 48 b) (n + Z.of_nat a)
  = Dec neg ds n.
Proof.
  intros Hok. pose proof (make_number_significant neg ds n Hok) as Hmk.
  simpl in Hok. apply andb_true_iff in Hok as [Hok _].
  apply andb_true_iff in Hok as [Hs _].
  apply significant_digits in Hs as (Hd & He & Hh & Hl).
  unfold make_number in *. rewrite strip_leading_zeros.
  replace (n + Z.of_nat a - Z.of_nat a)%Z with n by lia.
  assert (Hh' : (hd 48 (ds ++ repeat 48 b) =? 48) = false)
    by (destruct ds; [discriminate He | exact Hh]).
  rewrite (strip_leading_head _ n Hh'), strip_trailing_zeros.
  rewrite (strip_leading_head _ n Hh) in Hmk. exact Hmk.
Qed.

Lemma lex_number_compose (neg : bool) (t1 int t2 frac t3 : jsstring) (e : Z)
  (t4 : jsstring) (x : number) :
  starts_with (fun c => c =? 45) t1 = false ->
  lex_int t1 = Some (int, t2) ->
  lex_frac t2 = Some (frac, t3) ->
  lex_exp t3 = Some (e, t4) ->
  make_number neg (int ++ frac) (Z.of_nat (List.length int) + e) = x ->
  lex_number (sign_prefix neg ++ t1) = Some (x, t4).
Proof.
  intros H45 Hi Hf He Hx. unfold lex_number.
  rewrite (lex_sign_prefix neg t1 H45), Hi, Hf, He, Hx. reflexivity.
Qed.

(** Reading back what [Number::toString] prints gives the number. *)
Lemma lex_number_toString (x : number) (rest : jsstring) :
  number_ok x = true -> is_finite x = true -> ends_number rest = true ->
  lex_number (Number_toString x ++ rest) = Some (x, rest).
Proof.
  intros Hok Hfin Hrest.
  destruct (ends_number_spec rest Hrest) as (Rd & Rp & Re).
  destruct x as [|neg ds n|neg]; [| |discriminate].
  - (* zero *)
    apply (lex_number_compose false ([48] ++ rest) [48] rest [] rest 0%Z);
      try reflexivity.
    + apply lex_int_app; [reflexivity | reflexivity | exact Rd].
    + apply lex_frac_absent; exact Rp.
    + apply lex_exp_absent; exact Re.
  - pose proof (make_number_padded neg ds n) as Hmk.
    specialize (fun a b => Hmk a b Hok).
    simpl in Hok. apply andb_true_iff in Hok as [Hok _].
    apply andb_true_iff in Hok as [Hs _].
    apply significant_digits in Hs as (Hd & He & Hh & Hl).
    destruct ds as [|d more]; [discriminate|]. simpl in Hh.
    assert (Hdd : is_digit d = true /\ forallb is_digit more = true)
      by (simpl in Hd; apply andb_true_iff in Hd; exact Hd).
    destruct Hdd as [Hd1 Hd2].
    assert (Hm45 : (d =? 45) = false)
      by (apply N.eqb_neq; apply is_digit_spec in Hd1; lia).
    unfold Number_toString. rewrite <- app_assoc.
    set (k := Z.of_nat (List.length (d :: more))).
    assert (Hk : k = Z.of_nat (List.length (d :: more))) by reflexivity.
    destruct ((k <=? n)%Z && (n <=? 21)%Z) eqn:C1;
      [|destruct ((0 <? n)%Z && (n <=? 21)%Z) eqn:C2;
        [|destruct ((-6 <? n)%Z && (n <=? 0)%Z) eqn:C3]].
    + (* the digits followed by zeros *)
      apply andb_true_iff in C1 as [C1 _]. apply Z.leb_le in C1.
      set (m := Z.to_nat (n - k)).
      apply (lex_number_compose neg _ ((d :: more) ++ repeat 48 m) rest
               [] rest 0%Z).
      * simpl. exact Hm45.
      * apply (lex_int_app d (more ++ repeat 48 m) rest); [| |exact Rd].
        -- simpl. rewrite Hd1, forallb_app, Hd2.
           apply forallb_repeat; reflexivity.
        -- rewrite Hh; reflexivity.
      * apply lex_frac_absent; exact Rp.
      * apply lex_exp_absent; exact Re.
      * rewrite app_nil_r, length_app, repeat_length, <- (Hmk 0%nat m).
        f_equal. subst m. lia.
    + (* a decimal point inside the digits *)
      apply andb_true_iff in C2 as [C2 C2']. apply Z.ltb_lt in C2.
      rewrite C2', andb_true_r in C1. apply Z.leb_gt in C1.
      set (p := Z.to_nat n).
      assert (Hp : (p < List.length (d :: more))%nat) by (subst p; lia).
      assert (Hp0 : (0 < p)%nat) by (subst p; lia).
      apply (lex_number_compose neg _ (firstn p (d :: more))
               (46 :: skipn p (d :: more) ++ rest)
               (skipn p (d :: more)) rest 0%Z rest).
      * destruct p; [lia|]. simpl. exact Hm45.
      * destruct p as [|p']; [lia|]. rewrite <- app_assoc.
        change (firstn (S p') (d :: more)) with (d :: firstn p' more).
        apply (lex_int_app d (firstn p' more)); [| |reflexivity].
        -- simpl. rewrite Hd1. apply forallb_firstn; exact Hd2.
        -- rewrite Hh; reflexivity.
      * apply lex_frac_digits; [apply forallb_skipn; exact Hd | | exact Rd].
        destruct (skipn p (d :: more)) eqn:E; [|reflexivity].
        apply (f_equal (@List.length N)) in E. rewrite length_skipn in E.
        cbn [List.length] in E, Hp. lia.
      * apply lex_exp_absent; exact Re.
      * rewrite firstn_skipn, length_firstn, <- (Hmk 0%nat 0%nat), app_nil_r.
        f_equal. subst p. simpl in Hp |- *. lia.
    + (* zeros between the decimal point and the digits *)
      apply andb_true_iff in C3 as [C3 C3']. apply Z.ltb_lt in C3.
      apply Z.leb_le in C3'.
      set (m := Z.to_nat (- n)).
      change (str "0.") with [48; 46].
      apply (lex_number_compose neg _ [48]
               (46 :: (repeat 48 m ++ d :: more) ++ rest)
               (repeat 48 m ++ d :: more) rest 0%Z rest).
      * reflexivity.
      * rewrite <- app_assoc. apply (lex_int_app 48 []); reflexivity.
      * apply lex_frac_digits; [| |exact Rd].
        -- rewrite forallb_app, Hd, forallb_repeat; reflexivity.
        -- destruct m; reflexivity.
      * apply lex_exp_absent; exact Re.
      * change ([48] ++ repeat 48 m ++ d :: more)
          with (repeat 48 (S m) ++ d :: more).
        rewrite <- (Hmk (S m) 0%nat), app_nil_r. f_equal. subst m. simpl List.length. lia.
    + (* exponent notation *)
      set (e := (n - 1)%Z).
      set (es := (if (e <? 0)%Z then str "-" else str "+")
                 ++ decimal (Z.abs_N e)).
      assert (Hes : lex_exp (101 :: es ++ rest) = Some (e, rest))
        by (apply lex_exp_decimal; exact Rd).
      destruct more as [|d' more'].
      * apply (lex_number_compose neg _ [d] (101 :: es ++ rest)
                 [] (101 :: es ++ rest) e rest).
        -- simpl. exact Hm45.
        -- change (str "e") with [101].
           apply (lex_int_app d [] (101 :: es ++ rest)); [| |reflexivity].
           ++ simpl. rewrite Hd1; reflexivity.
           ++ apply andb_false_r.
        -- apply lex_frac_absent; reflexivity.
        -- exact Hes.
        -- rewrite <- (Hmk 0%nat 0%nat). simpl app. f_equal. subst e. simpl List.length. lia.
      * apply (lex_number_compose neg _ [d]
                 (46 :: (d' :: more') ++ 101 :: es ++ rest)
                 (d' :: more') (101 :: es ++ rest) e rest).
        -- simpl. exact Hm45.
        -- change (str ".") with [46]. change (str "e") with [101].
           replace ((d :: [46] ++ (d' :: more') ++ [101] ++ es) ++ rest)
             with ([d] ++ 46 :: (d' :: more') ++ 101 :: es ++ rest)
             by (simpl; rewrite <- !app_assoc; reflexivity).
           apply (lex_int_app d []); [| |reflexivity].
           ++ simpl. rewrite Hd1; reflexivity.
           ++ apply andb_false_r.
        -- apply lex_frac_digits; [exact Hd2 | reflexivity | reflexivity].
        -- exact Hes.
        -- rewrite <- (Hmk 0%nat 0%nat). simpl app. rewrite app_nil_r.
           f_equal. subst e. simpl List.length. lia.
Qed.

(** ** The numbers of the integers *)

Lemma usize_chars_uint (ds : jsstring) :
  DecimalPos.Unsigned.usize (chars_uint ds) = N.of_nat (List.length ds).
Proof.
  induction ds as [|c ds IH]; [reflexivity|].
  cbn [chars_uint List.length]. rewrite Nat2N.inj_succ, <- IH.
  unfold digit_uint. destruct (c - 48) as [|[[[|[]|]|[|[]|]|]|[[|[]|]|[|[]|]|]|]];
    reflexivity.
Qed.

Lemma digits_value_cons (c : N) (ds : jsstring) :
  is_digit c = true ->
  digits_value (c :: ds)
  = (c - 48) * 10 ^ N.of_nat (List.length ds) + digits_value ds.
Proof.
  intros Hc. unfold digits_value. rewrite <- usize_chars_uint.
  cbn [chars_uint]. unfold N.of_uint.
  rewrite !DecimalPos.Unsigned.of_uint_alt.
  destruct (digit_cases c Hc) as [->|[->|[->|[->|[->|[->|[->|[->|[->| ->]]]]]]]]];
    cbn [digit_uint N.sub Pos.sub_mask Pos.pred_double Pos.succ_double_mask
         Pos.double_mask Pos.double_pred_mask];
    unfold Decimal.rev; cbn [Decimal.revapp];
    rewrite DecimalPos.Unsigned.of_lu_revapp; cbn [DecimalPos.Unsigned.of_lu];
    unfold Decimal.rev; lia.
Qed.

Lemma digits_value_lt (ds : jsstring) :
  forallb is_digit ds = true ->
  digits_value ds < 10 ^ N.of_nat (List.length ds).
Proof.
  induction ds as [|c ds IH]; intros Hd; [reflexivity|].
  cbn [forallb] in Hd. apply andb_true_iff in Hd as [Hc Hds].
  rewrite (digits_value_cons c ds Hc). specialize (IH Hds).
  cbn [List.length]. rewrite Nat2N.inj_succ, N.pow_succ_r'.
  apply is_digit_spec in Hc. nia.
Qed.

Lemma digits_value_ge (c : N) (ds : jsstring) :
  is_digit c = true -> (c =? 48) = false ->
  10 ^ N.of_nat (List.length ds) <= digits_value (c :: ds).
Proof.
  intros Hc Hz. rewrite (digits_value_cons c ds Hc).
  apply is_digit_spec in Hc. apply N.eqb_neq in Hz. nia.
Qed.

Lemma digits_value_app (ds ds' : jsstring) :
  forallb is_digit ds = true ->
  digits_value (ds ++ ds')
  = digits_value ds * 10 ^ N.of_nat (List.length ds') + digits_value ds'.
Proof.
  induction ds as [|c ds IH]; intros Hd; [reflexivity|].
  cbn [forallb] in Hd. apply andb_true_iff in Hd as [Hc Hds].
  cbn [app]. rewrite !(digits_value_cons c _ Hc), (IH Hds), length_app.
  rewrite Nat2N.inj_add, N.pow_add_r. lia.
Qed.

Lemma digits_value_zeros (m : nat) : digits_value (repeat 48 m) = 0.
Proof.
  induction m as [|m IH]; [reflexivity|].
  cbn [repeat]. rewrite (digits_value_cons 48 _ eq_refl), IH. reflexivity.
Qed.

Lemma strip_trailing_split (ds : jsstring) :
  exists m, ds = strip_trailing ds ++ repeat 48 m.
Proof.
  induction ds as [|c ds [m IH]]; [exists 0%nat; reflexivity|].
  cbn [strip_trailing]. destruct (strip_trailing ds) as [|c' r] eqn:E.
  - destruct (N.eqb_spec c 48) as [->|].
    + exists (S m). rewrite IH. reflexivity.
    + exists m. rewrite IH at 1. reflexivity.
  - exists m. rewrite IH at 1. reflexivity.
Qed.

Lemma to_uint_head (p : positive) :
  match Pos.to_uint p with
  | Decimal.Nil | Decimal.D0 _ => False
  | _ => True
  end.
Proof.
  pose proof (DecimalPos.Unsigned.to_of (Pos.to_uint p)) as H.
  rewrite DecimalPos.Unsigned.of_to in H. cbn [N.to_uint] in H.
  pose proof (DecimalPos.Unsigned.to_uint_nonnil p) as Hnil.
  pose proof (DecimalPos.Unsigned.to_uint_nonzero p) as Hzero.
  destruct (Pos.to_uint p) as [|u| | | | | | | | |]; try exact I;
    [congruence|].
  rewrite DecimalFacts.unorm_D0 in H.
  destruct u as [|u| | | | | | | | |];
    try (exfalso; apply Hzero; reflexivity);
    match type of H with
    | _ = Decimal.unorm ?v =>
        pose proof (DecimalFacts.nb_digits_unorm v ltac:(discriminate)) as L;
          rewrite <- H in L; cbn [Decimal.nb_digits] in L; lia
    end.
Qed.

(** The decimal form of a positive number does not start with 0. *)
Lemma decimal_head (n : N) :
  0 < n -> (hd 48 (decimal n) =? 48) = false.
Proof.
  destruct n as [|p]; [lia|]. intros _. unfold decimal. cbn [N.to_uint].
  pose proof (to_uint_head p) as H.
  destruct (Pos.to_uint p); try contradiction; reflexivity.
Qed.

(** The number of a positive integer below 10^21: its digits without the
    trailing zeros, the decimal point behind the last digit of the
    integer. *)
Lemma number_of_N_small (n : N) :
  0 < n -> n < 10 ^ 21 ->
  exists m,
    decimal n = strip_trailing (decimal n) ++ repeat 48 m /\
    (List.length (decimal n) <= 21)%nat /\
    number_of_N n
    = Dec false (strip_trailing (decimal n))
        (Z.of_nat (List.length (decimal n))).
Proof.
  intros Hpos Hlt. unfold number_of_N.
  pose proof (decimal_head n Hpos) as Hhd.
  pose proof (decimal_digits n) as Hd.
  pose proof (decimal_nonempty n) as Hne.
  pose proof (digits_value_decimal n) as Hv.
  destruct (strip_trailing_split (decimal n)) as [m Hm].
  set (ds := decimal n) in *. set (ds2 := strip_trailing ds) in *.
  destruct (strip_trailing_spec ds Hd) as (Hd2 & _ & H2).
  destruct (H2 Hhd Hne) as [Hne2 _]. fold ds2 in Hd2, Hne2.
  assert (Hk : (List.length ds <= 21)%nat).
  { destruct ds as [|c more] eqn:E; [discriminate|].
    cbn [forallb] in Hd. apply andb_true_iff in Hd as [Hc _].
    pose proof (digits_value_ge c more Hc Hhd) as Hge. rewrite Hv in Hge.
    cbn [List.length].
    destruct (Nat.le_gt_cases (List.length more) 20) as [|Hbig]; [lia|].
    exfalso. assert (10 ^ 21 <= 10 ^ N.of_nat (List.length more))
      by (apply N.pow_le_mono_r; lia). lia. }
  assert (Hlen : List.length ds = (List.length ds2 + m)%nat)
    by (rewrite Hm at 1; rewrite length_app, repeat_length; reflexivity).
  assert (Hval : digits_value ds2 * 10 ^ N.of_nat m = n).
  { rewrite <- Hv, Hm, (digits_value_app ds2 _ Hd2), digits_value_zeros.
    rewrite repeat_length. lia. }
  exists m. split; [exact Hm|]. split; [exact Hk|].
  unfold make_number. rewrite (strip_leading_head ds _ Hhd). fold ds2.
  rewrite Hne2.
  assert (Hu : dec_underflows ds2 (Z.of_nat (List.length ds)) = false).
  { unfold dec_underflows.
    replace (Z.of_nat (List.length ds) <? -330)%Z with false
      by (symmetry; apply Z.ltb_ge; lia).
    replace (0 <? Z.of_nat (List.length ds))%Z with true
      by (symmetry; apply Z.ltb_lt; destruct ds; [discriminate|];
          cbn [List.length]; lia).
    reflexivity. }
  assert (Ho : dec_overflows ds2 (Z.of_nat (List.length ds)) = false).
  { unfold dec_overflows.
    replace (309 <? Z.of_nat (List.length ds))%Z with false
      by (symmetry; apply Z.ltb_ge; lia).
    replace (Z.of_nat (List.length ds) <? 1)%Z with false
      by (symmetry; apply Z.ltb_ge; destruct ds; [discriminate|];
          cbn [List.length]; lia).
    replace (Z.of_nat (List.length ds2) <=? Z.of_nat (List.length ds))%Z
      with true by (symmetry; apply Z.leb_le; lia).
    apply Z.leb_gt.
    replace (Z.of_nat (List.length ds) - Z.of_nat (List.length ds2))%Z
      with (Z.of_N (N.of_nat m)) by lia.
    change 10%Z with (Z.of_N 10) at 1.
    rewrite <- N2Z.inj_pow, <- N2Z.inj_mul, Hval.
    apply Z.lt_trans with (Z.of_N (10 ^ 21)); [lia|].
    vm_compute. reflexivity. }
  rewrite Hu, Ho. reflexivity.
Qed.

(** An integer below 10^21 is printed as its decimal digits. *)
Lemma Number_toString_of_N (n : N) :
  n < 10 ^ 21 -> Number_toString (number_of_N n) = decimal n.
Proof.
  intros Hlt. destruct (N.eq_0_gt_0_cases n) as [->|Hpos]; [reflexivity|].
  destruct (number_of_N_small n Hpos Hlt) as (m & Hm & Hk & ->).
  unfold Number_toString. cbn [sign_prefix app].
  assert (Hlen : List.length (decimal n)
                 = (List.length (strip_trailing (decimal n)) + m)%nat)
    by (rewrite Hm at 1; rewrite length_app, repeat_length; reflexivity).
  replace (Z.of_nat (List.length (strip_trailing (decimal n)))
           <=? Z.of_nat (List.length (decimal n)))%Z
    with true by (symmetry; apply Z.leb_le; lia).
  replace (Z.of_nat (List.length (decimal n)) <=? 21)%Z
    with true by (symmetry; apply Z.leb_le; lia).
  cbn [andb].
  replace (Z.to_nat (Z.of_nat (List.length (decimal n))
                     - Z.of_nat (List.length (strip_trailing (decimal n)))))
    with m by lia.
  symmetry. exact Hm.
Qed.

Lemma number_of_N_finite (n : N) :
  n < 10 ^ 21 -> is_finite (number_of_N n) = true.
Proof.
  intros Hlt. destruct (N.eq_0_gt_0_cases n) as [->|Hpos]; [reflexivity|].
  destruct (number_of_N_small n Hpos Hlt) as (m & _ & _ & ->). reflexivity.
Qed.

(** ** JSON strings *)

Lemma hex_value_digit (v : N) : v < 16 -> hex_value (hex_digit v) = Some v.
Proof.
  intros Hv. unfold hex_digit, hex_value, is_digit.
  destruct (v <? 10) eqn:E.
  - apply N.ltb_lt in E.
    replace (48 <=? 48 + v) with true by (symmetry; apply N.leb_le; lia).
    replace (48 + v <=? 57) with true by (symmetry; apply N.leb_le; lia).
    cbn [andb]. f_equal; lia.
  - apply N.ltb_ge in E.
    replace (87 + v <=? 57) with false by (symmetry; apply N.leb_gt; lia).
    rewrite andb_false_r.
    replace (97 <=? 87 + v) with true by (symmetry; apply N.leb_le; lia).
    replace (87 + v <=? 102) with true by (symmetry; apply N.leb_le; lia).
    cbn [andb]. f_equal; lia.
Qed.

Lemma hex4_value_hex4 (c : N) :
  c < 65536 ->
  match hex4 c with
  | [h1; h2; h3; h4] => hex4_value h1 h2 h3 h4 = Some c
  | _ => False
  end.
Proof.
  intros Hc. unfold hex4, hex4_value.
  rewrite !hex_value_digit by (apply N.mod_lt; discriminate).
  f_equal.
  pose proof (N.div_mod c 16) as H1.
  pose proof (N.div_mod (c / 16) 16) as H2.
  pose proof (N.div_mod (c / 256) 16) as H3.
  rewrite N.Div0.div_div in H2. change (16 * 16) with 256 in H2.
  rewrite N.Div0.div_div in H3. change (256 * 16) with 4096 in H3.
  assert (H4 : c / 4096 < 16)
    by (apply N.Div0.div_lt_upper_bound; exact Hc).
  rewrite (N.mod_small (c / 4096) 16 H4).
  specialize (H1 ltac:(discriminate)). specialize (H2 ltac:(discriminate)).
  specialize (H3 ltac:(discriminate)). lia.
Qed.

Lemma hex_digit_range (v : N) :
  v < 16 -> 48 <= hex_digit v <= 57 \/ 97 <= hex_digit v <= 102.
Proof.
  intros Hv. unfold hex_digit. destruct (v <? 10) eqn:E.
  - apply N.ltb_lt in E; lia.
  - apply N.ltb_ge in E; lia.
Qed.

Lemma single_line_hex4 (c : N) : single_line (hex4 c) = true.
Proof.
  unfold hex4, single_line. cbn [forallb].
  repeat match goal with
  | |- context [hex_digit ?v] =>
      let H := fresh in
      assert (H : v < 16) by (apply N.mod_lt; discriminate);
      apply hex_digit_range in H;
      replace (hex_digit v =? 10) with false by (symmetry; apply N.eqb_neq; lia);
      clear H
  end.
  reflexivity.
Qed.

Lemma single_line_app (a b : jsstring) :
  single_line (a ++ b) = single_line a && single_line b.
Proof. apply forallb_app. Qed.

Lemma single_line_quote_unit (paired : bool) (c : N) :
  single_line (quote_unit paired c) = true.
Proof.
  unfold quote_unit, unicode_escape.
  destruct (N.eqb_spec c 8); [reflexivity|].
  destruct (N.eqb_spec c 9); [reflexivity|].
  destruct (N.eqb_spec c 10) as [|N10]; [reflexivity|].
  destruct (N.eqb_spec c 12); [reflexivity|].
  destruct (N.eqb_spec c 13); [reflexivity|].
  destruct (N.eqb_spec c 34); [reflexivity|].
  destruct (N.eqb_spec c 92); [reflexivity|].
  destruct (c <? 32).
  { rewrite single_line_app, single_line_hex4. reflexivity. }
  destruct ((is_high_surrogate c || is_low_surrogate c) && negb paired).
  { rewrite single_line_app, single_line_hex4. reflexivity. }
  simpl. apply N.eqb_neq in N10. rewrite N10. reflexivity.
Qed.

Lemma single_line_quote_units (after_high : bool) (s : jsstring) :
  single_line (quote_units after_high s) = true.
Proof.
  revert after_high; induction s as [|c r IH]; intros ah; [reflexivity|].
  cbn [quote_units]. rewrite single_line_app, single_line_quote_unit, IH.
  reflexivity.
Qed.

Lemma single_line_QuoteJSONString (s : jsstring) :
  single_line (QuoteJSONString s) = true.
Proof.
  unfold QuoteJSONString. cbn [single_line forallb].
  fold (single_line (quote_units false s ++ [34])).
  rewrite single_line_app, single_line_quote_units. reflexivity.
Qed.

Lemma lex_string_unicode_escape (c : N) (t : jsstring) :
  c < 65536 ->
  lex_string (unicode_escape c ++ t) = cons_unit c (lex_string t).
Proof.
  intros Hc. pose proof (hex4_value_hex4 c Hc) as H.
  unfold unicode_escape. destruct (hex4 c) as [|h1 [|h2 [|h3 [|h4 [|]]]]];
    try contradiction.
  change (str "\u") with [92; 117]. cbn [app lex_string].
  cbn [N.eqb Pos.eqb]. rewrite H. reflexivity.
Qed.

(** Reading back what [QuoteJSONString] writes for one code unit gives the
    code unit. *)
Lemma lex_string_quote_unit (paired : bool) (c : N) (t : jsstring) :
  lex_string (quote_unit paired c ++ t) = cons_unit c (lex_string t).
Proof.
  unfold quote_unit.
  destruct (N.eqb_spec c 8); [subst; reflexivity|].
  destruct (N.eqb_spec c 9); [subst; reflexivity|].
  destruct (N.eqb_spec c 10); [subst; reflexivity|].
  destruct (N.eqb_spec c 12); [subst; reflexivity|].
  destruct (N.eqb_spec c 13); [subst; reflexivity|].
  destruct (N.eqb_spec c 34) as [|N34]; [subst; reflexivity|].
  destruct (N.eqb_spec c 92) as [|N92]; [subst; reflexivity|].
  destruct (c <? 32) eqn:C32.
  { apply lex_string_unicode_escape. apply N.ltb_lt in C32. lia. }
  destruct ((is_high_surrogate c || is_low_surrogate c) && negb paired) eqn:S.
  { apply lex_string_unicode_escape.
    apply andb_true_iff in S as [S _]. apply orb_true_iff in S.
    unfold is_high_surrogate, is_low_surrogate in S.
    rewrite !andb_true_iff, !N.leb_le in S. lia. }
  cbn [app lex_string].
  apply N.eqb_neq in N34, N92. rewrite N34, N92, C32. reflexivity.
Qed.

Lemma lex_string_quote_units (after_high : bool) (s rest : jsstring) :
  lex_string (quote_units after_high s ++ 34 :: rest) = Some (s, rest).
Proof.
  revert after_high; induction s as [|c r IH]; intros ah; [reflexivity|].
  cbn [quote_units]. rewrite <- app_assoc, lex_string_quote_unit, IH.
  reflexivity.
Qed.

(** Reading back a quoted string gives the string. *)
Lemma lex_string_QuoteJSONString (s rest : jsstring) :
  exists t, QuoteJSONString s ++ rest = 34 :: t /\ lex_string t = Some (s, rest).
Proof.
  exists (quote_units false s ++ 34 :: rest). split.
  - unfold QuoteJSONString. simpl. rewrite <- app_assoc. reflexivity.
  - apply lex_string_quote_units.
Qed.

(** ** Reading back what [JSON.stringify] writes *)

Lemma Number_toString_head (x : number) :
  number_ok x = true -> is_finite x = true ->
  exists c t, Number_toString x = c :: t /\ (is_digit c = true \/ c = 45).
Proof.
  intros Hok Hfin. destruct x as [|neg ds n|neg]; [| |discriminate].
  - exists 48, []. split; [reflexivity | left; reflexivity].
  - simpl in Hok. apply andb_true_iff in Hok as [Hok _].
    apply andb_true_iff in Hok as [Hs _].
    apply significant_digits in Hs as (Hd & He & Hh & Hl).
    destruct ds as [|d more]; [discriminate|].
    simpl in Hd. apply andb_true_iff in Hd as [Hd1 Hd2].
    destruct neg.
    { eexists 45, _. split; [reflexivity | right; reflexivity]. }
    unfold Number_toString. cbn [sign_prefix app].
    set (k := Z.of_nat (List.length (d :: more))).
    assert (Hk : (0 < k)%Z) by (subst k; simpl List.length; lia).
    destruct ((k <=? n)%Z && (n <=? 21)%Z) eqn:C1;
      [|destruct ((0 <? n)%Z && (n <=? 21)%Z) eqn:C2;
        [|destruct ((-6 <? n)%Z && (n <=? 0)%Z) eqn:C3]].
    + eexists d, _. split; [reflexivity | left; exact Hd1].
    + apply andb_true_iff in C2 as [C2 _]. apply Z.ltb_lt in C2.
      destruct (Z.to_nat n) as [|p] eqn:E; [lia|].
      eexists d, _. split; [reflexivity | left; exact Hd1].
    + eexists 48, _. split; [reflexivity | left; reflexivity].
    + destruct more; eexists d, _; (split; [reflexivity | left; exact Hd1]).
Qed.

Lemma parse_value_number (fuel : nat) (c : N) (t : jsstring) :
  is_digit c = true \/ c = 45 ->
  parse_value (S fuel) (c :: t) =
  match lex_number (c :: t) with
  | Some (x, rest) => Some (Num x, rest)
  | None => None
  end.
Proof.
  intros Hc. rewrite is_digit_spec in Hc.
  cbn [parse_value skip_whitespace].
  assert (Hw : is_whitespace c = false).
  { unfold is_whitespace. rewrite !orb_false_iff, !N.eqb_neq. lia. }
  rewrite Hw.
  repeat match goal with
  | |- context [c =? ?k] =>
      replace (c =? k) with false by (symmetry; apply N.eqb_neq; lia)
  end.
  reflexivity.
Qed.

Lemma JSON_stringify_head (v : value) :
  value_ok v = true ->
  exists c t, JSON_stringify v = c :: t /\
              is_whitespace c = false /\ c <> 93 /\ c <> 125.
Proof.
  intros Hok. destruct v as [|[|]|x|s|vs|ps]; cbn [JSON_stringify].
  - exists 110; eexists; repeat split; discriminate.
  - exists 116; eexists; repeat split; discriminate.
  - exists 102; eexists; repeat split; discriminate.
  - destruct (is_finite x) eqn:F.
    + destruct (Number_toString_head x Hok F) as (c & t & -> & Hc).
      exists c, t. rewrite is_digit_spec in Hc. unfold is_whitespace.
      rewrite !orb_false_iff, !N.eqb_neq. repeat split; lia.
    + exists 110; eexists; repeat split; discriminate.
  - exists 34; eexists; repeat split; discriminate.
  - exists 91; eexists; repeat split; discriminate.
  - exists 123; eexists; repeat split; discriminate.
Qed.

Lemma list_sum_map_cons {A : Type} (f : A -> nat) (a : A) (l : list A) :
  list_sum (map f (a :: l)) = (f a + list_sum (map f l))%nat.
Proof. reflexivity. Qed.

Lemma parse_elements_stringify (vs : list value) :
  Forall (fun v => value_ok v = true ->
                   forall fuel rest, (calls v <= fuel)%nat ->
                   ends_number rest = true ->
                   parse_value fuel (JSON_stringify v ++ rest)
                   = Some (written v, rest)) vs ->
  forallb value_ok vs = true ->
  vs <> [] ->
  forall fuel rest,
    (list_sum (map (fun v => S (calls v)) vs) <= fuel)%nat ->
    parse_elements fuel (join (str ",") (map JSON_stringify vs) ++ 93 :: rest)
    = Some (map written vs, rest).
Proof.
  induction 1 as [|v vs IHv _ IH]; [congruence|].
  intros Hok _ fuel rest Hfuel.
  cbn [forallb] in Hok. apply andb_true_iff in Hok as [Hv Hvs].
  rewrite list_sum_map_cons in Hfuel.
  destruct fuel as [|fuel]; [lia|]. cbn [parse_elements].
  destruct vs as [|v' vs'].
  - cbn [map join] in *. change (list_sum []) with 0%nat in Hfuel.
    rewrite (IHv Hv fuel (93 :: rest)) by (reflexivity || lia).
    reflexivity.
  - change (join (str ",") (map JSON_stringify (v :: v' :: vs')))
      with (JSON_stringify v ++ [44]
            ++ join (str ",") (map JSON_stringify (v' :: vs'))).
    rewrite <- !app_assoc. cbn [app].
    rewrite (IHv Hv fuel) by (reflexivity || lia).
    cbn [skip_whitespace is_whitespace N.eqb Pos.eqb orb].
    rewrite (IH Hvs ltac:(discriminate) fuel rest) by lia.
    reflexivity.
Qed.

Lemma parse_members_stringify (ps : list (jsstring * value)) :
  Forall (fun p => value_ok (snd p) = true ->
                   forall fuel rest, (calls (snd p) <= fuel)%nat ->
                   ends_number rest = true ->
                   parse_value fuel (JSON_stringify (snd p) ++ rest)
                   = Some (written (snd p), rest)) ps ->
  forallb (fun p => value_ok (snd p)) ps = true ->
  ps <> [] ->
  forall fuel rest,
    (list_sum (map (fun p => S (calls (snd p))) ps) <= fuel)%nat ->
    parse_members fuel
      (join (str ",")
         (map (fun p => QuoteJSONString (fst p) ++ str ":"
                        ++ JSON_stringify (snd p)) ps) ++ 125 :: rest)
    = Some (map (fun p => (fst p, written (snd p))) ps, rest).
Proof.
  set (member := fun p : jsstring * value =>
                   QuoteJSONString (fst p) ++ str ":" ++ JSON_stringify (snd p)).
  induction 1 as [|[k v] ps IHv _ IH]; [congruence|].
  intros Hok _ fuel rest Hfuel.
  cbn [forallb snd] in Hok. apply andb_true_iff in Hok as [Hv Hvs].
  rewrite list_sum_map_cons in Hfuel. cbn [snd fst] in Hfuel, IHv.
  destruct fuel as [|fuel]; [lia|].
  assert (Hstep : forall tail rest',
             parse_value fuel (JSON_stringify v ++ tail) = Some (written v, rest') ->
             parse_members (S fuel) (member (k, v) ++ tail) =
             match skip_whitespace rest' with
             | [] => None
             | d :: r4 =>
                 if d =? 44 then
                   match parse_members fuel r4 with
                   | Some (ps, rest) => Some ((k, written v) :: ps, rest)
                   | None => None
                   end
                 else if d =? 125 then Some ([(k, written v)], r4)
                 else None
             end).
  { intros tail rest' Hp. subst member. cbn beta. cbn [fst snd].
    rewrite <- !app_assoc.
    destruct (lex_string_QuoteJSONString k
                (str ":" ++ JSON_stringify v ++ tail)) as (t & -> & Ht).
    cbn [parse_members skip_whitespace is_whitespace N.eqb Pos.eqb orb].
    rewrite Ht. change (str ":") with [58].
    cbn [app skip_whitespace is_whitespace N.eqb Pos.eqb orb].
    rewrite Hp. reflexivity. }
  destruct ps as [|p' ps'].
  - cbn [map join] in *. change (list_sum []) with 0%nat in Hfuel.
    rewrite (Hstep (125 :: rest) (125 :: rest)).
    + reflexivity.
    + apply IHv; [exact Hv | lia | reflexivity].
  - change (join (str ",") (map member ((k, v) :: p' :: ps')))
      with (member (k, v) ++ [44] ++ join (str ",") (map member (p' :: ps'))).
    rewrite <- !app_assoc.
    rewrite (Hstep _ ([44] ++ join (str ",") (map member (p' :: ps'))
                      ++ 125 :: rest)).
    + cbn [app skip_whitespace is_whitespace N.eqb Pos.eqb orb].
      rewrite (IH Hvs ltac:(discriminate) fuel rest) by lia.
      reflexivity.
    + apply IHv; [exact Hv | lia | reflexivity].
Qed.

(** The grammar reads the text of a value back as the value written. *)
Lemma parse_value_stringify (v : value) :
  value_ok v = true ->
  forall fuel rest, (calls v <= fuel)%nat -> ends_number rest = true ->
  parse_value fuel (JSON_stringify v ++ rest) = Some (written v, rest).
Proof.
  induction v as [|b|x|s|vs IH|ps IH] using value_ind;
    intros Hok fuel rest Hfuel Hrest;
    (destruct fuel as [|fuel]; [simpl in Hfuel; lia|]).
  - reflexivity.
  - destruct b; reflexivity.
  - cbn [JSON_stringify written]. destruct (is_finite x) eqn:F; [|reflexivity].
    destruct (Number_toString_head x Hok F) as (c & t & E & Hc).
    pose proof (lex_number_toString x rest Hok F Hrest) as L.
    rewrite E in *. cbn [app] in *.
    rewrite (parse_value_number fuel c (t ++ rest) Hc), L. reflexivity.
  - cbn [JSON_stringify written].
    destruct (lex_string_QuoteJSONString s rest) as (t & -> & Ht).
    cbn [parse_value skip_whitespace is_whitespace N.eqb Pos.eqb orb].
    rewrite Ht. reflexivity.
  - cbn [JSON_stringify written value_ok calls] in *.
    change (str "[") with [91]. change (str "]") with [93].
    rewrite <- !app_assoc. cbn [app].
    cbn [parse_value skip_whitespace is_whitespace N.eqb Pos.eqb orb].
    destruct vs as [|v vs]; [reflexivity|].
    assert (Hhd : exists c t, join (str ",") (map JSON_stringify (v :: vs))
                              ++ 93 :: rest = c :: t
                              /\ is_whitespace c = false /\ c <> 93).
    { cbn [forallb] in Hok. apply andb_true_iff in Hok as [Hv _].
      destruct (JSON_stringify_head v Hv) as (c & t & E & Hw & H93 & _).
      cbn [map]. destruct vs; cbn [map join]; rewrite E;
        eexists c, _; (split; [reflexivity | auto]). }
    destruct Hhd as (c & t & E & Hw & H93).
    rewrite E. cbn [skip_whitespace]. rewrite Hw.
    apply N.eqb_neq in H93. rewrite H93. rewrite <- E.
    rewrite (parse_elements_stringify (v :: vs) IH Hok ltac:(discriminate))
      by lia.
    reflexivity.
  - cbn [JSON_stringify written value_ok calls] in *.
    apply andb_true_iff in Hok as [_ Hok].
    change (str "{") with [123]. change (str "}") with [125].
    rewrite <- !app_assoc. cbn [app].
    cbn [parse_value skip_whitespace is_whitespace N.eqb Pos.eqb orb].
    destruct ps as [|[k v] ps]; [reflexivity|].
    assert (Hhd : exists t,
               join (str ",")
                 (map (fun p => QuoteJSONString (fst p) ++ str ":"
                                ++ JSON_stringify (snd p)) ((k, v) :: ps))
               ++ 125 :: rest = 34 :: t).
    { destruct ps; cbn [map join]; eexists; reflexivity. }
    destruct Hhd as (t & E).
    rewrite E. cbn [skip_whitespace is_whitespace N.eqb Pos.eqb orb].
    rewrite <- E.
    rewrite (parse_members_stringify ((k, v) :: ps) IH Hok ltac:(discriminate))
      by lia.
    reflexivity.
Qed.

(** ** The own properties of an object *)

Lemma array_index_decimal (k : jsstring) (i : N) :
  array_index k = Some i -> k = decimal i.
Proof.
  unfold array_index. destruct k as [|c more]; [discriminate|].
  destruct (forallb is_digit (c :: more)
            && negb ((c =? 48) && negb (is_empty more))) eqn:E; [|discriminate].
  apply andb_true_iff in E as [Hd Hz]. apply negb_true_iff in Hz.
  destruct (digits_value (c :: more) <? 4294967295); [|discriminate].
  intros H; injection H as <-. symmetry. apply decimal_digits_value; assumption.
Qed.

Lemma array_index_inj (k k' : jsstring) (i : N) :
  array_index k = Some i -> array_index k' = Some i -> k = k'.
Proof.
  intros H H'. apply array_index_decimal in H, H'. congruence.
Qed.

Lemma precedes_neq (k k' : jsstring) : precedes k k' = true -> k <> k'.
Proof.
  unfold precedes. intros H ->.
  destruct (array_index k') as [i|].
  - apply N.ltb_lt in H; lia.
  - rewrite jsstring_eqb_refl in H; discriminate.
Qed.

Lemma has_property_false (k : jsstring) (ps : list (jsstring * value)) :
  has_property k ps = false <->
  forallb (fun p => negb (jsstring_eqb (fst p) k)) ps = true.
Proof.
  induction ps as [|[k' v'] ps IH]; simpl; [tauto|].
  rewrite orb_false_iff, andb_true_iff, negb_true_iff, IH. tauto.
Qed.

Lemma has_property_get (k : jsstring) (ps : list (jsstring * value)) :
  has_property k ps = match get_property k ps with Some _ => true | None => false end.
Proof.
  induction ps as [|[k' v'] ps IH]; simpl; [reflexivity|].
  destruct (jsstring_eqb k' k); simpl; [reflexivity | exact IH].
Qed.

Lemma keys_ordered_keys (ps qs : list (jsstring * value)) :
  map fst ps = map fst qs -> keys_ordered ps = keys_ordered qs.
Proof.
  revert qs; induction ps as [|[k v] ps IH]; intros [|[k' v'] qs] H;
    try discriminate; [reflexivity|].
  simpl in H. injection H as -> H. simpl. rewrite (IH qs H). f_equal.
  clear IH. revert qs H; induction ps as [|p ps IH]; intros [|q qs] H;
    try discriminate; [reflexivity|].
  simpl in H. injection H as Hp H. simpl. rewrite Hp, (IH qs H). reflexivity.
Qed.

Lemma replace_property_keys (k : jsstring) (v : value)
  (ps : list (jsstring * value)) :
  map fst (replace_property k v ps) = map fst ps.
Proof.
  induction ps as [|[k' v'] ps IH]; simpl; [reflexivity|].
  destruct (jsstring_eqb k' k); simpl; [reflexivity | rewrite IH; reflexivity].
Qed.

Lemma keys_ordered_app (ps qs : list (jsstring * value)) :
  keys_ordered (ps ++ qs) =
  keys_ordered ps && keys_ordered qs
  && forallb (fun p => forallb (fun q => precedes (fst p) (fst q)) qs) ps.
Proof.
  induction ps as [|[k v] ps IH]; simpl.
  - rewrite andb_true_r; reflexivity.
  - rewrite forallb_app, IH.
    destruct (forallb (fun p => precedes k (fst p)) ps),
             (forallb (fun p => precedes k (fst p)) qs),
             (keys_ordered ps), (keys_ordered qs); simpl; reflexivity.
Qed.

(** An array index that is new goes behind the smaller indices. *)
Lemma insert_index_split (i : N) (k : jsstring) (v : value)
  (ps : list (jsstring * value)) :
  exists front back,
    ps = front ++ back /\
    insert_index i k v ps = front ++ (k, v) :: back /\
    forallb (fun p => match array_index (fst p) with
                      | Some j => j <? i
                      | None => false
                      end) front = true /\
    match back with
    | [] => True
    | (k', _) :: _ => match array_index k' with
                      | Some j => i <= j
                      | None => True
                      end
    end.
Proof.
  induction ps as [|[k' v'] ps IH].
  - exists [], []. simpl. auto.
  - simpl. destruct (array_index k') as [j|] eqn:E.
    + destruct (j <? i) eqn:L.
      * destruct IH as (front & back & -> & -> & Hf & Hb).
        exists ((k', v') :: front), back. simpl. rewrite E, L, Hf. auto.
      * exists [], ((k', v') :: ps). simpl. rewrite E.
        apply N.ltb_ge in L. auto.
    + exists [], ((k', v') :: ps). simpl. rewrite E. auto.
Qed.

Lemma set_property_ordered (k : jsstring) (v : value)
  (ps : list (jsstring * value)) :
  keys_ordered ps = true -> keys_ordered (set_property k v ps) = true.
Proof.
  intros Hps. unfold set_property.
  destruct (has_property k ps) eqn:Hk.
  { rewrite (keys_ordered_keys _ ps (replace_property_keys k v ps)). exact Hps. }
  apply has_property_false in Hk.
  destruct (array_index k) as [i|] eqn:Ei.
  - destruct (insert_index_split i k v ps) as (front & back & -> & -> & Hf & Hb).
    rewrite keys_ordered_app in Hps |- *.
    rewrite forallb_app in Hk. apply andb_true_iff in Hk as [Hkf Hkb].
    apply andb_true_iff in Hps as [Hps Hfb].
    apply andb_true_iff in Hps as [Hof Hob].
    rewrite Hof. cbn [keys_ordered andb]. rewrite Hob, andb_true_r.
    assert (Hback : forallb (fun p => precedes k (fst p)) back = true).
    { destruct back as [|[k' v'] back]; [reflexivity|].
      cbn [forallb fst] in Hkb. apply andb_true_iff in Hkb as [Hk' _].
      apply negb_true_iff, jsstring_eqb_neq in Hk'.
      cbn [keys_ordered] in Hob. apply andb_true_iff in Hob as [Hk'b _].
      assert (Hkk' : precedes k k' = true).
      { unfold precedes. rewrite Ei. destruct (array_index k') as [j|] eqn:Ej;
          [|reflexivity].
        apply N.ltb_lt. destruct (N.eq_dec i j) as [->|]; [|lia].
        exfalso. apply Hk'. exact (array_index_inj k' k j Ej Ei). }
      cbn [forallb fst]. rewrite Hkk'. cbn [andb].
      rewrite forallb_forall in Hk'b |- *. intros p Hp.
      specialize (Hk'b p Hp). unfold precedes in Hkk', Hk'b |- *.
      rewrite Ei in *. destruct (array_index k') as [j|];
        destruct (array_index (fst p)) as [j'|]; try reflexivity;
        try discriminate.
      apply N.ltb_lt in Hkk', Hk'b. apply N.ltb_lt. lia. }
    rewrite Hback. cbn [andb].
    rewrite forallb_forall in Hf, Hfb |- *. intros p Hp.
    cbn [forallb fst]. rewrite (Hfb p Hp), andb_true_r.
    specialize (Hf p Hp). unfold precedes. rewrite Ei.
    destruct (array_index (fst p)); [exact Hf | discriminate].
  - rewrite keys_ordered_app, Hps. cbn [keys_ordered forallb andb].
    rewrite forallb_forall in Hk |- *. intros p Hp. cbn [fst].
    rewrite andb_true_r. specialize (Hk p Hp). unfold precedes.
    rewrite Ei. destruct (array_index (fst p)); [reflexivity | exact Hk].
Qed.

Lemma forallb_replace_property (P : jsstring * value -> bool) (k : jsstring)
  (v : value) (ps : list (jsstring * value)) :
  (forall k', P (k', v) = true) -> forallb P ps = true ->
  forallb P (replace_property k v ps) = true.
Proof.
  intros Hv. induction ps as [|[k' v'] ps IH]; simpl; [reflexivity|].
  rewrite andb_true_iff. intros [H1 H2].
  destruct (jsstring_eqb k' k); simpl.
  - rewrite Hv, H2; reflexivity.
  - rewrite H1, (IH H2); reflexivity.
Qed.

Lemma set_property_values (Q : value -> bool) (k : jsstring) (v : value)
  (ps : list (jsstring * value)) :
  Q v = true ->
  forallb (fun p => Q (snd p)) ps = true ->
  forallb (fun p => Q (snd p)) (set_property k v ps) = true.
Proof.
  intros Hv Hps. unfold set_property.
  destruct (has_property k ps).
  { apply forallb_replace_property; [intros; exact Hv | exact Hps]. }
  destruct (array_index k) as [i|].
  - destruct (insert_index_split i k v ps) as (front & back & -> & -> & _).
    rewrite forallb_app in Hps |- *. apply andb_true_iff in Hps as [-> Hb].
    simpl. rewrite Hv, Hb. reflexivity.
  - rewrite forallb_app, Hps. simpl. rewrite Hv. reflexivity.
Qed.

Lemma set_property_ok (k : jsstring) (v : value) (ps : list (jsstring * value)) :
  value_ok v = true -> value_ok (Obj ps) = true ->
  value_ok (Obj (set_property k v ps)) = true.
Proof.
  cbn [value_ok]. rewrite !andb_true_iff. intros Hv [Ho Hp]. split.
  - apply set_property_ordered; exact Ho.
  - apply (set_property_values value_ok); assumption.
Qed.

Lemma get_replace_property (k k' : jsstring) (v : value)
  (ps : list (jsstring * value)) :
  get_property k' (replace_property k v ps) =
  if jsstring_eqb k k' && has_property k ps then Some v else get_property k' ps.
Proof.
  induction ps as [|[k0 v0] ps IH]; simpl.
  - rewrite andb_false_r; reflexivity.
  - destruct (jsstring_eqb k0 k) eqn:E0; simpl.
    + apply jsstring_eqb_eq in E0; subst k0. rewrite andb_true_r.
      destruct (jsstring_eqb k k'); reflexivity.
    + rewrite IH. destruct (jsstring_eqb k k') eqn:E; simpl; [|reflexivity].
      apply jsstring_eqb_eq in E; subst k'. rewrite E0.
      destruct (has_property k ps); reflexivity.
Qed.

Lemma get_property_app (k : jsstring) (ps qs : list (jsstring * value)) :
  get_property k (ps ++ qs) =
  match get_property k ps with
  | Some v => Some v
  | None => get_property k qs
  end.
Proof.
  induction ps as [|[k0 v0] ps IH]; simpl; [reflexivity|].
  destruct (jsstring_eqb k0 k); [reflexivity | exact IH].
Qed.

(** Reading a property after an assignment. *)
Lemma get_set_property (k k' : jsstring) (v : value)
  (ps : list (jsstring * value)) :
  get_property k' (set_property k v ps) =
  if jsstring_eqb k k' then Some v else get_property k' ps.
Proof.
  unfold set_property. destruct (has_property k ps) eqn:Hk.
  { rewrite get_replace_property, Hk, andb_true_r. reflexivity. }
  assert (Hnone : get_property k ps = None).
  { rewrite has_property_get in Hk. destruct (get_property k ps); congruence. }
  destruct (array_index k) as [i|].
  - destruct (insert_index_split i k v ps) as (front & back & -> & -> & _).
    rewrite !get_property_app in *. cbn [get_property].
    destruct (jsstring_eqb k k') eqn:E.
    + apply jsstring_eqb_eq in E; subst k'.
      destruct (get_property k front); [discriminate|reflexivity].
    + reflexivity.
  - rewrite get_property_app. cbn [get_property].
    destruct (jsstring_eqb k k') eqn:E.
    + apply jsstring_eqb_eq in E; subst k'. rewrite Hnone. reflexivity.
    + destruct (get_property k' ps); reflexivity.
Qed.

Lemma insert_index_end (i : N) (k : jsstring) (v : value)
  (ps : list (jsstring * value)) :
  array_index k = Some i ->
  forallb (fun p => precedes (fst p) k) ps = true ->
  insert_index i k v ps = ps ++ [(k, v)].
Proof.
  intros Ei. induction ps as [|[k' v'] ps IH]; simpl; [reflexivity|].
  rewrite andb_true_iff. intros [Hk' Hps]. unfold precedes in Hk'.
  rewrite Ei in Hk'. destruct (array_index k') as [j|]; [|discriminate].
  rewrite Hk', (IH Hps). reflexivity.
Qed.

Lemma set_property_append (k : jsstring) (v : value)
  (ps : list (jsstring * value)) :
  forallb (fun p => precedes (fst p) k) ps = true ->
  set_property k v ps = ps ++ [(k, v)].
Proof.
  intros Hps. unfold set_property.
  assert (Hk : has_property k ps = false).
  { apply has_property_false. rewrite forallb_forall in Hps |- *.
    intros p Hp. apply negb_true_iff, jsstring_eqb_neq.
    apply precedes_neq, Hps, Hp. }
  rewrite Hk. destruct (array_index k) as [i|] eqn:Ei; [|reflexivity].
  apply insert_index_end; assumption.
Qed.

Lemma build_object_from (acc ps : list (jsstring * value)) :
  keys_ordered (acc ++ ps) = true ->
  fold_left (fun acc p => set_property (fst p) (snd p) acc) ps acc = acc ++ ps.
Proof.
  revert acc; induction ps as [|[k v] ps IH]; intros acc H; simpl.
  - rewrite app_nil_r; reflexivity.
  - assert (Hacc : forallb (fun p => precedes (fst p) k) acc = true).
    { rewrite keys_ordered_app in H. apply andb_true_iff in H as [_ H].
      rewrite forallb_forall in H |- *. intros p Hp. specialize (H p Hp).
      cbn [forallb fst] in H. apply andb_true_iff in H as [H _]. exact H. }
    rewrite (set_property_append k v acc Hacc), IH; rewrite <- app_assoc;
      [reflexivity | exact H].
Qed.

Lemma build_object_ordered (ps : list (jsstring * value)) :
  keys_ordered ps = true -> build_object ps = ps.
Proof. intros H. apply (build_object_from [] ps H). Qed.

(** [internalize] leaves a value in the form of [JSON.parse] as it is. *)
Lemma internalize_ok (v : value) : value_ok v = true -> internalize v = v.
Proof.
  induction v as [|b|x|s|vs IH|ps IH] using value_ind; intros Hok;
    try reflexivity; cbn [internalize value_ok] in *.
  - f_equal. induction IH as [|v vs Hv _ IHvs]; [reflexivity|].
    cbn [forallb map] in *. apply andb_true_iff in Hok as [H1 H2].
    rewrite (Hv H1), (IHvs H2). reflexivity.
  - apply andb_true_iff in Hok as [Hord Hvals].
    assert (Hmap : map (fun p => (fst p, internalize (snd p))) ps = ps).
    { clear Hord. induction IH as [|[k v] ps Hv _ IHps]; [reflexivity|].
      cbn [forallb map fst snd] in *. apply andb_true_iff in Hvals as [H1 H2].
      rewrite (Hv H1), (IHps H2). reflexivity. }
    rewrite Hmap, (build_object_ordered ps Hord). reflexivity.
Qed.

Lemma build_object_ok (ps : list (jsstring * value)) :
  forallb (fun p => value_ok (snd p)) ps = true ->
  value_ok (Obj (build_object ps)) = true.
Proof.
  unfold build_object.
  assert (H : forall acc, value_ok (Obj acc) = true ->
                forallb (fun p => value_ok (snd p)) ps = true ->
                value_ok (Obj (fold_left
                  (fun acc p => set_property (fst p) (snd p) acc) ps acc)) = true).
  { induction ps as [|[k v] ps IH]; intros acc Hacc Hps; [exact Hacc|].
    cbn [forallb snd] in Hps. apply andb_true_iff in Hps as [Hv Hps].
    cbn [fold_left fst snd]. apply IH; [|exact Hps].
    apply set_property_ok; assumption. }
  apply H. reflexivity.
Qed.

Lemma written_ok (v : value) : value_ok v = true -> value_ok (written v) = true.
Proof.
  induction v as [|b|x|s|vs IH|ps IH] using value_ind; intros Hok;
    try reflexivity; cbn [written value_ok] in *.
  - destruct (is_finite x); [exact Hok | reflexivity].
  - induction IH as [|v vs Hv _ IHvs]; [reflexivity|].
    cbn [forallb map] in *. apply andb_true_iff in Hok as [H1 H2].
    rewrite (Hv H1), (IHvs H2). reflexivity.
  - apply andb_true_iff in Hok as [Hord Hvals].
    rewrite (keys_ordered_keys _ ps) by (rewrite map_map; reflexivity).
    rewrite Hord. cbn [andb].
    clear Hord. induction IH as [|[k v] ps Hv _ IHps]; [reflexivity|].
    cbn [forallb map fst snd] in *. apply andb_true_iff in Hvals as [H1 H2].
    rewrite (Hv H1), (IHps H2). reflexivity.
Qed.

Lemma lex_number_ok (t : jsstring) (x : number) (rest : jsstring) :
  lex_number t = Some (x, rest) -> number_ok x = true.
Proof.
  unfold lex_number, lex_int, lex_frac.
  destruct (lex_sign t) as [neg t1].
  pose proof (span_digits_spec t1) as [Hint _].
  destruct (span_digits t1) as [int t2]; cbn [fst] in Hint.
  destruct int as [|d more]; [discriminate|].
  destruct ((d =? 48) && negb (is_empty more)); [discriminate|].
  assert (Hnum : forall frac t3,
             forallb is_digit frac = true ->
             match lex_exp t3 with
             | Some (e, t4) =>
                 Some (make_number neg ((d :: more) ++ frac)
                         (Z.of_nat (List.length (d :: more)) + e), t4)
             | None => None
             end = Some (x, rest) -> number_ok x = true).
  { intros frac t3 Hfrac H. destruct (lex_exp t3) as [[e t4]|]; [|discriminate].
    injection H as <- _. apply make_number_ok.
    change (d :: more ++ frac) with ((d :: more) ++ frac).
    rewrite forallb_app, Hint, Hfrac. reflexivity. }
  destruct t2 as [|c r]; [apply (Hnum [] []); reflexivity|].
  destruct (c =? 46); [|apply (Hnum [] (c :: r)); reflexivity].
  pose proof (span_digits_spec r) as [Hfrac _].
  destruct (span_digits r) as [frac t3]; cbn [fst] in Hfrac.
  destruct (is_empty frac); [discriminate|].
  apply (Hnum frac t3 Hfrac).
Qed.

Ltac break_match_in H :=
  match type of H with
  | context [match ?x with _ => _ end] => destruct x eqn:?
  end.

(** What the grammar accepts denotes a value in the form of [JSON.parse]. *)
Lemma parse_value_ok (fuel : nat) :
  (forall t v rest, parse_value fuel t = Some (v, rest) ->
                    value_ok (internalize v) = true) /\
  (forall t vs rest, parse_elements fuel t = Some (vs, rest) ->
                     forallb value_ok (map internalize vs) = true) /\
  (forall t ps rest, parse_members fuel t = Some (ps, rest) ->
                     forallb (fun p => value_ok (snd p))
                       (map (fun p => (fst p, internalize (snd p))) ps) = true).
Proof.
  induction fuel as [|fuel (IHv & IHe & IHm)];
    [repeat split; intros; discriminate|].
  repeat split.
  - intros t v rest H. cbn [parse_value] in H. unfold literal in H.
    repeat (break_match_in H; try discriminate);
      injection H as <- <-; try reflexivity.
    + cbn [internalize]. apply build_object_ok. eapply IHm; eassumption.
    + cbn [internalize value_ok]. eapply IHe; eassumption.
    + cbn [internalize value_ok]. eapply lex_number_ok; eassumption.
  - intros t vs rest H. cbn [parse_elements] in H.
    repeat (break_match_in H; try discriminate);
      injection H as <- <-; cbn [map forallb].
    + erewrite IHv by eassumption. eapply IHe; eassumption.
    + erewrite IHv by eassumption. reflexivity.
  - intros t ps rest H. cbn [parse_members] in H.
    repeat (break_match_in H; try discriminate);
      injection H as <- <-; cbn [map forallb fst snd].
    + erewrite IHv by eassumption. eapply IHm; eassumption.
    + erewrite IHv by eassumption. reflexivity.
Qed.

Lemma JSON_parse_ok (text : jsstring) (v : value) :
  JSON_parse text = Some v -> value_ok v = true.
Proof.
  unfold JSON_parse.
  destruct (parse_value (S (2 * List.length text)) text) as [[v' rest]|] eqn:E;
    [|discriminate].
  destruct (is_empty (skip_whitespace rest)); [|discriminate].
  intros H; injection H as <-.
  eapply (proj1 (parse_value_ok _)); eassumption.
Qed.

(** ** The fuel of the grammar *)

Lemma skip_whitespace_length (t : jsstring) :
  (List.length (skip_whitespace t) <= List.length t)%nat.
Proof.
  induction t as [|c t IH]; simpl; [lia|].
  destruct (is_whitespace c); simpl; lia.
Qed.

Lemma skip_whitespace_cons (t : jsstring) (c : N) (r : jsstring) :
  skip_whitespace t = c :: r -> (List.length r < List.length t)%nat.
Proof.
  intros H. pose proof (skip_whitespace_length t) as L.
  rewrite H in L. simpl in L. lia.
Qed.

Lemma lex_string_length (t s rest : jsstring) :
  lex_string t = Some (s, rest) -> (List.length rest < List.length t)%nat.
Proof.
  remember (List.length t) as n eqn:Hn. revert t s rest Hn.
  induction n as [n IH] using lt_wf_ind. intros t s rest Hn H.
  destruct t as [|c r]; [discriminate|]. cbn [lex_string] in H.
  assert (Hcons : forall u t',
             (List.length t' < n)%nat ->
             cons_unit u (lex_string t') = Some (s, rest) ->
             (List.length rest < List.length t')%nat).
  { intros u t' Ht' Hc. destruct (lex_string t') as [[s' rest']|] eqn:E;
      [|discriminate]. injection Hc as _ <-.
    exact (IH _ Ht' t' s' rest' eq_refl E). }
  simpl in Hn. destruct (c =? 34).
  { injection H as _ <-. simpl. lia. }
  destruct (c =? 92).
  - destruct r as [|x r1]; [discriminate|]. destruct (x =? 117).
    + destruct r1 as [|h1 [|h2 [|h3 [|h4 r2]]]]; try discriminate.
      destruct (hex4_value h1 h2 h3 h4); [|discriminate].
      apply Hcons in H; simpl in *; lia.
    + destruct (unescape x); [|discriminate].
      apply Hcons in H; simpl in *; lia.
  - destruct (c <? 32); [discriminate|].
    apply Hcons in H; simpl in *; lia.
Qed.

Lemma span_digits_length (t : jsstring) :
  List.length t
  = (List.length (fst (span_digits t)) + List.length (snd (span_digits t)))%nat.
Proof.
  pose proof (span_digits_spec t) as [_ H].
  rewrite <- H at 1. apply length_app.
Qed.

Lemma lex_number_length (t : jsstring) (x : number) (rest : jsstring) :
  lex_number t = Some (x, rest) -> (List.length rest < List.length t)%nat.
Proof.
  unfold lex_number, lex_int.
  assert (Hs : (List.length (snd (lex_sign t)) <= List.length t)%nat).
  { destruct t as [|c r]; simpl; [lia|]. destruct (c =? 45); simpl; lia. }
  destruct (lex_sign t) as [neg t1]; cbn [snd] in Hs.
  pose proof (span_digits_length t1) as L1.
  destruct (span_digits t1) as [int t2]; cbn [fst snd] in L1.
  destruct int as [|d more]; [discriminate|].
  destruct ((d =? 48) && negb (is_empty more)); [discriminate|].
  simpl in L1.
  destruct (lex_frac t2) as [[frac t3]|] eqn:Ef; [|discriminate].
  assert (Hf : (List.length t3 <= List.length t2)%nat).
  { unfold lex_frac in Ef. destruct t2 as [|c r].
    - injection Ef as _ <-. lia.
    - destruct (c =? 46).
      + pose proof (span_digits_length r) as L.
        destruct (span_digits r) as [ds r']; cbn [fst snd] in L.
        destruct (is_empty ds); [discriminate|].
        injection Ef as _ <-. simpl. lia.
      + injection Ef as _ <-. lia. }
  destruct (lex_exp t3) as [[e t4]|] eqn:Ee; [|discriminate].
  assert (He : (List.length t4 <= List.length t3)%nat).
  { unfold lex_exp in Ee. destruct t3 as [|c r].
    - injection Ee as _ <-. lia.
    - destruct ((c =? 101) || (c =? 69)).
      + destruct r as [|s r'].
        * pose proof (span_digits_length []) as L.
          destruct (span_digits []) as [ds r0]; cbn [fst snd] in L.
          destruct (is_empty ds); [discriminate|].
          injection Ee as _ <-. simpl in *. lia.
        * destruct (s =? 45); [|destruct (s =? 43)].
          -- pose proof (span_digits_length r') as L.
             destruct (span_digits r') as [ds r0]; cbn [fst snd] in L.
             destruct (is_empty ds); [discriminate|].
             injection Ee as _ <-. simpl in *. lia.
          -- pose proof (span_digits_length r') as L.
             destruct (span_digits r') as [ds r0]; cbn [fst snd] in L.
             destruct (is_empty ds); [discriminate|].
             injection Ee as _ <-. simpl in *. lia.
          -- pose proof (span_digits_length (s :: r')) as L.
             destruct (span_digits (s :: r')) as [ds r0]; cbn [fst snd] in L.
             destruct (is_empty ds); [discriminate|].
             injection Ee as _ <-. simpl in *. lia.
      + injection Ee as _ <-. lia. }
  intros H; injection H as _ <-. lia.
Qed.

Lemma strip_prefix_length (p t rest : jsstring) :
  strip_prefix p t = Some rest ->
  List.length t = (List.length p + List.length rest)%nat.
Proof.
  revert t; induction p as [|x p IH]; intros t H; simpl in *.
  - injection H as <-; reflexivity.
  - destruct t as [|y t]; [discriminate|]. destruct (x =? y); [|discriminate].
    simpl. rewrite (IH t H). reflexivity.
Qed.

(** Every value takes at least one character. *)
Lemma parse_value_length (fuel : nat) :
  (forall t v rest, parse_value fuel t = Some (v, rest) ->
                    (List.length rest < List.length t)%nat) /\
  (forall t vs rest, parse_elements fuel t = Some (vs, rest) ->
                     (List.length rest < List.length t)%nat) /\
  (forall t ps rest, parse_members fuel t = Some (ps, rest) ->
                     (List.length rest < List.length t)%nat).
Proof.
  induction fuel as [|fuel (IHv & IHe & IHm)];
    [repeat split; intros; discriminate|].
  repeat split.
  - intros t v rest H. cbn [parse_value] in H. unfold literal in H.
    repeat (break_match_in H; try discriminate); injection H as _ <-;
      repeat match goal with
      | E : skip_whitespace _ = _ :: _ |- _ => apply skip_whitespace_cons in E
      | E : parse_members _ _ = Some _ |- _ => apply IHm in E
      | E : parse_elements _ _ = Some _ |- _ => apply IHe in E
      | E : lex_string _ = Some _ |- _ => apply lex_string_length in E
      | E : lex_number _ = Some _ |- _ => apply lex_number_length in E
      | E : strip_prefix _ _ = Some _ |- _ => apply strip_prefix_length in E
      end; simpl in *; lia.
  - intros t vs rest H. cbn [parse_elements] in H.
    repeat (break_match_in H; try discriminate); injection H as _ <-;
      repeat match goal with
      | E : skip_whitespace _ = _ :: _ |- _ => apply skip_whitespace_cons in E
      | E : parse_value _ _ = Some _ |- _ => apply IHv in E
      | E : parse_elements _ _ = Some _ |- _ => apply IHe in E
      end; simpl in *; lia.
  - intros t ps rest H. cbn [parse_members] in H.
    repeat (break_match_in H; try discriminate); injection H as _ <-;
      repeat match goal with
      | E : skip_whitespace _ = _ :: _ |- _ => apply skip_whitespace_cons in E
      | E : parse_value _ _ = Some _ |- _ => apply IHv in E
      | E : parse_members _ _ = Some _ |- _ => apply IHm in E
      | E : lex_string _ = Some _ |- _ => apply lex_string_length in E
      end; simpl in *; lia.
Qed.

(** More fuel than twice the length of the text changes nothing: the fuel
    [JSON_parse] gives never runs out. *)
Lemma parse_value_fuel (fuel : nat) :
  (forall fuel' t,
      (2 * List.length t + 1 <= fuel)%nat ->
      (2 * List.length t + 1 <= fuel')%nat ->
      parse_value fuel t = parse_value fuel' t) /\
  (forall fuel' t,
      (2 * List.length t + 2 <= fuel)%nat ->
      (2 * List.length t + 2 <= fuel')%nat ->
      parse_elements fuel t = parse_elements fuel' t) /\
  (forall fuel' t,
      (2 * List.length t + 2 <= fuel)%nat ->
      (2 * List.length t + 2 <= fuel')%nat ->
      parse_members fuel t = parse_members fuel' t).
Proof.
  induction fuel as [|fuel (IHv & IHe & IHm)]; [repeat split; intros; lia|].
  repeat split; intros [|fuel'] t Hf Hf'; try lia.
  - cbn [parse_value].
    destruct (skip_whitespace t) as [|c r] eqn:E; [reflexivity|].
    apply skip_whitespace_cons in E.
    destruct (c =? 123).
    { destruct (skip_whitespace r) as [|c1 r1]; [reflexivity|].
      destruct (c1 =? 125); [reflexivity|].
      rewrite (IHm fuel' r) by lia. reflexivity. }
    destruct (c =? 91); [|reflexivity].
    destruct (skip_whitespace r) as [|c1 r1]; [reflexivity|].
    destruct (c1 =? 93); [reflexivity|].
    rewrite (IHe fuel' r) by lia. reflexivity.
  - cbn [parse_elements]. rewrite (IHv fuel' t) by lia.
    destruct (parse_value fuel' t) as [[v r]|] eqn:E; [|reflexivity].
    apply (proj1 (parse_value_length fuel')) in E.
    destruct (skip_whitespace r) as [|c r1] eqn:E1; [reflexivity|].
    apply skip_whitespace_cons in E1.
    destruct (c =? 44); [|reflexivity].
    rewrite (IHe fuel' r1) by lia. reflexivity.
  - cbn [parse_members].
    destruct (skip_whitespace t) as [|q r] eqn:E; [reflexivity|].
    apply skip_whitespace_cons in E.
    destruct (q =? 34); [|reflexivity].
    destruct (lex_string r) as [[k r1]|] eqn:E1; [|reflexivity].
    apply lex_string_length in E1.
    destruct (skip_whitespace r1) as [|c r2] eqn:E2; [reflexivity|].
    apply skip_whitespace_cons in E2.
    destruct (c =? 58); [|reflexivity].
    rewrite (IHv fuel' r2) by lia.
    destruct (parse_value fuel' r2) as [[v r3]|] eqn:E3; [|reflexivity].
    apply (proj1 (parse_value_length fuel')) in E3.
    destruct (skip_whitespace r3) as [|d r4] eqn:E4; [reflexivity|].
    apply skip_whitespace_cons in E4.
    destruct (d =? 44); [|reflexivity].
    rewrite (IHm fuel' r4) by lia. reflexivity.
Qed.

(** [JSON.parse] as the grammar with any sufficient fuel. *)
Lemma JSON_parse_fuel (fuel : nat) (text : jsstring) :
  (2 * List.length text + 1 <= fuel)%nat ->
  JSON_parse text =
  match parse_value fuel text with
  | Some (v, rest) =>
      if is_empty (skip_whitespace rest) then Some (internalize v) else None
  | None => None
  end.
Proof.
  intros H. unfold JSON_parse.
  rewrite (proj1 (parse_value_fuel (S (2 * List.length text))) fuel text)
    by lia.
  reflexivity.
Qed.

(** ** [JSON.parse] after [JSON.stringify] *)

Theorem JSON_parse_stringify (v : value) :
  value_ok v = true -> JSON_parse (JSON_stringify v) = Some (written v).
Proof.
  intros Hok.
  rewrite (JSON_parse_fuel
             (calls v + (2 * List.length (JSON_stringify v) + 1))) by lia.
  pose proof (parse_value_stringify v Hok
                (calls v + (2 * List.length (JSON_stringify v) + 1)) []
                ltac:(lia) eq_refl) as H.
  rewrite app_nil_r in H. rewrite H. cbn [skip_whitespace is_empty].
  rewrite (internalize_ok _ (written_ok v Hok)). reflexivity.
Qed.

(** ** Lines *)

Lemma single_line_digits (ds : jsstring) :
  forallb is_digit ds = true -> single_line ds = true.
Proof.
  unfold single_line. rewrite !forallb_forall. intros H c Hc.
  specialize (H c Hc). apply is_digit_spec in H.
  apply negb_true_iff, N.eqb_neq. lia.
Qed.

Lemma single_line_cons (c : N) (t : jsstring) :
  single_line (c :: t) = negb (c =? 10) && single_line t.
Proof. reflexivity. Qed.

Lemma single_line_Number_toString (x : number) :
  number_ok x = true -> single_line (Number_toString x) = true.
Proof.
  destruct x as [|neg ds n|neg]; intros Hok.
  - reflexivity.
  - simpl in Hok. apply andb_true_iff in Hok as [Hok _].
    apply andb_true_iff in Hok as [Hs _].
    apply significant_digits in Hs as (Hd & _).
    pose proof (single_line_digits ds Hd) as Hds.
    assert (Hz : forall m, single_line (repeat 48 m) = true)
      by (intros m; apply single_line_digits, forallb_repeat; reflexivity).
    assert (He : forall e, single_line
                   ((if (e <? 0)%Z then str "-" else str "+")
                    ++ decimal (Z.abs_N e)) = true).
    { intros e. rewrite single_line_app.
      rewrite (single_line_digits _ (decimal_digits _)).
      destruct (e <? 0)%Z; reflexivity. }
    unfold Number_toString. rewrite single_line_app.
    replace (single_line (sign_prefix neg)) with true
      by (destruct neg; reflexivity).
    cbn [andb].
    destruct ((Z.of_nat (List.length ds) <=? n)%Z && (n <=? 21)%Z);
      [|destruct ((0 <? n)%Z && (n <=? 21)%Z);
        [|destruct ((-6 <? n)%Z && (n <=? 0)%Z)]].
    + rewrite single_line_app, Hds, Hz. reflexivity.
    + rewrite !single_line_app.
      rewrite (single_line_digits _ (forallb_firstn _ _ _ Hd)).
      rewrite (single_line_digits _ (forallb_skipn _ _ _ Hd)). reflexivity.
    + rewrite !single_line_app, Hz, Hds. reflexivity.
    + destruct ds as [|d more]; [reflexivity|].
      simpl in Hd. apply andb_true_iff in Hd as [Hd1 Hd2].
      assert (H1 : negb (d =? 10) = true).
      { apply is_digit_spec in Hd1. apply negb_true_iff, N.eqb_neq. lia. }
      cbv zeta. pose proof (He (n - 1)%Z) as Hes.
      set (es := (if (n - 1 <? 0)%Z then str "-" else str "+") ++ _) in *.
      destruct more as [|d' more']; rewrite single_line_cons, H1;
        rewrite !single_line_app, Hes; [reflexivity|].
      rewrite (single_line_digits _ Hd2). reflexivity.
  - destruct neg; reflexivity.
Qed.

Lemma single_line_join (sep : jsstring) (parts : list jsstring) :
  single_line sep = true -> forallb single_line parts = true ->
  single_line (join sep parts) = true.
Proof.
  intros Hsep. induction parts as [|p parts IH]; [reflexivity|].
  cbn [forallb]. rewrite andb_true_iff. intros [Hp Hps].
  destruct parts as [|q parts]; [exact Hp|].
  change (join sep (p :: q :: parts)) with (p ++ sep ++ join sep (q :: parts)).
  rewrite !single_line_app, Hp, Hsep, (IH Hps). reflexivity.
Qed.

(** [JSON.stringify] writes no line feed. *)
Lemma single_line_stringify (v : value) :
  value_ok v = true -> single_line (JSON_stringify v) = true.
Proof.
  induction v as [|b|x|s|vs IH|ps IH] using value_ind; intros Hok;
    cbn [JSON_stringify value_ok] in *.
  - reflexivity.
  - destruct b; reflexivity.
  - destruct (is_finite x); [|reflexivity].
    apply single_line_Number_toString; exact Hok.
  - apply single_line_QuoteJSONString.
  - rewrite !single_line_app, single_line_join; [reflexivity..|].
    induction IH as [|v vs Hv _ IHvs]; [reflexivity|].
    cbn [forallb map] in *. apply andb_true_iff in Hok as [H1 H2].
    rewrite (Hv H1), (IHvs H2). reflexivity.
  - apply andb_true_iff in Hok as [_ Hok].
    rewrite !single_line_app, single_line_join; [reflexivity..|].
    induction IH as [|[k v] ps Hv _ IHps]; [reflexivity|].
    cbn [forallb map fst snd] in *. apply andb_true_iff in Hok as [H1 H2].
    rewrite !single_line_app, single_line_QuoteJSONString, (Hv H1), (IHps H2).
    reflexivity.
Qed.

Lemma newlines_app (a b : jsstring) :
  newlines (a ++ b) = (newlines a + newlines b)%nat.
Proof. apply count_occ_app. Qed.

Lemma newlines_single_line (t : jsstring) :
  single_line t = true -> newlines t = 0%nat.
Proof.
  unfold single_line, newlines. induction t as [|c t IH]; [reflexivity|].
  cbn [forallb]. rewrite andb_true_iff, negb_true_iff, N.eqb_neq.
  intros [Hc Ht]. rewrite count_occ_cons_neq by exact Hc. exact (IH Ht).
Qed.

Lemma lines_from_line (cur l t : jsstring) :
  single_line l = true ->
  lines_from cur (l ++ 10 :: t) = (rev cur ++ l) :: lines_from [] t.
Proof.
  revert cur; induction l as [|c l IH]; intros cur Hl.
  - simpl. rewrite app_nil_r. reflexivity.
  - cbn [single_line forallb] in Hl. apply andb_true_iff in Hl as [Hc Hl].
    apply negb_true_iff in Hc. cbn [app lines_from]. rewrite Hc.
    rewrite (IH (c :: cur) Hl). cbn [rev]. rewrite <- app_assoc. reflexivity.
Qed.

(** The lines of a log file are the texts of its entries. *)
Lemma lines_ndjson (vs : list value) :
  forallb value_ok vs = true ->
  lines (ndjson vs) = map JSON_stringify vs ++ [[]].
Proof.
  unfold lines, ndjson. induction vs as [|v vs IH]; [reflexivity|].
  cbn [forallb]. rewrite andb_true_iff. intros [Hv Hvs].
  cbn [map List.concat]. rewrite <- app_assoc. cbn [app].
  rewrite (lines_from_line [] _ _ (single_line_stringify v Hv)).
  rewrite (IH Hvs). reflexivity.
Qed.

Lemma newlines_ndjson (vs : list value) :
  forallb value_ok vs = true -> newlines (ndjson vs) = List.length vs.
Proof.
  unfold ndjson. induction vs as [|v vs IH]; [reflexivity|].
  cbn [forallb]. rewrite andb_true_iff. intros [Hv Hvs].
  cbn [map List.concat List.length]. rewrite !newlines_app, (IH Hvs).
  rewrite (newlines_single_line _ (single_line_stringify v Hv)). reflexivity.
Qed.

Lemma ndjson_app (vs ws : list value) : ndjson (vs ++ ws) = ndjson vs ++ ndjson ws.
Proof. unfold ndjson. rewrite map_app, concat_app. reflexivity. Qed.

(** ** The routes of the listener *)

Ltac run_listener :=
  cbv [handle server ingest console_line bind ret throw try_catch of_option
       res_setHeader res_writeHead res_end read_logCount write_logCount
       fs_existsSync fs_readFileSync fs_writeFileSync fs_appendFileSync
       get put new_response];
  cbn [fst snd statusCode headers content writableEnded log_file logCount].

(** A request whose method is not HEAD is sent the data. *)
Lemma sent_method (req : request) (m data : jsstring) :
  method req = m -> jsstring_eqb m (str "HEAD") = false ->
  sent req data = data.
Proof. intros Hm H. unfold sent. rewrite Hm, H. reflexivity. Qed.

(** The run of the [try] block of the ingest route. *)
Lemma ingest_run (e : env) (req : request) (st : state) (r : response) :
  ingest e req (st, r) =
  match JSON_parse (body req) with
  | None => (Throw, (st, r))
  | Some Null => (Throw, (st, r))
  | Some data =>
      if fs_error e then (Throw, (st, r))
      else
        let st' := mkState (Some (log_text st ++ JSON_stringify (stamped e data)
                                  ++ [10])) (logCount st + 1) in
        if echo_converts (stamped e data)
        then (Normal tt,
              (st', mkResponse 200 (headers r) (sent req (str "ok")) true))
        else (Throw, (st', r))
  end.
Proof.
  run_listener. unfold log_text, echo_converts, stamped.
  destruct (JSON_parse (body req)) as [[|b|x|s|vs|ps]|]; try reflexivity;
    try (destruct (fs_error e), (log_file st); reflexivity).
  destruct (fs_error e); [reflexivity|].
  cbv zeta.
  set (qs := set_property (str "serverTimestamp") _ _).
  destruct (ToBoolean (get_property (str "hypothesisId") qs));
    destruct (substitution (get_property (str "hypothesisId") qs));
    destruct (substitution (get_property (str "location") qs));
    destruct (substitution (get_property (str "message") qs));
    destruct (log_file st); reflexivity.
Qed.

(** The listener, route by route. *)
Lemma handle_routes (PORT : N) (e : env) (req : request) (st : state) :
  handle PORT e req st =
  if jsstring_eqb (method req) (str "OPTIONS") then
    (Normal (reply 204 [] []), st)
  else if jsstring_eqb (url req) (str "/health") then
    (Normal (reply 200 [(str "Content-Type", str "application/json")]
               (sent req
                  (JSON_stringify
                     (Obj [(str "status", Str (str "ok"));
                           (str "logCount", Num (number_of_N (logCount st)));
                           (str "port", Num (number_of_N PORT))])))), st)
  else if jsstring_eqb (url req) (str "/logs")
          && jsstring_eqb (method req) (str "GET") then
    match log_file st with
    | Some text =>
        if fs_error e
        then (Normal (reply 500 [] (str "Error reading logs")), st)
        else (Normal (reply 200 [(str "Content-Type",
                                  str "application/x-ndjson")] text), st)
    | None =>
        (Normal (reply 200 [(str "Content-Type",
                             str "application/x-ndjson")] []), st)
    end
  else if jsstring_eqb (url req) (str "/clear")
          && jsstring_eqb (method req) (str "POST") then
    if fs_error e then (Throw, st)
    else (Normal (reply 200 [] (str "Logs cleared")), mkState (Some []) 0)
  else if jsstring_eqb (url req) (str "/debug")
          && jsstring_eqb (method req) (str "POST") then
    match JSON_parse (body req) with
    | None => (Normal (reply 400 [] (str "Invalid JSON")), st)
    | Some Null => (Normal (reply 400 [] (str "Invalid JSON")), st)
    | Some data =>
        if fs_error e then (Normal (reply 400 [] (str "Invalid JSON")), st)
        else
          (Normal (if echo_converts (stamped e data)
                   then reply 200 [] (str "ok")
                   else reply 400 [] (str "Invalid JSON")),
           mkState (Some (log_text st ++ JSON_stringify (stamped e data)
                          ++ [10])) (logCount st + 1))
    end
  else (Normal (reply 404 [] (sent req (str "Not found"))), st).
Proof.
  unfold handle, server.
  destruct (jsstring_eqb (method req) (str "OPTIONS")) eqn:Eoptions.
  { apply jsstring_eqb_eq in Eoptions. run_listener.
    rewrite (sent_method req (str "OPTIONS") [] Eoptions eq_refl).
    reflexivity. }
  destruct (jsstring_eqb (url req) (str "/health")); [reflexivity|].
  destruct (jsstring_eqb (url req) (str "/logs")
            && jsstring_eqb (method req) (str "GET")) eqn:Elogs.
  { apply andb_true_iff in Elogs as [_ Em]. apply jsstring_eqb_eq in Em.
    pose proof (fun data => sent_method req (str "GET") data Em eq_refl)
      as Hsent.
    destruct st as [[text|] n]; run_listener; rewrite ?Hsent;
      [|reflexivity].
    destruct (fs_error e); cbn [fst snd statusCode headers content
                                  writableEnded log_file logCount];
      rewrite ?Hsent; reflexivity. }
  destruct (jsstring_eqb (url req) (str "/clear")
            && jsstring_eqb (method req) (str "POST")) eqn:Eclear.
  { apply andb_true_iff in Eclear as [_ Em]. apply jsstring_eqb_eq in Em.
    pose proof (fun data => sent_method req (str "POST") data Em eq_refl)
      as Hsent.
    run_listener. destruct (fs_error e); rewrite ?Hsent; reflexivity. }
  destruct (jsstring_eqb (url req) (str "/debug")
            && jsstring_eqb (method req) (str "POST")) eqn:Edebug;
    [|reflexivity].
  apply andb_true_iff in Edebug as [_ Em]. apply jsstring_eqb_eq in Em.
  pose proof (fun data => sent_method req (str "POST") data Em eq_refl)
    as Hsent.
  cbv [bind try_catch res_setHeader new_response].
  cbn [statusCode headers content writableEnded].
  rewrite ingest_run. rewrite !Hsent.
  cbv [res_writeHead res_end bind]. rewrite !Hsent.
  destruct (JSON_parse (body req)) as [[|b|x|s|vs|ps]|]; try reflexivity;
    (destruct (fs_error e); [reflexivity|]); cbv zeta;
    match goal with
    | |- context [echo_converts ?d] => destruct (echo_converts d)
    end; reflexivity.
Qed.

Lemma handle_Ingest (PORT : N) (e : env) (payload : jsstring) (st : state) :
  handle PORT e (Ingest payload) st =
  match JSON_parse payload with
  | None => (Normal (reply 400 [] (str "Invalid JSON")), st)
  | Some Null => (Normal (reply 400 [] (str "Invalid JSON")), st)
  | Some data =>
      if fs_error e then (Normal (reply 400 [] (str "Invalid JSON")), st)
      else
        (Normal (if echo_converts (stamped e data)
                 then reply 200 [] (str "ok")
                 else reply 400 [] (str "Invalid JSON")),
         mkState (Some (log_text st ++ JSON_stringify (stamped e data)
                        ++ [10])) (logCount st + 1))
  end.
Proof. rewrite handle_routes. reflexivity. Qed.

Lemma handle_Clear (PORT : N) (e : env) (b : jsstring) (st : state) :
  handle PORT e (Clear b) st =
  if fs_error e then (Throw, st)
  else (Normal (reply 200 [] (str "Logs cleared")), mkState (Some []) 0).
Proof. rewrite handle_routes. reflexivity. Qed.

Lemma handle_GetLogs (PORT : N) (e : env) (b : jsstring) (st : state) :
  handle PORT e (GetLogs b) st =
  match log_file st with
  | Some text =>
      if fs_error e
      then (Normal (reply 500 [] (str "Error reading logs")), st)
      else (Normal (reply 200 [(str "Content-Type",
                                str "application/x-ndjson")] text), st)
  | None =>
      (Normal (reply 200 [(str "Content-Type",
                           str "application/x-ndjson")] []), st)
  end.
Proof. rewrite handle_routes. reflexivity. Qed.

Lemma handle_Health (PORT : N) (e : env) (b : jsstring) (st : state) :
  handle PORT e (Health b) st =
  (Normal (reply 200 [(str "Content-Type", str "application/json")]
             (JSON_stringify
                (Obj [(str "status", Str (str "ok"));
                      (str "logCount", Num (number_of_N (logCount st)));
                      (str "port", Num (number_of_N PORT))]))), st).
Proof. rewrite handle_routes. reflexivity. Qed.

(** ** The entries of the log file *)

Lemma written_finite (v : value) : all_finite v = true -> written v = v.
Proof.
  induction v as [|b|x|s|vs IH|ps IH] using value_ind; intros Hf;
    try reflexivity; cbn [written all_finite] in *.
  - rewrite Hf; reflexivity.
  - f_equal. induction IH as [|v vs Hv _ IHvs]; [reflexivity|].
    cbn [forallb map] in *. apply andb_true_iff in Hf as [H1 H2].
    rewrite (Hv H1), (IHvs H2). reflexivity.
  - f_equal. induction IH as [|[k v] ps Hv _ IHps]; [reflexivity|].
    cbn [forallb map fst snd] in *. apply andb_true_iff in Hf as [H1 H2].
    rewrite (Hv H1), (IHps H2). reflexivity.
Qed.

Lemma get_property_forallb (Q : value -> bool) (k : jsstring)
  (ps : list (jsstring * value)) (v : value) :
  forallb (fun p => Q (snd p)) ps = true ->
  get_property k ps = Some v -> Q v = true.
Proof.
  induction ps as [|[k' v'] ps IH]; [discriminate|].
  cbn [forallb get_property snd]. rewrite andb_true_iff. intros [H1 H2].
  destruct (jsstring_eqb k' k); [congruence | exact (IH H2)].
Qed.

Lemma id_or_fresh_forallb (Q : value -> bool) (e : env)
  (ps : list (jsstring * value)) :
  (forall s, Q (Str s) = true) ->
  forallb (fun p => Q (snd p)) ps = true ->
  Q (id_or_fresh e (get_property (str "id") ps)) = true.
Proof.
  intros HQ Hps. unfold id_or_fresh.
  destruct (get_property (str "id") ps) as [v|] eqn:E; [|apply HQ].
  destruct (ToBoolean (Some v)); [|apply HQ].
  exact (get_property_forallb Q _ ps v Hps E).
Qed.

Lemma id_or_fresh_ok (e : env) (ps : list (jsstring * value)) :
  forallb (fun p => value_ok (snd p)) ps = true ->
  value_ok (id_or_fresh e (get_property (str "id") ps)) = true.
Proof. apply id_or_fresh_forallb. reflexivity. Qed.



(** The entry of a value in the form of [JSON.parse] is in that form. *)
Lemma stamped_ok (e : env) (data : value) :
  value_ok data = true -> value_ok (stamped e data) = true.
Proof.
  destruct data as [|b|x|s|vs|ps]; intros Hok; try exact Hok.
  unfold stamped. apply set_property_ok; [apply number_of_N_ok|].
  apply set_property_ok; [|exact Hok].
  cbn [value_ok] in Hok. apply andb_true_iff in Hok as [_ Hok].
  apply id_or_fresh_ok; exact Hok.
Qed.

(** The properties of the entry of an object. *)
Lemma stamped_properties (e : env) (ps : list (jsstring * value)) :
  exists qs,
    stamped e (Obj ps) = Obj qs /\
    get_property (str "id") qs
    = Some (id_or_fresh e (get_property (str "id") ps)) /\
    get_property (str "serverTimestamp") qs
    = Some (Num (number_of_N (clock_ts e))) /\
    forall k, k <> str "id" -> k <> str "serverTimestamp" ->
              get_property k qs = get_property k ps.
Proof.
  eexists. split; [reflexivity|]. repeat split.
  - rewrite !get_set_property. reflexivity.
  - rewrite get_set_property, jsstring_eqb_refl. reflexivity.
  - intros k Hid Hts. rewrite !get_set_property.
    replace (jsstring_eqb (str "serverTimestamp") k) with false
      by (symmetry; apply jsstring_eqb_neq; congruence).
    replace (jsstring_eqb (str "id") k) with false
      by (symmetry; apply jsstring_eqb_neq; congruence).
    reflexivity.
Qed.

Lemma accepted_ok (v : value) : accepted v -> value_ok v = true.
Proof.
  intros (e & payload & data & Hparse & _ & ->).
  apply stamped_ok. exact (JSON_parse_ok _ _ Hparse).
Qed.

Lemma accepted_all_ok (vs : list value) :
  Forall accepted vs -> forallb value_ok vs = true.
Proof.
  intros H. apply forallb_forall. intros v Hv.
  rewrite Forall_forall in H. exact (accepted_ok v (H v Hv)).
Qed.

(** The entry is an object exactly when the payload is one. *)
Lemma written_stamped_object (e : env) (data : value) :
  (exists qs, written (stamped e data) = Obj qs) <-> (exists ps, data = Obj ps).
Proof.
  split.
  - intros [qs H]. destruct data as [|b|x|s|vs|ps]; try discriminate.
    + cbn [stamped written] in H. destruct (is_finite x); discriminate.
    + exists ps; reflexivity.
  - intros [ps ->]. eexists. reflexivity.
Qed.

(** ** The states of a running server *)

(** The log file of a running server holds one line for each entry
    counted, the entries of the payloads accepted since the last start or
    clear. *)
Lemma running_log_file (PORT : N) (st : state) :
  running PORT st ->
  exists vs, log_file st = Some (ndjson vs) /\
             Forall accepted vs /\
             logCount st = N.of_nat (List.length vs).
Proof.
  induction 1 as [d b st Hstart | st e req r st' _ IH Hstep].
  - unfold startup in Hstart.
    destruct (negb (log_dir_exists d) && mkdir_error b); [discriminate|].
    destruct (write_error b); [discriminate|].
    injection Hstart as <-. exists []. repeat split. constructor.
  - set (P := fun s : state =>
                exists vs, log_file s = Some (ndjson vs) /\
                           Forall accepted vs /\
                           logCount s = N.of_nat (List.length vs)).
    change (P st) in IH. change (P st').
    assert (Hempty : P (mkState (Some []) 0))
      by (exists []; repeat split; constructor).
    assert (Hentry : forall data,
               JSON_parse (body req) = Some data -> data <> Null ->
               P (mkState (Some (log_text st ++ JSON_stringify
                                   (stamped e data) ++ [10]))
                    (logCount st + 1))).
    { intros data Hp Hn. destruct IH as (vs & Hfile & Hok & Hcount).
      exists (vs ++ [stamped e data]).
      cbn [log_file logCount]. unfold log_text. rewrite Hfile.
      rewrite ndjson_app, length_app, Hcount. split; [|split].
      - unfold ndjson. cbn [map List.concat]. rewrite app_nil_r. reflexivity.
      - apply Forall_app. split; [exact Hok|]. constructor; [|constructor].
        exists e, (body req), data. auto.
      - cbn [List.length]. lia. }
    rewrite handle_routes in Hstep.
    repeat match type of Hstep with
    | (if ?c then _ else _) = _ => destruct c
    | match ?x with _ => _ end = _ => destruct x eqn:?
    end; try discriminate; injection Hstep as _ <-;
      first [exact IH | exact Hempty
            | exact (Hentry _ eq_refl ltac:(discriminate))].
Qed.

(** The counter of a running server is the number of lines of its log
    file. *)
Lemma running_counts_lines (PORT : N) (st : state) :
  running PORT st -> logCount st = N.of_nat (newlines (log_text st)).
Proof.
  intros H. destruct (running_log_file PORT st H) as (vs & Hfile & Hok & ->).
  unfold log_text. rewrite Hfile, newlines_ndjson; [reflexivity|].
  apply accepted_all_ok; exact Hok.
Qed.

Lemma serve_running (PORT : N) (reqs : list (env * request)) (st st' : state)
  (rs : list response) :
  running PORT st -> serve PORT reqs st = (Normal rs, st') -> running PORT st'.
Proof.
  revert st rs; induction reqs as [|[e req] reqs IH]; intros st rs Hrun H.
  - injection H as _ <-. exact Hrun.
  - cbn [serve] in H.
    destruct (handle PORT e req st) as [[r|] st1] eqn:E; [|discriminate].
    destruct (serve PORT reqs st1) as [[rs1|] st2] eqn:E1; [|discriminate].
    injection H as _ <-. apply (IH st1 rs1); [|exact E1].
    exact (running_step PORT st e req r st1 Hrun E).
Qed.

(** ** The body as it arrives *)

(** Quotient and remainder by a constant, for [lia]. *)
Ltac divmod :=
  repeat match goal with
  | |- context [?a / ?b] =>
      let q := fresh "q" in
      let r := fresh "r" in
      let H1 := fresh in
      let H2 := fresh in
      pose proof (N.div_mod a b ltac:(discriminate)) as H1;
      pose proof (N.mod_lt a b ltac:(discriminate)) as H2;
      set (q := a / b) in *; set (r := a mod b) in *; clearbody q r
  | |- context [?a mod ?b] =>
      let q := fresh "q" in
      let r := fresh "r" in
      let H1 := fresh in
      let H2 := fresh in
      pose proof (N.div_mod a b ltac:(discriminate)) as H1;
      pose proof (N.mod_lt a b ltac:(discriminate)) as H2;
      set (q := a / b) in *; set (r := a mod b) in *; clearbody q r
  end.

(** A comparison of the goal that [lia] decides. *)
Ltac decide_tests :=
  repeat match goal with
  | |- context [?a <=? ?b] =>
      first [replace (a <=? b) with true by (symmetry; apply N.leb_le; lia)
            | replace (a <=? b) with false by (symmetry; apply N.leb_gt; lia)]
  | |- context [?a <? ?b] =>
      first [replace (a <? b) with true by (symmetry; apply N.ltb_lt; lia)
            | replace (a <? b) with false by (symmetry; apply N.ltb_ge; lia)]
  | |- context [?a =? ?b] =>
      first [replace (a =? b) with true by (symmetry; apply N.eqb_eq; lia)
            | replace (a =? b) with false by (symmetry; apply N.eqb_neq; lia)]
  end.

Lemma mod_add_small (m k r : N) : r < k -> (m * k + r) mod k = r.
Proof.
  intros H. rewrite N.add_comm, N.Div0.mod_add. apply N.mod_small; exact H.
Qed.

(** The first byte of a character of two, three or four bytes. *)
Lemma utf8_lead_two (q : N) :
  2 <= q -> q < 32 -> utf8_lead (192 + q) = ([], mkUtf8 q 1 128 191).
Proof.
  intros H1 H2. unfold utf8_lead. decide_tests. cbn [andb].
  replace (192 + q) with (6 * 32 + q) by lia.
  rewrite (mod_add_small 6 32 q H2). reflexivity.
Qed.

Lemma utf8_lead_three (q : N) :
  q < 16 ->
  utf8_lead (224 + q)
  = ([], mkUtf8 q 2 (if q =? 0 then 160 else 128)
           (if q =? 13 then 159 else 191)).
Proof.
  intros H. unfold utf8_lead.
  replace (224 + q <=? 127) with false by (symmetry; apply N.leb_gt; lia).
  replace (194 <=? 224 + q) with true by (symmetry; apply N.leb_le; lia).
  replace (224 + q <=? 223) with false by (symmetry; apply N.leb_gt; lia).
  replace (224 <=? 224 + q) with true by (symmetry; apply N.leb_le; lia).
  replace (224 + q <=? 239) with true by (symmetry; apply N.leb_le; lia).
  cbn [andb].
  replace ((224 + q) mod 16) with q
    by (replace (224 + q) with (14 * 16 + q) by lia;
        symmetry; apply mod_add_small; exact H).
  replace (224 + q =? 224) with (q =? 0)
    by (destruct (N.eqb_spec q 0); symmetry;
        [apply N.eqb_eq | apply N.eqb_neq]; lia).
  replace (224 + q =? 237) with (q =? 13)
    by (destruct (N.eqb_spec q 13); symmetry;
        [apply N.eqb_eq | apply N.eqb_neq]; lia).
  reflexivity.
Qed.

Lemma utf8_lead_four (q : N) :
  q < 5 ->
  utf8_lead (240 + q)
  = ([], mkUtf8 q 3 (if q =? 0 then 144 else 128)
           (if q =? 4 then 143 else 191)).
Proof.
  intros H. unfold utf8_lead.
  replace (240 + q <=? 127) with false by (symmetry; apply N.leb_gt; lia).
  replace (194 <=? 240 + q) with true by (symmetry; apply N.leb_le; lia).
  replace (240 + q <=? 223) with false by (symmetry; apply N.leb_gt; lia).
  replace (224 <=? 240 + q) with true by (symmetry; apply N.leb_le; lia).
  replace (240 + q <=? 239) with false by (symmetry; apply N.leb_gt; lia).
  replace (240 <=? 240 + q) with true by (symmetry; apply N.leb_le; lia).
  replace (240 + q <=? 244) with true by (symmetry; apply N.leb_le; lia).
  cbn [andb].
  replace ((240 + q) mod 8) with q
    by (replace (240 + q) with (30 * 8 + q) by lia;
        symmetry; apply mod_add_small; lia).
  replace (240 + q =? 240) with (q =? 0)
    by (destruct (N.eqb_spec q 0); symmetry;
        [apply N.eqb_eq | apply N.eqb_neq]; lia).
  replace (240 + q =? 244) with (q =? 4)
    by (destruct (N.eqb_spec q 4); symmetry;
        [apply N.eqb_eq | apply N.eqb_neq]; lia).
  reflexivity.
Qed.

Lemma utf8_decode_lead (b : N) (rest : list N) :
  utf8_decode_from utf8_initial (b :: rest)
  = fst (utf8_lead b) ++ utf8_decode_from (snd (utf8_lead b)) rest.
Proof.
  cbn [utf8_decode_from utf8_initial bytes_needed].
  destruct (utf8_lead b); reflexivity.
Qed.

(** A byte that continues a character. *)
Lemma utf8_continue (c : N) (k : nat) (lo hi r : N) (rest : list N) :
  r < 64 -> lo <= 128 + r -> 128 + r <= hi ->
  utf8_decode_from (mkUtf8 c (S k) lo hi) (128 + r :: rest)
  = match k with
    | O => code_units (c * 64 + r) ++ utf8_decode_from utf8_initial rest
    | S _ => utf8_decode_from (mkUtf8 (c * 64 + r) k 128 191) rest
    end.
Proof.
  intros Hr Hlo Hhi.
  cbn [utf8_decode_from bytes_needed lower_boundary upper_boundary code_point].
  replace (lo <=? 128 + r) with true by (symmetry; apply N.leb_le; exact Hlo).
  replace (128 + r <=? hi) with true by (symmetry; apply N.leb_le; exact Hhi).
  cbn [andb].
  replace ((128 + r) mod 64) with r
    by (replace (128 + r) with (2 * 64 + r) by lia;
        symmetry; apply mod_add_small; exact Hr).
  reflexivity.
Qed.

(** The decoder reads the bytes of a code point back: a code point that is
    no surrogate and at most 1114111. *)
Lemma decode_code_point (c : N) (rest : list N) :
  c < 55296 \/ 57344 <= c -> c < 1114112 ->
  utf8_decode_from utf8_initial (encode_code_point c ++ rest)
  = code_units c ++ utf8_decode_from utf8_initial rest.
Proof.
  intros Hs Hmax. unfold encode_code_point.
  destruct (c <? 128) eqn:H1; [|destruct (c <? 2048) eqn:H2;
                                 [|destruct (c <? 65536) eqn:H3]].
  - apply N.ltb_lt in H1.
    cbn [app]. rewrite utf8_decode_lead. unfold utf8_lead.
    replace (c <=? 127) with true by (symmetry; apply N.leb_le; lia).
    unfold code_units.
    replace (c <? 65536) with true by (symmetry; apply N.ltb_lt; lia).
    reflexivity.
  - apply N.ltb_ge in H1. apply N.ltb_lt in H2.
    assert (Hq : 2 <= c / 64 /\ c / 64 < 32 /\ c mod 64 < 64
                 /\ c / 64 * 64 + c mod 64 = c) by (divmod; lia).
    destruct Hq as (Hq1 & Hq2 & Hr & Hc).
    set (q := c / 64) in *. set (r := c mod 64) in *. clearbody q r.
    cbn [app]. rewrite utf8_decode_lead, (utf8_lead_two _ Hq1 Hq2).
    cbn [app fst snd].
    rewrite utf8_continue by lia. rewrite Hc. reflexivity.
  - apply N.ltb_ge in H2. apply N.ltb_lt in H3.
    assert (Hq : c / 4096 < 16 /\ (c / 64) mod 64 < 64 /\ c mod 64 < 64
                 /\ (c / 4096 * 64 + (c / 64) mod 64) * 64 + c mod 64 = c
                 /\ (c / 4096 = 0 -> 32 <= (c / 64) mod 64)
                 /\ (c / 4096 = 13 -> (c / 64) mod 64 < 32))
      by (divmod; lia).
    destruct Hq as (Hq1 & Hq2 & Hr & Hc & Hlow & Hhigh).
    set (q1 := c / 4096) in *. set (q2 := (c / 64) mod 64) in *.
    set (r := c mod 64) in *. clearbody q1 q2 r.
    cbn [app]. rewrite utf8_decode_lead, (utf8_lead_three _ Hq1).
    cbn [app fst snd].
    rewrite utf8_continue;
      [| exact Hq2
       | destruct (N.eqb_spec q1 0) as [E|E]; [specialize (Hlow E)|]; lia
       | destruct (N.eqb_spec q1 13) as [E|E]; [specialize (Hhigh E)|]; lia].
    rewrite utf8_continue by lia. rewrite Hc. reflexivity.
  - apply N.ltb_ge in H3.
    assert (Hq : c / 262144 < 5 /\ (c / 4096) mod 64 < 64
                 /\ (c / 64) mod 64 < 64 /\ c mod 64 < 64
                 /\ ((c / 262144 * 64 + (c / 4096) mod 64) * 64
                     + (c / 64) mod 64) * 64 + c mod 64 = c
                 /\ (c / 262144 = 0 -> 16 <= (c / 4096) mod 64)
                 /\ (c / 262144 = 4 -> (c / 4096) mod 64 < 16))
      by (divmod; lia).
    destruct Hq as (Hq1 & Hq2 & Hq3 & Hr & Hc & Hlow & Hhigh).
    set (q1 := c / 262144) in *. set (q2 := (c / 4096) mod 64) in *.
    set (q3 := (c / 64) mod 64) in *. set (r := c mod 64) in *.
    clearbody q1 q2 q3 r.
    cbn [app]. rewrite utf8_decode_lead, (utf8_lead_four _ Hq1).
    cbn [app fst snd].
    rewrite utf8_continue;
      [| exact Hq2
       | destruct (N.eqb_spec q1 0) as [E|E]; [specialize (Hlow E)|]; lia
       | destruct (N.eqb_spec q1 4) as [E|E]; [specialize (Hhigh E)|]; lia].
    rewrite utf8_continue by lia.
    rewrite utf8_continue by lia. rewrite Hc. reflexivity.
Qed.

Lemma surrogate_ranges (c : N) :
  (is_high_surrogate c = true <-> 55296 <= c <= 56319) /\
  (is_low_surrogate c = true <-> 56320 <= c <= 57343).
Proof.
  unfold is_high_surrogate, is_low_surrogate.
  rewrite !andb_true_iff, !N.leb_le. tauto.
Qed.

(** The code units of the code point of a surrogate pair are the pair. *)
Lemma code_units_pair (h l : N) :
  is_high_surrogate h = true -> is_low_surrogate l = true ->
  let c := 65536 + (h - 55296) * 1024 + (l - 56320) in
  57344 <= c /\ c < 1114112 /\ code_units c = [h; l].
Proof.
  intros Hh Hl c. apply surrogate_ranges in Hh, Hl.
  assert (Hc : 65536 <= c < 1114112) by (unfold c; lia).
  split; [lia|]. split; [lia|]. unfold code_units.
  replace (c <? 65536) with false by (symmetry; apply N.ltb_ge; lia).
  assert (Hd : (c - 65536) / 1024 = h - 55296
               /\ (c - 65536) mod 1024 = l - 56320).
  { replace (c - 65536) with ((h - 55296) * 1024 + (l - 56320))
      by (unfold c; lia).
    split.
    - rewrite N.div_add_l by discriminate.
      rewrite N.div_small by lia. lia.
    - apply mod_add_small. lia. }
  destruct Hd as [-> ->]. f_equal; [lia | f_equal; lia].
Qed.

(** Decoding is the inverse of encoding on the well-formed strings. *)
Lemma utf8_decode_encode (s : jsstring) :
  forallb (fun c => c <? 65536) s = true -> well_formed s = true ->
  Buffer_toString (utf8_encode s) = s.
Proof.
  unfold Buffer_toString.
  remember (List.length s) as n eqn:Hn.
  assert (Hle : (List.length s <= n)%nat) by lia. clear Hn.
  revert s Hle. induction n as [|n IH]; intros s Hle Hu Hwf.
  - destruct s; [reflexivity | cbn [List.length] in Hle; lia].
  - destruct s as [|c r]; [reflexivity|].
    cbn [well_formed utf8_encode forallb] in *.
    apply andb_true_iff in Hu as [Hc16 Hu]. apply N.ltb_lt in Hc16.
    destruct (is_high_surrogate c) eqn:Hh.
    + destruct r as [|d r']; [discriminate Hwf|].
      apply andb_true_iff in Hwf as [Hd Hr]. rewrite Hd.
      cbn [forallb] in Hu. apply andb_true_iff in Hu as [_ Hu].
      destruct (code_units_pair c d Hh Hd) as (H1 & H2 & H3).
      rewrite decode_code_point by (auto; lia).
      rewrite H3. cbn [app]. do 2 f_equal.
      apply IH; [cbn [List.length] in Hle; lia | exact Hu | exact Hr].
    + apply andb_true_iff in Hwf as [Hl Hr]. apply negb_true_iff in Hl.
      rewrite Hl.
      assert (Hc : c < 55296 \/ 57344 <= c).
      { pose proof (surrogate_ranges c) as [Ha Hb].
        destruct (N.lt_ge_cases c 55296) as [|H1]; [left; assumption|].
        right. destruct (N.lt_ge_cases c 56320) as [H2|H2].
        - assert (is_high_surrogate c = true) by (apply Ha; lia). congruence.
        - destruct (N.lt_ge_cases c 57344) as [H3|H3]; [|exact H3].
          assert (is_low_surrogate c = true) by (apply Hb; lia). congruence. }
      rewrite decode_code_point by (auto; lia).
      unfold code_units.
      replace (c <? 65536) with true by (symmetry; apply N.ltb_lt; lia).
      cbn [app]. f_equal.
      apply IH; [cbn [List.length] in Hle; lia | exact Hu | exact Hr].
Qed.

Lemma collect_from (chunks : list (list N)) (body : jsstring) :
  fold_left (fun body chunk => body ++ Buffer_toString chunk) chunks body
  = body ++ List.concat (map Buffer_toString chunks).
Proof.
  revert body. induction chunks as [|chunk chunks IH]; intros body.
  - cbn. rewrite app_nil_r. reflexivity.
  - cbn [fold_left map List.concat]. rewrite IH, app_assoc. reflexivity.
Qed.

Lemma collect_chunks (chunks : list (list N)) :
  collect chunks = List.concat (map Buffer_toString chunks).
Proof. unfold collect. rewrite collect_from. reflexivity. Qed.

(** A body that is cut between characters arrives as it was sent: the
    chunks being the encodings of pieces of the text, each of them a
    well-formed string, the listener collects the text. *)
Lemma collect_pieces (pieces : list jsstring) :
  Forall (fun p => forallb (fun c => c <? 65536) p = true
                   /\ well_formed p = true) pieces ->
  collect (map utf8_encode pieces) = List.concat pieces.
Proof.
  intros H. rewrite collect_chunks, map_map. f_equal.
  induction H as [|p pieces [Hu Hp] _ IH]; [reflexivity|].
  cbn [map]. rewrite (utf8_decode_encode p Hu Hp), IH. reflexivity.
Qed.




(** The values [ToBoolean] takes for false: [undefined], [null], [false],
    zero and the empty string. *)
Lemma ToBoolean_false (v : option value) :
  ToBoolean v = false <->
  v = None \/ v = Some Null \/ v = Some (Bool false) \/ v = Some (Num Zero)
  \/ v = Some (Str []).
Proof.
  split.
  - destruct v as [[|[|]|[| |]|[|c s]|vs|ps]|]; simpl; intros H;
      try discriminate; tauto.
  - intros [->|[->|[->|[->| ->]]]]; reflexivity.
Qed.

(** ** Ingest *)


(** The entry is appended and counted before the console line is made: when
    a conversion for the console line throws, the catch block answers 400
    although the entry is in the log file. *)
Lemma ingest_answer_after_append (PORT : N) (e : env) (payload : jsstring)
  (st : state) (data : value) :
  JSON_parse payload = Some data -> data <> Null -> fs_error e = false ->
  echo_converts (stamped e data) = false ->
  handle PORT e (Ingest payload) st
  = (Normal (reply 400 [] (str "Invalid JSON")),
     mkState (Some (log_text st ++ JSON_stringify (stamped e data) ++ [10]))
       (logCount st + 1)).
Proof.
  intros Hparse Hnull Hfs Hecho. rewrite handle_Ingest, Hparse, Hfs.
  destruct data; [congruence | rewrite Hecho; reflexivity ..].
Qed.

(** The conversions for the console line succeed when [hypothesisId],
    [location] and [message] are strings or missing. *)
Lemma echo_converts_strings (ps : list (jsstring * value)) :
  (forall k v, In k [str "hypothesisId"; str "location"; str "message"] ->
               get_property k ps = Some v -> exists s, v = Str s) ->
  echo_converts (Obj ps) = true.
Proof.
  intros H. unfold echo_converts.
  assert (Hshown : forall k,
             In k [str "hypothesisId"; str "location"; str "message"] ->
             match substitution (get_property k ps) with
             | Some _ => true
             | None => false
             end = true).
  { intros k Hk. destruct (get_property k ps) as [v|] eqn:E; [|reflexivity].
    destruct (H k v Hk E) as [s ->]. reflexivity. }
  rewrite (Hshown (str "hypothesisId")) by (simpl; auto).
  rewrite (Hshown (str "location")) by (simpl; auto).
  rewrite (Hshown (str "message")) by (simpl; auto).
  destruct (ToBoolean (get_property (str "hypothesisId") ps)); reflexivity.
Qed.

(** In particular they succeed for a payload that conforms to the data
    model, where these three fields are strings. *)
Lemma echo_converts_payload (e : env) (ps : list (jsstring * value)) :
  (forall k v, In k [str "hypothesisId"; str "location"; str "message"] ->
               get_property k ps = Some v -> exists s, v = Str s) ->
  echo_converts (stamped e (Obj ps)) = true.
Proof.
  intros H. destruct (stamped_properties e ps) as (qs & -> & _ & _ & Hother).
  apply echo_converts_strings. intros k v Hk Hv.
  rewrite Hother in Hv.
  - exact (H k v Hk Hv).
  - intros ->. simpl in Hk. repeat destruct Hk as [Hk|Hk];
      try discriminate; contradiction.
  - intros ->. simpl in Hk. repeat destruct Hk as [Hk|Hk];
      try discriminate; contradiction.
Qed.



(** C10.  The body [null] is valid JSON, and Ingest responds to it with 400
    and leaves the log file and the counter as they were. *)
Theorem C10_null_rejected (PORT : N) (e : env) (st : state) :
  JSON_parse (str "null") = Some Null /\
  handle PORT e (Ingest (str "null")) st
  = (Normal (reply 400 [] (str "Invalid JSON")), st).
Proof. split; [reflexivity|]. rewrite handle_Ingest. reflexivity. Qed.

(** ** Clear, GetLogs and Health *)

(** C7.  A Clear call that meets no storage error leaves the log file empty
    and the counter at zero: the GetLogs call that follows returns the empty
    body, and the Health call that follows reports [logCount] 0. *)
Theorem C7_clear_then_empty (PORT : N) (e : env) (b : jsstring) (st : state) :
  fs_error e = false ->
  exists st',
    handle PORT e (Clear b) st
    = (Normal (reply 200 [] (str "Logs cleared")), st') /\
    log_file st' = Some [] /\
    logCount st' = 0 /\
    (forall e' b', fs_error e' = false ->
       exists r, handle PORT e' (GetLogs b') st' = (Normal r, st') /\
                 statusCode r = 200 /\ content r = []) /\
    (forall e' b',
       exists r, handle PORT e' (Health b') st' = (Normal r, st') /\
                 statusCode r = 200 /\
                 content r
                 = JSON_stringify
                     (Obj [(str "status", Str (str "ok"));
                           (str "logCount", Num Zero);
                           (str "port", Num (number_of_N PORT))])).
Proof.
  intros Hfs. exists (mkState (Some []) 0). repeat split.
  - rewrite handle_Clear, Hfs. reflexivity.
  - intros e' b' Hfs'. eexists. rewrite handle_GetLogs. cbn [log_file].
    rewrite Hfs'. repeat split.
  - intros e' b'. eexists. rewrite handle_Health. repeat split.
Qed.

(** C8.  The start-up leaves the log file empty, whatever it held before,
    and the counter at zero.  This is the state the first request finds:
    after a first Ingest the log file holds nothing but the line of that
    request. *)
Theorem C8_startup_truncates (d : disk) (b : boot) (st : state) :
  startup d b = Normal st ->
  log_file st = Some [] /\ logCount st = 0 /\
  forall PORT e payload r st',
    handle PORT e (Ingest payload) st = (Normal r, st') ->
    log_file st' = Some [] \/
    exists data, JSON_parse payload = Some data /\
                 log_file st' = Some (JSON_stringify (stamped e data) ++ [10]).
Proof.
  intros H. assert (Hst : st = mkState (Some []) 0).
  { unfold startup in H.
    destruct (negb (log_dir_exists d) && mkdir_error b); [discriminate|].
    destruct (write_error b); [discriminate|]. injection H as <-. reflexivity. }
  subst st. repeat split. intros PORT e payload r st'.
  rewrite handle_Ingest.
  destruct (JSON_parse payload) as [data|]; [|intros E; injection E as _ <-; auto].
  destruct (fs_error e);
    [destruct data; intros E; injection E as _ <-; auto|].
  destruct data; intros E; injection E as _ <-; auto;
    right; eexists; (split; [reflexivity|reflexivity]).
Qed.

(** C5 (as amended).  In a running server the body of a successful GetLogs
    is the log file, and it is NDJSON: every non-empty line of it parses as
    one JSON value, the entry of one accepted payload as [JSON.stringify]
    writes it.  The line is a JSON object exactly when that payload was
    one. *)
Theorem C5_logs_are_ndjson (PORT : N) (e : env) (b : jsstring) (st st' : state)
  (r : response) :
  running PORT st ->
  handle PORT e (GetLogs b) st = (Normal r, st') ->
  statusCode r = 200 ->
  st' = st /\
  log_file st = Some (content r) /\
  forall line, In line (lines (content r)) -> line <> [] ->
    exists e0 payload data,
      JSON_parse payload = Some data /\ data <> Null /\
      JSON_parse line = Some (written (stamped e0 data)) /\
      ((exists qs, JSON_parse line = Some (Obj qs)) <->
       (exists ps, data = Obj ps)).
Proof.
  intros Hrun Hstep Hcode.
  destruct (running_log_file PORT st Hrun) as (vs & Hfile & Hacc & _).
  pose proof (accepted_all_ok vs Hacc) as Hok.
  rewrite handle_GetLogs, Hfile in Hstep.
  destruct (fs_error e); injection Hstep as <- <-; [discriminate Hcode|].
  cbn [content reply]. split; [reflexivity|]. split; [exact Hfile|].
  intros line Hin Hne. rewrite (lines_ndjson vs Hok) in Hin.
  apply in_app_or in Hin as [Hin|[<-|[]]]; [|congruence].
  apply in_map_iff in Hin as (v & <- & Hv).
  rewrite Forall_forall in Hacc.
  destruct (Hacc v Hv) as (e0 & payload & data & Hparse & Hnull & ->).
  pose proof (JSON_parse_stringify _ (accepted_ok _ (Hacc _ Hv))) as Hback.
  exists e0, payload, data. repeat split; try assumption.
  - intros [qs Hqs]. apply (written_stamped_object e0 data).
    exists qs. congruence.
  - intros Hobj. apply (written_stamped_object e0 data) in Hobj as [qs Hqs].
    exists qs. congruence.
Qed.

(** ** Routing *)

(** C3 (as amended).  A request that is no OPTIONS request, no request to
    [/health] (whatever its method), and none of [GET /logs], [POST /clear]
    and [POST /debug] is answered with 404, and the log file and the counter
    stay as they were.  A request to [/health] that is no OPTIONS request is
    answered with 200 as the health check, whatever its method, the log file
    and the counter staying as they were.  The body of the answer is the
    text passed to [res.end] ([Not found], the health report), except that
    a HEAD request is sent no body ([sent]). *)
Theorem C3_unknown_route (PORT : N) (e : env) (req : request) (st : state) :
  method req <> str "OPTIONS" ->
  (url req <> str "/health" ->
   ~ (url req = str "/logs" /\ method req = str "GET") ->
   ~ (url req = str "/clear" /\ method req = str "POST") ->
   ~ (url req = str "/debug" /\ method req = str "POST") ->
   handle PORT e req st
   = (Normal (reply 404 [] (if jsstring_eqb (method req) (str "HEAD")
                            then [] else str "Not found")), st)) /\
  (url req = str "/health" ->
   handle PORT e req st
   = (Normal (reply 200 [(str "Content-Type", str "application/json")]
                (if jsstring_eqb (method req) (str "HEAD") then []
                 else JSON_stringify
                        (Obj [(str "status", Str (str "ok"));
                              (str "logCount",
                               Num (number_of_N (logCount st)));
                              (str "port", Num (number_of_N PORT))]))), st)).
Proof.
  intros Hopt. rewrite handle_routes.
  apply jsstring_eqb_neq in Hopt. rewrite Hopt. split.
  - intros Hhealth Hlogs Hclear Hdebug.
    apply jsstring_eqb_neq in Hhealth. rewrite Hhealth.
    assert (Hroute : forall u m,
               ~ (url req = str u /\ method req = str m) ->
               jsstring_eqb (url req) (str u)
               && jsstring_eqb (method req) (str m) = false).
    { intros u m H. apply not_true_is_false. intros Hb. apply H.
      apply andb_true_iff in Hb as [Hu Hm].
      apply jsstring_eqb_eq in Hu, Hm. auto. }
    rewrite (Hroute _ _ Hlogs), (Hroute _ _ Hclear), (Hroute _ _ Hdebug).
    reflexivity.
  - intros ->. reflexivity.
Qed.

(** C9.  Every response of the listener carries the header
    [Access-Control-Allow-Origin: *], and an OPTIONS request to any path is
    answered with 204, an empty body and the three CORS headers, the log
    file and the counter staying as they were. *)
Theorem C9_cors_headers (PORT : N) (e : env) (req : request) (st : state) :
  (forall r st', handle PORT e req st = (Normal r, st') ->
                 In (str "Access-Control-Allow-Origin", str "*") (headers r)) /\
  (method req = str "OPTIONS" ->
   handle PORT e req st
   = (Normal (mkResponse 204 cors_headers [] true), st)).
Proof.
  split.
  - intros r st' H. rewrite handle_routes in H.
    assert (Hreply : forall code extra data,
               In (str "Access-Control-Allow-Origin", str "*")
                 (headers (reply code extra data)))
      by (intros; left; reflexivity).
    repeat match type of H with
    | (if ?c then _ else _) = _ => destruct c
    | match ?x with _ => _ end = _ => destruct x
    end; try discriminate; injection H as <- _;
      try apply Hreply;
      match goal with
      | |- In _ (headers (if ?c then _ else _)) => destruct c
      end; apply Hreply.
  - intros H. rewrite handle_routes, H. reflexivity.
Qed.

(** ** Storage errors *)

(** C2 (what the listener does).  A storage error during Clear is not
    caught: the exception leaves the listener and ends the process, no
    response is sent.  A storage error during Ingest is caught by the
    handler of the parse errors and reported as 400, Invalid JSON.  Only
    GetLogs reports its storage error as 500. *)
Theorem C2_storage_errors (PORT : N) (clock1 clock2 : N) (suffix b : jsstring)
  (st : state) :
  let e := mkEnv clock1 clock2 suffix true in
  handle PORT e (Clear b) st = (Throw, st) /\
  handle PORT e (Ingest (str "{}")) st
  = (Normal (reply 400 [] (str "Invalid JSON")), st) /\
  forall text, log_file st = Some text ->
    handle PORT e (GetLogs b) st
    = (Normal (reply 500 [] (str "Error reading logs")), st).
Proof.
  intros e. split; [|split].
  - rewrite handle_Clear. reflexivity.
  - rewrite handle_Ingest. reflexivity.
  - intros text H. rewrite handle_GetLogs, H. reflexivity.
Qed.

(** ** The scenarios of the specification *)

(** An accepted payload is answered with 200, and the log file then holds
    one line with its [hypothesisId], an [id] and a [serverTimestamp]. *)
Example scenario_ingest_then_logs :
  serve 3947 [(sample_env, Ingest sample_payload); (sample_env, GetLogs [])]
    started
  = let line :=
      str "{" ++ quoted "location" ++ str ":" ++ quoted "a.js:1" ++ str ","
      ++ quoted "message" ++ str ":" ++ quoted "x" ++ str ","
      ++ quoted "hypothesisId" ++ str ":" ++ quoted "A" ++ str ","
      ++ quoted "id" ++ str ":" ++ quoted "log_1700000000000_k3j9" ++ str ","
      ++ quoted "serverTimestamp" ++ str ":1700000000001}" ++ [10] in
    (Normal [reply 200 [] (str "ok");
             reply 200 [(str "Content-Type", str "application/x-ndjson")] line],
     mkState (Some line) 1).
Proof. vm_compute. reflexivity. Qed.

(** A body that is not JSON is answered with 400, and the health report
    still counts no entry. *)
Example scenario_not_json_then_health :
  serve 3947 [(sample_env, Ingest (str "not json")); (sample_env, Health [])]
    started
  = (Normal [reply 400 [] (str "Invalid JSON");
             reply 200 [(str "Content-Type", str "application/json")]
               (str "{" ++ quoted "status" ++ str ":" ++ quoted "ok" ++ str ","
                ++ quoted "logCount" ++ str ":0," ++ quoted "port"
                ++ str ":3947}")],
     started).
Proof. vm_compute. reflexivity. Qed.

(** A clear without an entry before it is answered with 200 and leaves the
    file empty. *)
Example scenario_clear_when_empty :
  serve 3947 [(sample_env, Clear [])] started
  = (Normal [reply 200 [] (str "Logs cleared")], started).
Proof. vm_compute. reflexivity. Qed.

(** An OPTIONS request is answered with 204 and the CORS headers. *)
Example scenario_options :
  serve 3947 [(sample_env, mkRequest (str "OPTIONS") (str "/anything") [])]
    started
  = (Normal [mkResponse 204 cors_headers [] true], started).
Proof. vm_compute. reflexivity. Qed.

(** A clear that meets a storage error ends the run: the request behind it
    is never answered. *)
Example scenario_clear_storage_error :
  serve 3947
    [(sample_env, Ingest sample_payload);
     (mkEnv 1700000000002 1700000000003 (str "zz9a") true, Clear []);
     (sample_env, Health [])] started
  = (Throw, snd (handle 3947 sample_env (Ingest sample_payload) started)).
Proof. vm_compute. reflexivity. Qed.

(** ** The claims on sample inputs *)



(** C3 fails as stated: [POST /health] is none of the listed routes and is
    answered with 200. *)
Lemma C3_counterexample :
  exists r,
    handle 3947 sample_env (mkRequest (str "POST") (str "/health") []) started
    = (Normal r, started) /\
    statusCode r = 200.
Proof. eexists. split; vm_compute; reflexivity. Qed.

Lemma C3_witness :
  handle 3947 sample_env (mkRequest (str "GET") (str "/nope") []) started
  = (Normal (reply 404 [] (str "Not found")), started) /\
  handle 3947 sample_env (mkRequest (str "HEAD") (str "/health") []) started
  = (Normal (reply 200 [(str "Content-Type", str "application/json")] []),
     started) /\
  statusCode
    (match handle 3947 sample_env (mkRequest (str "PUT") (str "/health") [])
             started with
     | (Normal r, _) => r
     | (Throw, _) => new_response
     end) = 200.
Proof.
  split; [|split].
  - apply (proj1 (C3_unknown_route 3947 sample_env
                    (mkRequest (str "GET") (str "/nope") []) started
                    ltac:(vm_compute; discriminate)));
      cbn [method url]; try (intros [H _]; revert H); vm_compute; discriminate.
  - exact (proj2 (C3_unknown_route 3947 sample_env
                    (mkRequest (str "HEAD") (str "/health") []) started
                    ltac:(vm_compute; discriminate)) eq_refl).
  - rewrite (proj2 (C3_unknown_route 3947 sample_env
                      (mkRequest (str "PUT") (str "/health") []) started
                      ltac:(vm_compute; discriminate)) eq_refl).
    reflexivity.
Defined.



(** C5 fails as stated: after the body [42] was ingested, the line [42] of
    the log file is a number, not an object. *)
Lemma C5_counterexample :
  let st := mkState (Some (str "42" ++ [10])) 1 in
  handle 3947 sample_env (Ingest (str "42")) started
  = (Normal (reply 200 [] (str "ok")), st) /\
  running 3947 st /\
  (exists r, handle 3947 sample_env (GetLogs []) st = (Normal r, st) /\
             statusCode r = 200 /\
             In (str "42") (lines (content r))) /\
  JSON_parse (str "42") = Some (Num (Dec false (str "42") 2)).
Proof.
  intros st.
  assert (Hstep : handle 3947 sample_env (Ingest (str "42")) started
                  = (Normal (reply 200 [] (str "ok")), st))
    by (vm_compute; reflexivity).
  split; [exact Hstep|]. split; [|split].
  - eapply running_step; [|exact Hstep].
    apply (running_start 3947 sample_disk no_boot_error). reflexivity.
  - eexists. split; [vm_compute; reflexivity|]. split; [reflexivity|].
    vm_compute. left. reflexivity.
  - vm_compute. reflexivity.
Qed.

Lemma C5_witness :
  let st := snd (handle 3947 sample_env (Ingest sample_payload) started) in
  let r := reply 200 [(str "Content-Type", str "application/x-ndjson")]
             (log_text st) in
  running 3947 st /\
  handle 3947 sample_env (GetLogs []) st = (Normal r, st) /\
  statusCode r = 200 /\
  st = st /\
  log_file st = Some (content r) /\
  forall line, In line (lines (content r)) -> line <> [] ->
    exists e0 payload data,
      JSON_parse payload = Some data /\ data <> Null /\
      JSON_parse line = Some (written (stamped e0 data)) /\
      ((exists qs, JSON_parse line = Some (Obj qs)) <->
       (exists ps, data = Obj ps)).
Proof.
  intros st r.
  assert (Hrun : running 3947 st).
  { apply (running_step 3947 started sample_env (Ingest sample_payload)
             (reply 200 [] (str "ok")) st).
    - apply (running_start 3947 sample_disk no_boot_error). reflexivity.
    - vm_compute. reflexivity. }
  assert (Hlogs : handle 3947 sample_env (GetLogs []) st = (Normal r, st))
    by (vm_compute; reflexivity).
  split; [exact Hrun|]. split; [exact Hlogs|]. split; [reflexivity|].
  exact (C5_logs_are_ndjson 3947 sample_env [] st st r Hrun Hlogs eq_refl).
Defined.


Lemma C7_witness :
  let st := snd (handle 3947 sample_env (Ingest sample_payload) started) in
  logCount st = 1 /\
  fs_error sample_env = false /\
  exists st',
    handle 3947 sample_env (Clear []) st
    = (Normal (reply 200 [] (str "Logs cleared")), st') /\
    log_file st' = Some [] /\
    logCount st' = 0 /\
    (forall e' b', fs_error e' = false ->
       exists r, handle 3947 e' (GetLogs b') st' = (Normal r, st') /\
                 statusCode r = 200 /\ content r = []) /\
    (forall e' b',
       exists r, handle 3947 e' (Health b') st' = (Normal r, st') /\
                 statusCode r = 200 /\
                 content r
                 = JSON_stringify
                     (Obj [(str "status", Str (str "ok"));
                           (str "logCount", Num Zero);
                           (str "port", Num (number_of_N 3947))])).
Proof.
  intros st. split; [vm_compute; reflexivity|]. split; [reflexivity|].
  exact (C7_clear_then_empty 3947 sample_env [] st eq_refl).
Defined.

Lemma C8_witness :
  old_log_file sample_disk = Some (str "stale" ++ [10]) /\
  startup sample_disk no_boot_error = Normal started /\
  log_file started = Some [] /\ logCount started = 0.
Proof.
  split; [reflexivity|]. split; [reflexivity|].
  destruct (C8_startup_truncates sample_disk no_boot_error started eq_refl)
    as (Hfile & Hcount & _).
  split; assumption.
Defined.

Lemma C9_witness :
  In (str "Access-Control-Allow-Origin", str "*")
    (headers (reply 400 [] (str "Invalid JSON"))) /\
  handle 3947 sample_env (mkRequest (str "OPTIONS") (str "/debug") []) started
  = (Normal (mkResponse 204 cors_headers [] true), started).
Proof.
  split.
  - apply (proj1 (C9_cors_headers 3947 sample_env (Ingest (str "not json"))
                    started) _ started).
    vm_compute. reflexivity.
  - apply (proj2 (C9_cors_headers 3947 sample_env
                    (mkRequest (str "OPTIONS") (str "/debug") []) started)).
    reflexivity.
Defined.

(** * Further properties of the listener *)

(** ** Which requests change the state, and which end the process *)

Lemma started_running (PORT : N) : running PORT started.
Proof.
  exact (running_start PORT sample_disk no_boot_error started eq_refl).
Qed.

(** The tests of the routes, one equation for each. *)
Ltac split_routes req :=
  destruct (jsstring_eqb (method req) (str "OPTIONS")) eqn:Eoptions;
  destruct (jsstring_eqb (url req) (str "/health")) eqn:Ehealth;
  destruct (jsstring_eqb (url req) (str "/logs")) eqn:Elogs;
  destruct (jsstring_eqb (method req) (str "GET")) eqn:Eget;
  destruct (jsstring_eqb (url req) (str "/clear")) eqn:Eclear;
  destruct (jsstring_eqb (method req) (str "POST")) eqn:Epost;
  destruct (jsstring_eqb (url req) (str "/debug")) eqn:Edebug;
  cbn [andb];
  repeat match goal with
  | H : jsstring_eqb _ _ = true |- _ => apply jsstring_eqb_eq in H
  end.

(** Two different names cannot both be the method, or the address, of
    a request. *)
Ltac clash :=
  match goal with
  | H1 : ?x = str ?a, H2 : ?x = str ?b |- _ =>
      rewrite H1 in H2; vm_compute in H2; discriminate H2
  end.

(** X2.  An exception leaves the request listener, and so ends the process,
    exactly when the request is POST /clear and the write to the log file
    fails; the log file and the counter are then as they were.  Every other
    request is answered, whatever the file system does. *)
Theorem exception_only_from_clear (PORT : N) (e : env) (req : request)
  (st st' : state) :
  handle PORT e req st = (Throw, st') <->
  method req = str "POST" /\ url req = str "/clear" /\ fs_error e = true
  /\ st' = st.
Proof.
  rewrite handle_routes. split.
  - split_routes req; try clash; intros H;
      repeat match type of H with
      | (if ?c then _ else _) = _ => destruct c eqn:?
      | match ?x with _ => _ end = _ => destruct x eqn:?
      end; try discriminate H.
    all: injection H as <-; auto.
  - intros (Hm & Hu & Hfs & ->). rewrite Hm, Hu, Hfs. reflexivity.
Qed.

(** X5.  A request whose method is not POST is answered and changes neither
    the log file nor the counter, whatever its address and body are and
    whatever the file system does. *)
Theorem only_post_changes_state (PORT : N) (e : env) (req : request)
  (st : state) :
  method req <> str "POST" ->
  exists r, handle PORT e req st = (Normal r, st).
Proof.
  intros Hm. rewrite handle_routes.
  split_routes req; try contradiction;
    repeat match goal with
    | |- exists r, (if ?c then _ else _) = _ => destruct c
    | |- exists r, match ?x with _ => _ end = _ => destruct x
    end; eexists; reflexivity.
Qed.

(** X3.  What an answer of the listener looks like: it is complete, its
    first three headers are the CORS headers, and its status is one of 200,
    204, 400, 404 and 500.  The status is 204 exactly for OPTIONS, and 500
    only for GET /logs when reading the existing log file fails; the state
    is then unchanged. *)
Theorem answers_are_complete (PORT : N) (e : env) (req : request)
  (st st' : state) (r : response) :
  handle PORT e req st = (Normal r, st') ->
  writableEnded r = true /\
  firstn 3 (headers r) = cors_headers /\
  In (statusCode r) [200; 204; 400; 404; 500] /\
  (statusCode r = 204 <-> method req = str "OPTIONS") /\
  (statusCode r = 500 ->
   method req = str "GET" /\ url req = str "/logs" /\ fs_error e = true /\
   log_file st <> None /\ st' = st).
Proof.
  rewrite handle_routes.
  split_routes req; try clash; intros H;
    repeat match type of H with
    | (if ?c then _ else _) = _ => destruct c eqn:?
    | match ?x with _ => _ end = _ => destruct x eqn:?
    | (Normal (if ?c then _ else _), _) = _ => destruct c eqn:?
    end; try discriminate H; injection H as <- <-;
    (split; [reflexivity|]); (split; [reflexivity|]);
    (split; [cbn; tauto|]);
    (split; [split; [cbn; intros; try discriminate; auto
                    | intros Ho; first [reflexivity
                                       | rewrite Ho in Eoptions;
                                         vm_compute in Eoptions;
                                         discriminate Eoptions]]|]);
    cbn; intros; try discriminate; repeat split; auto; congruence.
Qed.

(** ** What an acknowledgment means *)

(** X6.  The acknowledgment is given only for an entry that is stored: when
    POST /debug is answered with 200, the body parsed to a value other than
    [null], the append succeeded, the log file is the old file followed by
    the one line of the entry, the counter is one larger, and the line
    parses back to the entry as written. *)
Theorem acknowledged_is_stored (PORT : N) (e : env) (payload : jsstring)
  (st st' : state) (r : response) :
  handle PORT e (Ingest payload) st = (Normal r, st') ->
  statusCode r = 200 ->
  exists data,
    JSON_parse payload = Some data /\ data <> Null /\ fs_error e = false /\
    r = reply 200 [] (str "ok") /\
    log_file st' = Some (log_text st ++ JSON_stringify (stamped e data) ++ [10])
    /\ logCount st' = logCount st + 1 /\
    single_line (JSON_stringify (stamped e data)) = true /\
    JSON_parse (JSON_stringify (stamped e data))
    = Some (written (stamped e data)).
Proof.
  rewrite handle_Ingest. intros H Hcode.
  destruct (JSON_parse payload) as [data|] eqn:Hparse;
    [|injection H as <- <-; discriminate Hcode].
  assert (Hok : value_ok (stamped e data) = true)
    by (apply stamped_ok, (JSON_parse_ok payload); exact Hparse).
  assert (Hnull : data = Null \/ data <> Null)
    by (destruct data; (left; reflexivity) || (right; discriminate)).
  destruct Hnull as [-> | Hnull];
    [injection H as <- <-; discriminate Hcode|].
  exists data.
  destruct (fs_error e);
    [destruct data; injection H as <- <-; discriminate Hcode|].
  destruct (echo_converts (stamped e data));
    [|destruct data; injection H as <- <-; discriminate Hcode].
  repeat split; try assumption;
    try (destruct data; try congruence; injection H as <- <-; reflexivity).
  - apply single_line_stringify; exact Hok.
  - apply JSON_parse_stringify; exact Hok.
Qed.

(** The conversions for the console line succeed on numbers, strings,
    booleans and [null]. *)
Lemma substitution_primitive (v : option value) :
  match v with
  | Some (Obj _) | Some (Arr _) => False
  | _ => True
  end ->
  exists s, substitution v = Some s.
Proof.
  destruct v as [[| b | x | s | vs | ps]|]; cbn; intros H;
    try contradiction; eexists; reflexivity.
Qed.

Lemma echo_converts_primitive (e : env) (ps : list (jsstring * value)) :
  (forall k, In k [str "hypothesisId"; str "location"; str "message"] ->
             match get_property k ps with
             | Some (Obj _) | Some (Arr _) => False
             | _ => True
             end) ->
  echo_converts (stamped e (Obj ps)) = true.
Proof.
  intros H. destruct (stamped_properties e ps) as (qs & -> & _ & _ & Hother).
  assert (Hq : forall k,
             In k [str "hypothesisId"; str "location"; str "message"] ->
             exists s, substitution (get_property k qs) = Some s).
  { intros k Hk. rewrite Hother.
    - apply substitution_primitive, H, Hk.
    - cbn in Hk. intros ->. vm_compute in Hk.
      repeat destruct Hk as [Hk|Hk]; try discriminate Hk; contradiction.
    - cbn in Hk. intros ->. vm_compute in Hk.
      repeat destruct Hk as [Hk|Hk]; try discriminate Hk; contradiction. }
  unfold echo_converts.
  destruct (Hq (str "hypothesisId")) as (s1 & ->); [cbn; auto|].
  destruct (Hq (str "location")) as (s2 & ->); [cbn; auto|].
  destruct (Hq (str "message")) as (s3 & ->); [cbn; auto|].
  destruct (ToBoolean _); reflexivity.
Qed.

(** X7.  A refusal leaves no trace when the three fields of the console
    line are plain: if POST /debug is answered with 400 and the payload,
    where it is an object, has a [hypothesisId], [location] and [message]
    that are absent or a string, a number, a boolean or [null], then the
    log file and the counter are unchanged. *)
Theorem refused_is_not_stored (PORT : N) (e : env) (payload : jsstring)
  (st st' : state) (r : response) :
  handle PORT e (Ingest payload) st = (Normal r, st') ->
  statusCode r = 400 ->
  (forall ps k, JSON_parse payload = Some (Obj ps) ->
     In k [str "hypothesisId"; str "location"; str "message"] ->
     match get_property k ps with
     | Some (Obj _) | Some (Arr _) => False
     | _ => True
     end) ->
  st' = st.
Proof.
  rewrite handle_Ingest. intros H Hcode Hplain.
  destruct (JSON_parse payload) as [data|] eqn:Hparse;
    [|injection H as _ <-; reflexivity].
  assert (Hecho : echo_converts (stamped e data) = true).
  { destruct data as [| b | x | s | vs | ps]; try reflexivity.
    apply echo_converts_primitive. intros k Hk.
    exact (Hplain ps k eq_refl Hk). }
  rewrite Hecho in H.
  destruct data; destruct (fs_error e); injection H as <- <-;
    first [reflexivity | discriminate Hcode].
Qed.

(** X10.  The refusal that does leave a trace: when the [location] or the
    [message] of an object payload is an object with an own property
    [toString], the entry is appended and counted, and then the template
    literal of the console line throws inside the [try] block: the caller is
    told 400 Invalid JSON for an entry that is in the log file. *)
Theorem refused_but_stored (PORT : N) (e : env) (payload k : jsstring)
  (st : state) (ps qs : list (jsstring * value)) :
  JSON_parse payload = Some (Obj ps) ->
  In k [str "location"; str "message"] ->
  get_property k ps = Some (Obj qs) ->
  has_property (str "toString") qs = true ->
  fs_error e = false ->
  handle PORT e (Ingest payload) st
  = (Normal (reply 400 [] (str "Invalid JSON")),
     mkState (Some (log_text st ++ JSON_stringify (stamped e (Obj ps))
                    ++ [10])) (logCount st + 1)).
Proof.
  intros Hparse Hk Hget Hown Hfs.
  rewrite handle_Ingest, Hparse, Hfs.
  assert (Hecho : echo_converts (stamped e (Obj ps)) = false).
  { destruct (stamped_properties e ps) as (ps' & -> & _ & _ & Hother).
    assert (Hsub : substitution (get_property k ps') = None).
    { rewrite Hother, Hget.
      - cbn [substitution ToString]. rewrite Hown. reflexivity.
      - cbn in Hk. intros ->. vm_compute in Hk.
        repeat destruct Hk as [Hk|Hk]; try discriminate Hk; contradiction.
      - cbn in Hk. intros ->. vm_compute in Hk.
        repeat destruct Hk as [Hk|Hk]; try discriminate Hk; contradiction. }
    unfold echo_converts.
    destruct Hk as [<- | [<- | []]]; rewrite Hsub;
      [rewrite andb_false_r | rewrite andb_false_r]; reflexivity. }
  rewrite Hecho. reflexivity.
Qed.

(** ** The order of the properties of an entry *)

Lemma replace_property_same (k : jsstring) (v : value)
  (ps : list (jsstring * value)) :
  get_property k ps = Some v -> replace_property k v ps = ps.
Proof.
  induction ps as [|[k' v'] ps IH]; cbn; [discriminate|].
  destruct (jsstring_eqb k' k).
  - intros [= ->]. reflexivity.
  - intros H. rewrite (IH H). reflexivity.
Qed.

Lemma precedes_new_name (k : jsstring) (ps : list (jsstring * value)) :
  array_index k = None -> has_property k ps = false ->
  forallb (fun p => precedes (fst p) k) ps = true.
Proof.
  intros Hk H. apply has_property_false in H.
  rewrite forallb_forall in *. intros p Hp. specialize (H p Hp).
  unfold precedes. rewrite Hk. destruct (array_index (fst p)); auto.
Qed.

(** X9.  Where the metadata of the server goes in the line.  In an object
    payload without [serverTimestamp], the timestamp becomes the last
    property.  If the payload has no [id] either, the new [id] goes in front
    of it, behind all properties of the payload, which keep their order; if
    the payload has a truthy [id], its properties are all written as they
    came. *)
Theorem metadata_comes_last (e : env) (ps : list (jsstring * value)) :
  has_property (str "serverTimestamp") ps = false ->
  (has_property (str "id") ps = false ->
   stamped e (Obj ps)
   = Obj (ps ++ [(str "id", Str (fresh_id e));
                 (str "serverTimestamp", Num (number_of_N (clock_ts e)))])) /\
  (ToBoolean (get_property (str "id") ps) = true ->
   stamped e (Obj ps)
   = Obj (ps ++ [(str "serverTimestamp", Num (number_of_N (clock_ts e)))])).
Proof.
  intros Hts. split.
  - intros Hid. unfold stamped.
    assert (Hget : get_property (str "id") ps = None).
    { rewrite has_property_get in Hid.
      destruct (get_property (str "id") ps); [discriminate | reflexivity]. }
    rewrite Hget. cbn [id_or_fresh].
    rewrite (set_property_append (str "id"));
      [|apply precedes_new_name; [reflexivity | exact Hid]].
    rewrite set_property_append.
    + rewrite <- app_assoc. reflexivity.
    + apply precedes_new_name; [reflexivity|].
      apply has_property_false. rewrite forallb_app.
      apply has_property_false in Hts. rewrite Hts. reflexivity.
  - intros Hid. unfold stamped.
    destruct (get_property (str "id") ps) as [v|] eqn:Hget;
      [|discriminate Hid].
    unfold id_or_fresh. rewrite Hid.
    assert (Hset : set_property (str "id") v ps = ps).
    { unfold set_property. rewrite has_property_get, Hget.
      apply replace_property_same. exact Hget. }
    rewrite Hset. rewrite set_property_append; [reflexivity|].
    apply precedes_new_name; [reflexivity | exact Hts].
Qed.

(** ** Runs of requests *)

(** One request that is not addressed to /clear is answered, and appends
    its entry if it has one. *)
Lemma handle_entry (PORT : N) (e : env) (req : request) (st st' : state)
  (c : completion response) :
  url req <> str "/clear" ->
  handle PORT e req st = (c, st') ->
  exists r,
    c = Normal r /\
    log_text st' = log_text st ++ ndjson (entries_of [(e, req)]) /\
    logCount st'
    = logCount st + N.of_nat (List.length (entries_of [(e, req)])).
Proof.
  intros Hu. rewrite handle_routes.
  unfold entries_of, entry_of. cbn [flat_map fst snd].
  assert (Hsame : forall r : response, exists r',
             Normal r = Normal r' /\
             log_text st = log_text st ++ ndjson ([] ++ []) /\
             logCount st = logCount st + N.of_nat (List.length ([] ++ []
                                                     : list value))).
  { intros r. exists r. cbn. rewrite app_nil_r, N.add_0_r. auto. }
  assert (Hentry : forall (r : response) v, exists r',
             Normal r = Normal r' /\
             log_text (mkState (Some (log_text st ++ JSON_stringify v
                                      ++ [10])) (logCount st + 1))
             = log_text st ++ ndjson ([v] ++ []) /\
             logCount (mkState (Some (log_text st ++ JSON_stringify v
                                      ++ [10])) (logCount st + 1))
             = logCount st + N.of_nat (List.length ([v] ++ []))).
  { intros r v. exists r. cbn. rewrite app_nil_r. auto. }
  split_routes req; try contradiction; try clash; intros H;
    repeat match type of H with
    | (if ?c then _ else _) = _ => destruct c eqn:?
    | match ?x with _ => _ end = _ => destruct x eqn:?
    end; injection H as <- <-; cbv beta match;
    first [apply Hsame
          | match goal with
            | |- context [ndjson ([?v] ++ [])] => exact (Hentry _ v)
            end].
Qed.

Lemma entries_of_cons (e : env) (req : request)
  (reqs : list (env * request)) :
  entries_of ((e, req) :: reqs) = entries_of [(e, req)] ++ entries_of reqs.
Proof. unfold entries_of. cbn [flat_map]. rewrite app_nil_r. reflexivity. Qed.

(** Every entry of a run is the entry of a payload that was accepted, and
    a request has at most one. *)
Lemma entries_of_accepted (reqs : list (env * request)) :
  Forall accepted (entries_of reqs) /\
  (List.length (entries_of reqs) <= List.length reqs)%nat.
Proof.
  induction reqs as [|[e req] reqs [IH1 IH2]]; [split; [constructor | auto]|].
  rewrite entries_of_cons, length_app. cbn [List.length].
  assert (H : Forall accepted (entries_of [(e, req)]) /\
              (List.length (entries_of [(e, req)]) <= 1)%nat).
  { unfold entries_of, entry_of. cbn [flat_map fst snd].
    destruct (jsstring_eqb (url req) (str "/debug")
              && jsstring_eqb (method req) (str "POST"));
      [|split; [constructor | auto]].
    destruct (JSON_parse (body req)) as [data|] eqn:Hparse;
      [|split; [constructor | auto]].
    destruct (fs_error e);
      [destruct data; split; solve [constructor | auto]|].
    destruct data; cbn [app List.length];
      (split; [|auto]); try constructor; try constructor;
      eexists e, (body req), _;
      (split; [exact Hparse|]); (split; [discriminate | reflexivity]). }
  destruct H as [H1 H2]. split; [apply Forall_app; auto | lia].
Qed.

(** X4.  Without a request to /clear the log file only grows, and by whole
    entries: after any run of requests none of which is addressed to
    /clear, every request has been answered, the log file is the old file
    followed by the entries of the requests of the run ([entries_of]), one
    line each, in the order of the requests, and the counter has grown by
    their number.  A request has an entry when it is a POST to /debug whose
    body parses to a value other than [null] and whose append succeeds. *)
Theorem log_only_grows (PORT : N) (reqs : list (env * request))
  (st st' : state) (c : completion (list response)) :
  Forall (fun er => url (snd er) <> str "/clear") reqs ->
  serve PORT reqs st = (c, st') ->
  exists rs,
    c = Normal rs /\ List.length rs = List.length reqs /\
    Forall accepted (entries_of reqs) /\
    (List.length (entries_of reqs) <= List.length reqs)%nat /\
    log_text st' = log_text st ++ ndjson (entries_of reqs) /\
    logCount st' = logCount st + N.of_nat (List.length (entries_of reqs)).
Proof.
  intros Hall. revert st st' c. induction Hall as [|[e req] reqs Hu _ IH];
    intros st st' c H.
  - injection H as <- <-. exists []. cbn.
    rewrite app_nil_r, N.add_0_r. repeat split; auto.
  - cbn [serve] in H. cbn [snd] in Hu.
    destruct (handle PORT e req st) as [c1 st1] eqn:E1.
    destruct (handle_entry PORT e req st st1 c1 Hu E1)
      as (r1 & -> & Htext1 & Hcount1).
    destruct (serve PORT reqs st1) as [c2 st2] eqn:E2.
    destruct (IH st1 st2 c2 E2)
      as (rs2 & -> & Hrs2 & _ & _ & Htext2 & Hcount2).
    destruct (entries_of_accepted ((e, req) :: reqs)) as [Hok Hlen].
    injection H as <- <-. exists (r1 :: rs2).
    split; [reflexivity|]. split; [cbn [List.length]; congruence|].
    split; [exact Hok|]. split; [exact Hlen|].
    rewrite entries_of_cons, Htext2, Htext1, Hcount2, Hcount1, ndjson_app,
      length_app, <- app_assoc.
    split; [reflexivity | lia].
Qed.

Lemma serve_app (PORT : N) (reqs1 reqs2 : list (env * request)) (st : state) :
  serve PORT (reqs1 ++ reqs2) st =
  match serve PORT reqs1 st with
  | (Normal rs1, st1) =>
      match serve PORT reqs2 st1 with
      | (Normal rs2, st2) => (Normal (rs1 ++ rs2), st2)
      | (Throw, st2) => (Throw, st2)
      end
  | (Throw, st1) => (Throw, st1)
  end.
Proof.
  revert st. induction reqs1 as [|[e req] reqs1 IH]; intros st.
  - cbn. destruct (serve PORT reqs2 st) as [[rs|] st2]; reflexivity.
  - cbn [app serve]. destruct (handle PORT e req st) as [[r|] st1];
      [|reflexivity].
    rewrite IH. destruct (serve PORT reqs1 st1) as [[rs1|] st2];
      [|reflexivity].
    destruct (serve PORT reqs2 st2) as [[rs2|] st3]; reflexivity.
Qed.

(** X8.  Entries are written in the order of arrival.  A run of ingest
    requests each of which has a payload that parses to a value other than
    [null], a successful append and a printable console line is answered
    with as many acknowledgments; the log file is the old file followed by
    the lines of the entries in the order of the requests, and the counter
    has grown by their number. *)
Theorem ingests_in_order (PORT : N) (batch : list (env * jsstring))
  (st : state) :
  Forall (fun ep =>
            fs_error (fst ep) = false /\
            exists data, JSON_parse (snd ep) = Some data /\ data <> Null /\
                         echo_converts (stamped (fst ep) data) = true) batch ->
  exists st',
    serve PORT (map (fun ep => (fst ep, Ingest (snd ep))) batch) st
    = (Normal (map (fun _ => reply 200 [] (str "ok")) batch), st') /\
    log_text st'
    = log_text st
      ++ ndjson (map (fun ep => match JSON_parse (snd ep) with
                                | Some data => stamped (fst ep) data
                                | None => Null
                                end) batch) /\
    logCount st' = logCount st + N.of_nat (List.length batch).
Proof.
  intros Hall. revert st.
  induction Hall as [|[e payload] batch Hhead Htail IH]; intros st.
  - exists st. cbn. rewrite app_nil_r, N.add_0_r. auto.
  - cbn [fst snd] in Hhead. destruct Hhead as (Hfs & data & Hparse & Hn & He).
    cbn [map serve fst snd]. rewrite handle_Ingest, Hparse, Hfs, He.
    set (st1 := mkState (Some (log_text st ++ JSON_stringify (stamped e data)
                               ++ [10])) (logCount st + 1)).
    assert (Hstep : (match data with
                     | Null => (Normal (reply 400 [] (str "Invalid JSON")), st)
                     | _ => (Normal (reply 200 [] (str "ok")), st1)
                     end) = (Normal (reply 200 [] (str "ok")), st1))
      by (destruct data; try reflexivity; contradiction).
    rewrite Hstep. clear Hstep.
    destruct (IH st1) as (st' & -> & Htext & Hcount). exists st'.
    split; [reflexivity|]. rewrite Htext, Hcount.
    change (log_text st1) with (log_text st ++ JSON_stringify (stamped e data)
                                ++ [10]).
    change (logCount st1) with (logCount st + 1).
    split.
    + unfold ndjson. cbn [map List.concat]. rewrite <- !app_assoc.
      reflexivity.
    + cbn [List.length]. lia.
Qed.

(** X11.  POST /clear is a restart of the server.  A successful clear
    leaves the state the start-up leaves, whatever was served before: what
    the server answers afterwards, and the log file and counter it ends
    with, are those of a server that has just started. *)
Theorem clear_is_restart (PORT : N) (before after : list (env * request))
  (e : env) (b : jsstring) (st st1 : state) (rs1 : list response) :
  serve PORT before st = (Normal rs1, st1) ->
  fs_error e = false ->
  serve PORT (before ++ (e, Clear b) :: after) st
  = match serve PORT after started with
    | (Normal rs2, st2) =>
        (Normal (rs1 ++ reply 200 [] (str "Logs cleared") :: rs2), st2)
    | (Throw, st2) => (Throw, st2)
    end.
Proof.
  intros H1 Hfs. rewrite serve_app, H1. cbn [serve].
  rewrite handle_Clear, Hfs. fold started.
  destruct (serve PORT after started) as [[rs2|] st2]; reflexivity.
Qed.

(** ** The counter *)

(** X1.  The health report of a running server counts the lines of the log
    file: its body is the JSON text of [status], [logCount] and [port], in
    this order, with [logCount] the number of line feeds in the log file
    and [port] the port, both in decimal digits (for numbers below
    10^21, which [JSON.stringify] writes without an exponent). *)
Theorem health_counts_lines (PORT : N) (e : env) (b : jsstring) (st : state) :
  running PORT st -> PORT < 10 ^ 21 -> logCount st < 10 ^ 21 ->
  handle PORT e (Health b) st
  = (Normal (reply 200 [(str "Content-Type", str "application/json")]
               (str "{" ++ quoted "status" ++ str ":" ++ quoted "ok"
                ++ str "," ++ quoted "logCount" ++ str ":"
                ++ decimal (N.of_nat (newlines (log_text st)))
                ++ str "," ++ quoted "port" ++ str ":" ++ decimal PORT
                ++ str "}")), st).
Proof.
  intros Hrun Hport Hcount. rewrite handle_Health.
  rewrite <- (running_counts_lines PORT st Hrun).
  cbn [JSON_stringify map join fst snd].
  rewrite !number_of_N_finite, !Number_toString_of_N by assumption.
  do 2 f_equal. cbn [app]. rewrite <- !app_assoc. reflexivity.
Qed.

(** * The command line, the launch and the shutdown *)

(** ** The port argument *)

Lemma trim_start_spaces (ws t : jsstring) :
  forallb is_StrWhiteSpaceChar ws = true ->
  trim_start (ws ++ t) = trim_start t.
Proof.
  induction ws as [|c ws IH]; cbn [forallb app trim_start]; [reflexivity|].
  intros H. apply andb_true_iff in H as [Hc Hws]. rewrite Hc. exact (IH Hws).
Qed.

(** [parseInt] on a text without white space, sign or prefix in front:
    the digits at its beginning. *)
Lemma parseInt_unsigned (c : N) (t : jsstring) :
  is_StrWhiteSpaceChar c = false ->
  (c =? 45) = false -> (c =? 43) = false -> (c =? 48) = false ->
  parseInt (c :: t)
  = let (Z, _) := span_digits (c :: t) in
    if is_empty Z then None
    else Some (make_number false Z (Z.of_nat (List.length Z))).
Proof.
  intros Hspace Hminus Hplus Hzero. unfold parseInt.
  cbn [trim_start]. rewrite Hspace.
  destruct c as [|p]; [reflexivity|].
  do 6 (destruct p as [p|p|]; try reflexivity);
    first [discriminate Hminus | discriminate Hplus | discriminate Hzero].
Qed.

Lemma parseInt_zero (t : jsstring) :
  starts_with (fun c => (c =? 120) || (c =? 88)) t = false ->
  parseInt (48 :: t)
  = let (Z, _) := span_digits (48 :: t) in
    if is_empty Z then None
    else Some (make_number false Z (Z.of_nat (List.length Z))).
Proof.
  intros H. unfold parseInt. change (trim_start (48 :: t)) with (48 :: t).
  cbv beta iota zeta. destruct t as [|x r]; [reflexivity|].
  cbn [starts_with] in H. rewrite H. reflexivity.
Qed.

Lemma digit_plain (c : N) :
  is_digit c = true ->
  is_StrWhiteSpaceChar c = false /\ (c =? 45) = false /\ (c =? 43) = false.
Proof.
  intros Hc.
  destruct (digit_cases c Hc) as [->|[->|[->|[->|[->|[->|[->|[->|[->| ->]]]]]]]]];
    repeat split; reflexivity.
Qed.

(** [parseInt] on a text that starts with a digit other than 0. *)
Lemma parseInt_digits (c : N) (more rest : jsstring) :
  is_digit c = true -> (c =? 48) = false ->
  forallb is_digit more = true -> starts_with is_digit rest = false ->
  parseInt (c :: more ++ rest)
  = Some (make_number false (c :: more)
            (Z.of_nat (List.length (c :: more)))).
Proof.
  intros Hc Hz Hmore Hrest.
  assert (Hspan : span_digits ((c :: more) ++ rest) = (c :: more, rest)).
  { apply span_digits_app; [|exact Hrest].
    cbn [forallb]. rewrite Hc. exact Hmore. }
  cbn [app] in Hspan.
  destruct (digit_plain c Hc) as (Hspace & Hminus & Hplus).
  rewrite (parseInt_unsigned c _ Hspace Hminus Hplus Hz), Hspan.
  reflexivity.
Qed.

Lemma parseInt_decimal (n : N) (ws rest : jsstring) :
  0 < n -> forallb is_StrWhiteSpaceChar ws = true ->
  starts_with is_digit rest = false ->
  parseInt (ws ++ decimal n ++ rest) = Some (number_of_N n).
Proof.
  intros Hpos Hws Hrest.
  pose proof (decimal_head n Hpos) as Hhd.
  pose proof (decimal_digits n) as Hd.
  unfold number_of_N.
  destruct (decimal n) as [|c more] eqn:E; [discriminate Hhd|].
  cbn [hd] in Hhd. cbn [forallb] in Hd. apply andb_true_iff in Hd as [Hc Hm].
  rewrite <- (parseInt_digits c more rest Hc Hhd Hm Hrest).
  unfold parseInt. rewrite trim_start_spaces by exact Hws. reflexivity.
Qed.

(** The port [server.listen] is given for an integer below 10^21. *)
Lemma legal_port_of_N (n : N) :
  n < 10 ^ 21 ->
  legal_port (number_of_N n) = if n <=? 65535 then Some n else None.
Proof.
  intros Hlt. destruct (N.eq_0_gt_0_cases n) as [->|Hpos]; [reflexivity|].
  destruct (number_of_N_small n Hpos Hlt) as (m & Hm & _ & ->).
  pose proof (decimal_digits n) as Hd. rewrite Hm in Hd.
  rewrite forallb_app in Hd. apply andb_true_iff in Hd as [Hd2 _].
  pose proof (digits_value_decimal n) as Hv.
  rewrite Hm, (digits_value_app _ _ Hd2), digits_value_zeros in Hv.
  rewrite repeat_length, N.add_0_r in Hv.
  assert (Hlen : List.length (decimal n)
                 = (List.length (strip_trailing (decimal n)) + m)%nat)
    by (rewrite Hm at 1; rewrite length_app, repeat_length; reflexivity).
  unfold legal_port.
  replace (Z.of_nat (List.length (strip_trailing (decimal n)))
           <=? Z.of_nat (List.length (decimal n)))%Z
    with true by (symmetry; apply Z.leb_le; lia).
  replace (Z.to_N (Z.of_nat (List.length (decimal n))
                   - Z.of_nat (List.length (strip_trailing (decimal n)))))
    with (N.of_nat m) by lia.
  rewrite Hv. reflexivity.
Qed.

(** The number of a legal port is the number the port was read from. *)
Lemma legal_port_inv (x : number) (p : N) :
  number_ok x = true -> legal_port x = Some p ->
  number_of_N p = x /\ p <= 65535 /\ (x <> Zero -> 1 <= p).
Proof.
  intros Hok H. destruct x as [|[|] ds n|s]; try discriminate H.
  - injection H as <-. split; [reflexivity|]. split; [lia | congruence].
  - cbn [legal_port] in H.
    destruct (Z.of_nat (List.length ds) <=? n)%Z eqn:Hk; [|discriminate H].
    apply Z.leb_le in Hk.
    destruct (digits_value ds * 10 ^ Z.to_N (n - Z.of_nat (List.length ds))
              <=? 65535) eqn:Hp; [|discriminate H].
    apply N.leb_le in Hp. injection H as <-.
    pose proof Hok as Hok'. cbn [number_ok] in Hok'.
    apply andb_true_iff in Hok' as [Hok' _].
    apply andb_true_iff in Hok' as [Hs _].
    apply significant_digits in Hs as (Hd & He & Hh & Hl).
    destruct ds as [|c more]; [discriminate He|]. cbn [hd] in Hh.
    set (m := Z.to_nat (n - Z.of_nat (List.length (c :: more)))).
    replace (Z.to_N (n - Z.of_nat (List.length (c :: more))))
      with (N.of_nat m) in * by lia.
    assert (Hval : digits_value ((c :: more) ++ repeat 48 m)
                   = digits_value (c :: more) * 10 ^ N.of_nat m).
    { rewrite (digits_value_app _ _ Hd), digits_value_zeros, repeat_length.
      lia. }
    assert (Hdec : decimal (digits_value (c :: more) * 10 ^ N.of_nat m)
                   = (c :: more) ++ repeat 48 m).
    { rewrite <- Hval. cbn [app]. apply decimal_digits_value.
      - change (c :: more ++ repeat 48 m) with ((c :: more) ++ repeat 48 m).
        rewrite forallb_app, Hd. apply forallb_repeat. reflexivity.
      - rewrite Hh. reflexivity. }
    split; [|split; [exact Hp|]].
    + unfold number_of_N. rewrite Hdec, length_app, repeat_length.
      pose proof (make_number_padded false (c :: more) n 0 m Hok) as Hmk.
      cbn [repeat app] in Hmk.
      replace (Z.of_nat (List.length (c :: more) + m)) with (n + Z.of_nat 0)%Z
        by lia.
      exact Hmk.
    + intros _. cbn [forallb] in Hd. apply andb_true_iff in Hd as [Hc _].
      pose proof (digits_value_ge c more Hc Hh) as Hge.
      assert (10 ^ N.of_nat (List.length more) <> 0)
        by (apply N.pow_nonzero; lia).
      assert (10 ^ N.of_nat m <> 0) by (apply N.pow_nonzero; lia).
      nia.
Qed.

Lemma negate_ok (neg : bool) (x : number) :
  number_ok x = true -> number_ok (negate neg x) = true.
Proof. destruct x; auto. Qed.

Lemma parseInt_ok (s : jsstring) (x : number) :
  parseInt s = Some x -> number_ok x = true.
Proof.
  unfold parseInt.
  destruct (match trim_start s with
            | 45 :: r => (true, r)
            | 43 :: r => (false, r)
            | _ => (false, trim_start s)
            end) as [neg t].
  destruct (match t with
            | 48 :: x :: r => if (x =? 120) || (x =? 88) then Some r else None
            | _ => None
            end) as [r|].
  - destruct (span_hex r) as [ds rest]. destruct (is_empty ds); [discriminate|].
    intros [= <-]. apply negate_ok, number_of_N_ok.
  - pose proof (span_digits_spec t) as [Hd _].
    destruct (span_digits t) as [ds rest]. destruct (is_empty ds);
      [discriminate|].
    intros [= <-]. apply make_number_ok. exact Hd.
Qed.

Lemma PORT_of_ok (argv2 : option jsstring) :
  number_ok (PORT_of argv2) = true /\ PORT_of argv2 <> Zero.
Proof.
  unfold PORT_of.
  destruct (parseInt _) as [x|] eqn:E; [|split; [reflexivity | discriminate]].
  pose proof (parseInt_ok _ x E) as Hok.
  destruct x; (split; [first [exact Hok | reflexivity] | discriminate]).
Qed.

(** X12.  The port of the command line.  An argument that starts, after
    white space, with the decimal digits of a positive integer selects this
    integer, whatever follows the digits: [8080abc] is 8080 and [3e3] is 3.
    The server can listen on it when it is at most 65535.  This is said of
    the integers below 2^53, which [parseInt] returns as they are written;
    a longer run of digits is rounded to a double, and is no legal port
    either. *)
Theorem port_is_leading_digits (n : N) (ws rest : jsstring) :
  0 < n -> n < 2 ^ 53 ->
  forallb is_StrWhiteSpaceChar ws = true ->
  starts_with is_digit rest = false ->
  PORT_of (Some (ws ++ decimal n ++ rest)) = number_of_N n /\
  Number_toString (PORT_of (Some (ws ++ decimal n ++ rest))) = decimal n /\
  legal_port (PORT_of (Some (ws ++ decimal n ++ rest)))
  = if n <=? 65535 then Some n else None.
Proof.
  intros Hpos Hexact Hws Hrest.
  assert (Hlt : n < 10 ^ 21).
  { apply (N.lt_trans _ _ _ Hexact). vm_compute. reflexivity. }
  assert (H : PORT_of (Some (ws ++ decimal n ++ rest)) = number_of_N n).
  { unfold PORT_of. rewrite (parseInt_decimal n ws rest Hpos Hws Hrest).
    destruct (number_of_N_small n Hpos Hlt) as (m & _ & _ & ->). reflexivity. }
  rewrite H. split; [reflexivity|]. split.
  - apply Number_toString_of_N; exact Hlt.
  - apply legal_port_of_N; exact Hlt.
Qed.

Lemma span_digits_zeros (m : nat) (rest : jsstring) :
  starts_with is_digit rest = false ->
  span_digits (repeat 48 m ++ rest) = (repeat 48 m, rest).
Proof.
  intros H. apply span_digits_app; [|exact H].
  apply forallb_repeat. reflexivity.
Qed.

(** X13.  When the port falls back to 3947: no argument; an argument whose
    first character is no digit, sign or white space; and an argument that
    starts with zeros only, as [0] and [0.5] do.  Port 0, by which the
    system would choose a free port, can therefore not be asked for. *)
Theorem port_falls_back (s rest : jsstring) (m : nat) :
  PORT_of None = number_of_N 3947 /\
  (starts_with (fun c => is_digit c || is_StrWhiteSpaceChar c
                         || (c =? 43) || (c =? 45)) s = false ->
   PORT_of (Some s) = number_of_N 3947) /\
  (starts_with (fun c => is_digit c || (c =? 120) || (c =? 88)) rest = false ->
   PORT_of (Some (repeat 48 (S m) ++ rest)) = number_of_N 3947) /\
  legal_port (number_of_N 3947) = Some 3947.
Proof.
  split; [reflexivity|]. split; [|split; [|reflexivity]].
  - intros H. unfold PORT_of.
    destruct s as [|c t]; [reflexivity|]. cbn [starts_with] in H.
    apply orb_false_iff in H as [H Hminus].
    apply orb_false_iff in H as [H Hplus].
    apply orb_false_iff in H as [Hdigit Hspace].
    assert (Hzero : (c =? 48) = false).
    { destruct (c =? 48) eqn:E; [|reflexivity].
      apply N.eqb_eq in E. subst c. discriminate Hdigit. }
    rewrite (parseInt_unsigned c t Hspace Hminus Hplus Hzero).
    cbn [span_digits]. rewrite Hdigit. reflexivity.
  - intros H. unfold PORT_of.
    assert (Hrest : starts_with is_digit rest = false).
    { destruct rest as [|c r]; [reflexivity|]. cbn [starts_with] in *.
      apply orb_false_iff in H as [H _].
      apply orb_false_iff in H as [H _]. exact H. }
    assert (Hx : starts_with (fun c => (c =? 120) || (c =? 88))
                   (repeat 48 m ++ rest) = false).
    { destruct m as [|m]; [|reflexivity]. cbn [repeat app].
      destruct rest as [|c r]; [reflexivity|]. cbn [starts_with] in *.
      apply orb_false_iff in H as [H H88].
      apply orb_false_iff in H as [_ H120]. rewrite H120, H88. reflexivity. }
    cbn [repeat app]. rewrite (parseInt_zero _ Hx).
    change (48 :: repeat 48 m ++ rest) with (repeat 48 (S m) ++ rest).
    rewrite (span_digits_zeros (S m) rest Hrest).
    assert (Hzero : make_number false (repeat 48 (S m))
                      (Z.of_nat (List.length (repeat 48 (S m)))) = Zero).
    { unfold make_number.
      rewrite <- (app_nil_r (repeat 48 (S m))), strip_leading_zeros.
      reflexivity. }
    rewrite Hzero. reflexivity.
Qed.

Lemma hex_digits_value_hex4 (c : N) :
  c < 65536 -> hex_digits_value (hex4 c) = c.
Proof.
  intros Hc. pose proof (hex4_value_hex4 c Hc) as H.
  unfold hex4 in *. unfold hex4_value in H. unfold hex_digits_value.
  cbn [fold_left].
  destruct (hex_value (hex_digit (c / 4096 mod 16))); [|discriminate H].
  destruct (hex_value (hex_digit (c / 256 mod 16))); [|discriminate H].
  destruct (hex_value (hex_digit (c / 16 mod 16))); [|discriminate H].
  destruct (hex_value (hex_digit (c mod 16))); [|discriminate H].
  injection H as <-. lia.
Qed.

Lemma span_hex_hex4 (c : N) (rest : jsstring) :
  starts_with (fun c => match hex_value c with
                        | Some _ => true
                        | None => false
                        end) rest = false ->
  span_hex (hex4 c ++ rest) = (hex4 c, rest).
Proof.
  intros Hrest. unfold hex4. cbn [app span_hex].
  rewrite !hex_value_digit by (apply N.mod_lt; discriminate).
  destruct rest as [|x r]; [reflexivity|]. cbn [span_hex starts_with] in *.
  destruct (hex_value x); [discriminate Hrest | reflexivity].
Qed.

(** X22.  The port may be written in hexadecimal.  An argument that starts
    with 0x or 0X is read in radix 16: followed by the four hexadecimal
    digits of a positive integer below 65536, it selects this integer, on
    which the server can listen. *)
Theorem port_in_hexadecimal (c x : N) (rest : jsstring) :
  0 < c -> c < 65536 -> x = 120 \/ x = 88 ->
  starts_with (fun c => match hex_value c with
                        | Some _ => true
                        | None => false
                        end) rest = false ->
  PORT_of (Some (48 :: x :: hex4 c ++ rest)) = number_of_N c /\
  legal_port (PORT_of (Some (48 :: x :: hex4 c ++ rest))) = Some c.
Proof.
  intros Hpos Hc Hx Hrest.
  assert (Hlt : c < 10 ^ 21)
    by (apply N.lt_trans with 65536; [exact Hc | reflexivity]).
  assert (H : PORT_of (Some (48 :: x :: hex4 c ++ rest)) = number_of_N c).
  { unfold PORT_of, parseInt.
    change (trim_start (48 :: x :: hex4 c ++ rest))
      with (48 :: x :: hex4 c ++ rest).
    cbv beta iota zeta.
    replace ((x =? 120) || (x =? 88)) with true
      by (destruct Hx as [-> | ->]; reflexivity).
    rewrite (span_hex_hex4 c rest Hrest), (hex_digits_value_hex4 c Hc).
    destruct (number_of_N_small c Hpos Hlt) as (m & _ & _ & ->). reflexivity. }
  rewrite H. split; [reflexivity|].
  rewrite (legal_port_of_N c Hlt).
  replace (c <=? 65535) with true by (symmetry; apply N.leb_le; lia).
  reflexivity.
Qed.

(** ** The launch *)

(** X14.  The log file is emptied before the server tries to listen.  When
    the two file-system calls of the start-up succeed, the launch leaves an
    empty log file on the disk whether or not the server comes to listen:
    a launch with a port that is no legal port, or with a port that cannot
    be bound (the usual case being a server that is running already), ends
    the process and has emptied the log file all the same. *)
Theorem launch_empties_log_first (argv2 : option jsstring) (d : disk)
  (b : boot) (listen_error : bool) (st : state) :
  startup d b = Normal st ->
  snd (launch argv2 d b listen_error) = Some [] /\
  (listen_error = true \/ legal_port (PORT_of argv2) = None ->
   launch argv2 d b listen_error = (Throw, Some [])).
Proof.
  intros H. unfold launch. rewrite H.
  assert (Hst : log_file st = Some []).
  { unfold startup in H.
    destruct (negb (log_dir_exists d) && mkdir_error b); [discriminate|].
    destruct (write_error b); [discriminate|]. injection H as <-.
    reflexivity. }
  rewrite Hst. split.
  - destruct (legal_port (PORT_of argv2)); [destruct listen_error|];
      reflexivity.
  - intros [-> | ->]; [destruct (legal_port (PORT_of argv2))|]; reflexivity.
Qed.

(** X15.  A server that listens does so on a port from 1 to 65535 that is
    the number read from the command line (or 3947), so that the health
    report shows the port asked for; it starts as a running server with an
    empty log file and the counter 0. *)
Theorem launch_listens (argv2 : option jsstring) (d : disk) (b : boot)
  (listen_error : bool) (p : N) (st : state) (file : option jsstring) :
  launch argv2 d b listen_error = (Normal (p, st), file) ->
  1 <= p /\ p <= 65535 /\ PORT_of argv2 = number_of_N p /\
  listen_error = false /\ startup d b = Normal st /\
  st = mkState (Some []) 0 /\ file = Some [] /\ running p st.
Proof.
  unfold launch. intros H.
  destruct (startup d b) as [st0|] eqn:Hstart; [|discriminate H].
  destruct (legal_port (PORT_of argv2)) as [p0|] eqn:Hport; [|discriminate H].
  destruct listen_error; [discriminate H|]. injection H as <- <- <-.
  destruct (PORT_of_ok argv2) as [Hok Hnz].
  destruct (legal_port_inv _ _ Hok Hport) as (Hnum & Hle & Hge).
  assert (Hst : st0 = mkState (Some []) 0).
  { unfold startup in Hstart.
    destruct (negb (log_dir_exists d) && mkdir_error b); [discriminate|].
    destruct (write_error b); [discriminate|]. injection Hstart as <-.
    reflexivity. }
  repeat split; auto.
  - rewrite Hst. reflexivity.
  - exact (running_start p0 d b st0 Hstart).
Qed.

(** ** The banner *)

Lemma decimal_length (n : N) :
  n < 10 ^ 21 -> (List.length (decimal n) <= 21)%nat.
Proof.
  intros Hlt. destruct (N.eq_0_gt_0_cases n) as [->|Hpos]; [cbn; lia|].
  destruct (number_of_N_small n Hpos Hlt) as (m & _ & Hk & _). exact Hk.
Qed.

Lemma padEnd_length (maxLength : nat) (s : jsstring) :
  List.length (padEnd maxLength s) = Nat.max maxLength (List.length s).
Proof. unfold padEnd. rewrite length_app, repeat_length. lia. Qed.

(** X16.  The width of the rows of the banner.  The frame and the fixed
    rows are 60 characters wide.  The row of the port is always 58 wide,
    and the row of the log file is 58 wide when the path has at most 44
    characters and 14 more than the path otherwise, the path never being
    cut: the right border of these two rows lines up with the frame only
    for a log file path of exactly 46 characters.  The default path has
    25. *)
Theorem banner_row_widths (PORT : N) (LOG_FILE : jsstring) :
  PORT < 10 ^ 21 ->
  map (@List.length N) (banner_rows PORT LOG_FILE)
  = [60; 60; 60; 58; 14 + Nat.max 44 (List.length LOG_FILE); 60; 60; 60; 60;
     60; 60; 60; 60; 60]%nat /\
  nth 4 (banner_rows PORT LOG_FILE) []
  = 9553 :: str "  Log file: " ++ LOG_FILE
    ++ repeat 32 (44 - List.length LOG_FILE) ++ [9553] /\
  (forall sep, List.length (LOG_FILE_of sep None) = 25%nat).
Proof.
  intros Hlt. split; [|split; [|reflexivity]].
  - unfold banner_rows. cbn [map].
    repeat match goal with
    | |- context [List.length (?c :: ?t)] =>
        change (List.length (c :: t)) with (S (List.length t))
    end.
    rewrite !length_app, !padEnd_length, Number_toString_of_N by exact Hlt.
    pose proof (decimal_length PORT Hlt) as Hd.
    replace (Nat.max 44 (List.length (decimal PORT))) with 44%nat by lia.
    rewrite !repeat_length.
    repeat match goal with
    | |- context [List.length (str ?s)] =>
        let v := eval vm_compute in (List.length (str s)) in
        change (List.length (str s)) with v
    end.
    cbn [List.length].
    repeat (apply (f_equal2 (@cons nat)); [lia|]). reflexivity.
  - unfold banner_rows, padEnd. cbn [nth]. rewrite <- !app_assoc.
    reflexivity.
Qed.

(** ** The shutdown *)

(** X17.  The total the server prints when it is interrupted is the number
    of lines of the log file: the entries stored since the start or the
    last POST /clear, not the entries received. *)
Theorem total_counts_lines (PORT : N) (st : state) :
  running PORT st -> logCount st < 10 ^ 21 ->
  total_line st
  = str "Total logs received: "
    ++ decimal (N.of_nat (newlines (log_text st))).
Proof.
  intros Hrun Hlt. unfold total_line.
  rewrite Number_toString_of_N by exact Hlt.
  rewrite (running_counts_lines PORT st Hrun). reflexivity.
Qed.

(** * The server of the skill document *)

Lemma inline_ingest_run (e : env) (req : request) (st : state) (r : response) :
  inline_ingest e req (st, r) =
  match JSON_parse (body req) with
  | None => (Throw, (st, r))
  | Some Null => (Throw, (st, r))
  | Some data =>
      if fs_error e then (Throw, (st, r))
      else (Normal tt,
            (mkState (Some (log_text st ++ JSON_stringify (inline_entry e data)
                            ++ [10])) (logCount st),
             mkResponse 200 (headers r) (sent req (str "ok")) true))
  end.
Proof.
  cbv [inline_ingest bind ret throw of_option res_writeHead res_end
       fs_appendFileSync put].
  cbn [fst snd statusCode headers content writableEnded log_file logCount
       fold_left].
  unfold log_text, inline_entry.
  destruct (JSON_parse (body req)) as [[|b|x|s|vs|ps]|]; try reflexivity;
    destruct (fs_error e), (log_file st); reflexivity.
Qed.

(** The listener of the skill document, route by route. *)
Lemma inline_handle_routes (e : env) (req : request) (st : state) :
  inline_handle e req st =
  if jsstring_eqb (method req) (str "OPTIONS") then
    (Normal (reply 204 [] []), st)
  else if jsstring_eqb (url req) (str "/health") then
    (Normal (reply 200 [] (sent req (str "ok"))), st)
  else if jsstring_eqb (url req) (str "/debug")
          && jsstring_eqb (method req) (str "POST") then
    match JSON_parse (body req) with
    | None => (Normal (reply 400 [] (str "bad json")), st)
    | Some Null => (Normal (reply 400 [] (str "bad json")), st)
    | Some data =>
        if fs_error e then (Normal (reply 400 [] (str "bad json")), st)
        else
          (Normal (reply 200 [] (str "ok")),
           mkState (Some (log_text st ++ JSON_stringify (inline_entry e data)
                          ++ [10])) (logCount st))
    end
  else (Normal (reply 404 [] []), st).
Proof.
  unfold inline_handle, inline_server.
  assert (Hnone : sent req [] = [])
    by (unfold sent; destruct (jsstring_eqb (method req) (str "HEAD"));
        reflexivity).
  destruct (jsstring_eqb (method req) (str "OPTIONS"));
    [cbv [bind res_setHeader res_writeHead res_end new_response];
     rewrite Hnone; reflexivity|].
  destruct (jsstring_eqb (url req) (str "/health")); [reflexivity|].
  destruct (jsstring_eqb (url req) (str "/debug")
            && jsstring_eqb (method req) (str "POST")) eqn:Edebug;
    [|cbv [bind res_setHeader res_writeHead res_end new_response];
      rewrite Hnone; reflexivity].
  apply andb_true_iff in Edebug as [_ Em]. apply jsstring_eqb_eq in Em.
  pose proof (fun data => sent_method req (str "POST") data Em eq_refl)
    as Hsent.
  cbv [bind try_catch res_setHeader new_response].
  cbn [statusCode headers content writableEnded].
  rewrite inline_ingest_run. rewrite !Hsent.
  cbv [res_writeHead res_end bind]. rewrite !Hsent.
  destruct (JSON_parse (body req)) as [[|b|x|s|vs|ps]|]; try reflexivity;
    destruct (fs_error e); reflexivity.
Qed.

Lemma inline_handle_grows (e : env) (req : request) (st st' : state)
  (c : completion response) :
  inline_handle e req st = (c, st') ->
  exists r suffix, c = Normal r /\ log_text st' = log_text st ++ suffix.
Proof.
  rewrite inline_handle_routes. intros H.
  repeat match type of H with
  | (if ?c then _ else _) = _ => destruct c
  | match ?x with _ => _ end = _ => destruct x
  end; injection H as <- <-; eexists; eexists;
    (split; [reflexivity|]);
    first [symmetry; apply app_nil_r | reflexivity].
Qed.

(** X18.  The server of the skill document never empties the log file and
    never ends by an exception of its listener: it starts with the log file
    it finds, and after any run of requests, whatever they are and whatever
    the file system does, every request has been answered and the log file
    is the file found at the start, followed by what was appended.  A
    restart keeps the entries of the last session, where the full server
    removes them. *)
Theorem inline_log_only_grows (d : disk) (b : boot)
  (reqs : list (env * request)) (st0 st' : state)
  (c : completion (list response)) :
  inline_startup d b = Normal st0 ->
  inline_serve reqs st0 = (c, st') ->
  log_file st0 = old_log_file d /\
  exists rs suffix,
    c = Normal rs /\ List.length rs = List.length reqs /\
    log_text st' = log_text st0 ++ suffix.
Proof.
  intros Hstart Hrun. split.
  { unfold inline_startup in Hstart.
    destruct (negb (log_dir_exists d) && mkdir_error b); [discriminate|].
    injection Hstart as <-. reflexivity. }
  clear Hstart. revert st0 st' c Hrun.
  induction reqs as [|[e req] reqs IH]; intros st st' c H.
  - injection H as <- <-. exists [], []. rewrite app_nil_r. auto.
  - cbn [inline_serve] in H.
    destruct (inline_handle e req st) as [c1 st1] eqn:E1.
    destruct (inline_handle_grows e req st st1 c1 E1) as (r1 & s1 & -> & H1).
    destruct (inline_serve reqs st1) as [c2 st2] eqn:E2.
    destruct (IH st1 st2 c2 E2) as (rs2 & s2 & -> & Hlen & H2).
    injection H as <- <-. exists (r1 :: rs2), (s1 ++ s2).
    rewrite H2, H1, app_assoc. cbn [List.length]. auto.
Qed.

(** X19.  The server of the skill document always assigns the [id]: for an
    object payload it writes the payload with [id] set to the identifier it
    makes, also when the caller has supplied an [id] of its own, which is
    lost; every other property is written as it came, and no
    [serverTimestamp] is added. *)
Theorem inline_id_always_assigned (e : env) (payload : jsstring) (st : state)
  (ps : list (jsstring * value)) :
  JSON_parse payload = Some (Obj ps) -> fs_error e = false ->
  exists qs,
    inline_handle e (Ingest payload) st
    = (Normal (reply 200 [] (str "ok")),
       mkState (Some (log_text st ++ JSON_stringify (Obj qs) ++ [10]))
         (logCount st)) /\
    get_property (str "id") qs = Some (Str (fresh_id e)) /\
    (forall k, k <> str "id" -> get_property k qs = get_property k ps) /\
    JSON_parse (JSON_stringify (Obj qs)) = Some (written (Obj qs)).
Proof.
  intros Hparse Hfs.
  exists (set_property (str "id") (Str (fresh_id e)) ps).
  rewrite inline_handle_routes. cbn [Ingest method url body].
  change (jsstring_eqb (str "POST") (str "OPTIONS")) with false.
  change (jsstring_eqb (str "/debug") (str "/health")) with false.
  change (jsstring_eqb (str "/debug") (str "/debug")
          && jsstring_eqb (str "POST") (str "POST")) with true.
  cbv iota. rewrite Hparse, Hfs. cbn [inline_entry].
  split; [reflexivity|]. split; [|split].
  - rewrite get_set_property, jsstring_eqb_refl. reflexivity.
  - intros k Hk. rewrite get_set_property.
    destruct (jsstring_eqb (str "id") k) eqn:E; [|reflexivity].
    apply jsstring_eqb_eq in E. congruence.
  - pose proof (JSON_parse_ok payload _ Hparse) as Hok.
    assert (Hok' : value_ok (Obj (set_property (str "id") (Str (fresh_id e))
                                    ps)) = true)
      by (apply set_property_ok; [reflexivity | exact Hok]).
    exact (JSON_parse_stringify _ Hok').
Qed.

(** X20.  In the server of the skill document the answer to POST /debug
    tells what happened to the entry: either it is the acknowledgment and
    the entry is the new last line of the log file, or it is the refusal
    and the log file is as it was, the body being no JSON text or the text
    [null], or the append having failed.  It has no console line whose
    failure could come between the append and the answer. *)
Theorem inline_answer_matches_storage (e : env) (payload : jsstring)
  (st st' : state) (c : completion response) :
  inline_handle e (Ingest payload) st = (c, st') ->
  (c = Normal (reply 200 [] (str "ok")) /\
   exists data,
     JSON_parse payload = Some data /\ data <> Null /\ fs_error e = false /\
     log_file st'
     = Some (log_text st ++ JSON_stringify (inline_entry e data) ++ [10])) \/
  (c = Normal (reply 400 [] (str "bad json")) /\ st' = st /\
   (JSON_parse payload = None \/ JSON_parse payload = Some Null
    \/ fs_error e = true)).
Proof.
  rewrite inline_handle_routes. cbn [Ingest method url body].
  change (jsstring_eqb (str "POST") (str "OPTIONS")) with false.
  change (jsstring_eqb (str "/debug") (str "/health")) with false.
  change (jsstring_eqb (str "/debug") (str "/debug")
          && jsstring_eqb (str "POST") (str "POST")) with true.
  cbv iota. intros H.
  destruct (JSON_parse payload) as [data|];
    [|injection H as <- <-; right; auto].
  destruct (fs_error e);
    [destruct data; injection H as <- <-; right; auto|].
  destruct data; injection H as <- <-;
    first [right; solve [auto]
          | left; split; [reflexivity|]; eexists;
            repeat split; first [reflexivity | discriminate]].
Qed.

(** * The log call of the instrumented program *)

Lemma written_Num_of_N (n : N) :
  n < 10 ^ 21 -> written (Num (number_of_N n)) = Num (number_of_N n).
Proof. intros H. cbn [written]. rewrite (number_of_N_finite n H). reflexivity. Qed.

(** What [JSON.stringify] keeps of a value has finite numbers only. *)
Lemma written_all_finite (v : value) : all_finite (written v) = true.
Proof.
  induction v as [|b|x|s|vs IH|ps IH] using value_ind;
    cbn [written all_finite]; try reflexivity.
  - destruct (is_finite x) eqn:E; [exact E | reflexivity].
  - induction IH as [|v vs Hv _ IHvs]; [reflexivity|].
    cbn [map forallb]. rewrite Hv, IHvs. reflexivity.
  - induction IH as [|[k v] ps Hv _ IHps]; [reflexivity|].
    cbn [map forallb fst snd] in *. rewrite Hv, IHps. reflexivity.
Qed.

(** X21.  The log call of the templates is always accepted.  The body the
    call sends (the JSON text of [location], [message], [data],
    [timestamp], [sessionId], [runId] and [hypothesisId], encoded in UTF-8)
    may arrive in any number of chunks that hold whole characters each; the
    listener decodes them one by one, answers with the acknowledgment, and
    the entry appended has these seven properties in this order, with the
    values of the call ([data] as [JSON.stringify] writes it), followed by
    the [id] the server makes and by [serverTimestamp]; the line parses
    back to this entry. *)
Theorem log_call_is_logged (PORT : N) (e : env) (st : state)
  (location message : jsstring) (data : value) (timestamp : N)
  (sessionId runId hypothesisId : jsstring) (pieces : list jsstring) :
  value_ok data = true -> timestamp < 10 ^ 21 -> clock_ts e < 10 ^ 21 ->
  fs_error e = false ->
  Forall (fun p => forallb (fun c => c <? 65536) p = true
                   /\ well_formed p = true) pieces ->
  List.concat pieces
  = JSON_stringify (log_call location message data timestamp sessionId runId
                      hypothesisId) ->
  let entry :=
    Obj [(str "location", Str location);
         (str "message", Str message);
         (str "data", written data);
         (str "timestamp", Num (number_of_N timestamp));
         (str "sessionId", Str sessionId);
         (str "runId", Str runId);
         (str "hypothesisId", Str hypothesisId);
         (str "id", Str (fresh_id e));
         (str "serverTimestamp", Num (number_of_N (clock_ts e)))] in
  handle PORT e (Ingest (collect (map utf8_encode pieces))) st
  = (Normal (reply 200 [] (str "ok")),
     mkState (Some (log_text st ++ JSON_stringify entry ++ [10]))
       (logCount st + 1)) /\
  JSON_parse (JSON_stringify entry) = Some entry.
Proof.
  intros Hdata Hts Hclock Hfs Hpieces Hbody entry.
  rewrite (collect_pieces pieces Hpieces), Hbody.
  set (call := log_call location message data timestamp sessionId runId
                 hypothesisId).
  assert (Hcall : value_ok call = true).
  { unfold call, log_call. cbn [value_ok forallb snd].
    rewrite Hdata, number_of_N_ok. reflexivity. }
  pose proof (JSON_parse_stringify call Hcall) as Hparse.
  assert (Hwritten : written call
                     = Obj [(str "location", Str location);
                            (str "message", Str message);
                            (str "data", written data);
                            (str "timestamp", Num (number_of_N timestamp));
                            (str "sessionId", Str sessionId);
                            (str "runId", Str runId);
                            (str "hypothesisId", Str hypothesisId)]).
  { unfold call, log_call. cbn [written map fst snd].
    rewrite (number_of_N_finite timestamp Hts). reflexivity. }
  rewrite Hwritten in Hparse.
  assert (Hstamped : stamped e (written call) = entry).
  { rewrite Hwritten. reflexivity. }
  rewrite Hwritten in Hstamped.
  assert (Hecho : echo_converts entry = true).
  { rewrite <- Hstamped. apply echo_converts_payload. intros k v Hk Hv.
    cbn [In] in Hk.
    destruct Hk as [<- | [<- | [<- | []]]]; vm_compute in Hv;
      injection Hv as <-; eexists; reflexivity. }
  split.
  - rewrite handle_Ingest, Hparse, Hfs, Hstamped, Hecho. reflexivity.
  - assert (Hentry : value_ok entry = true).
    { rewrite <- Hstamped. apply stamped_ok.
      rewrite <- Hwritten. apply written_ok. exact Hcall. }
    rewrite (JSON_parse_stringify entry Hentry). f_equal.
    apply written_finite. unfold entry. cbn [all_finite forallb snd].
    rewrite !number_of_N_finite by assumption.
    rewrite andb_true_r. cbn [andb].
    apply written_all_finite.
Qed.

(** * The further properties on sample inputs *)

(** The server after the sample payload has been ingested. *)
Lemma one_entry_running :
  running 3947 (snd (handle 3947 sample_env (Ingest sample_payload) started)).
Proof.
  apply (running_step 3947 started sample_env (Ingest sample_payload)
           (reply 200 [] (str "ok")) _ (started_running 3947)).
  vm_compute. reflexivity.
Qed.

Lemma health_counts_lines_witness :
  let st := snd (handle 3947 sample_env (Ingest sample_payload) started) in
  newlines (log_text st) = 1%nat /\
  handle 3947 sample_env (Health []) st
  = (Normal (reply 200 [(str "Content-Type", str "application/json")]
               (str "{" ++ quoted "status" ++ str ":" ++ quoted "ok"
                ++ str "," ++ quoted "logCount" ++ str ":1,"
                ++ quoted "port" ++ str ":3947}")), st).
Proof.
  intros st. split; [vm_compute; reflexivity|].
  exact (health_counts_lines 3947 sample_env [] st one_entry_running
           eq_refl eq_refl).
Defined.

Lemma answers_are_complete_witness :
  handle 3947 failing_env (GetLogs []) started
  = (Normal (reply 500 [] (str "Error reading logs")), started) /\
  writableEnded (reply 500 [] (str "Error reading logs")) = true /\
  firstn 3 (headers (reply 500 [] (str "Error reading logs"))) = cors_headers.
Proof.
  assert (H : handle 3947 failing_env (GetLogs []) started
              = (Normal (reply 500 [] (str "Error reading logs")), started))
    by (vm_compute; reflexivity).
  split; [exact H|].
  destruct (answers_are_complete 3947 failing_env (GetLogs []) started started
              _ H) as (Hend & Hcors & _).
  split; assumption.
Defined.

Lemma log_only_grows_witness :
  let reqs := [(sample_env, Ingest sample_payload);
               (failing_env, GetLogs []);
               (sample_env, Ingest (str "null"));
               (sample_env, Ingest empty_id_payload)] in
  let run := serve 3947 reqs started in
  entries_of reqs
  = [stamped sample_env
       (Obj [(str "location", Str (str "a.js:1"));
             (str "message", Str (str "x"));
             (str "hypothesisId", Str (str "A"))]);
     stamped sample_env (Obj [(str "id", Str [])])] /\
  exists rs,
    fst run = Normal rs /\ List.length rs = 4%nat /\
    log_text (snd run) = ndjson (entries_of reqs) /\
    logCount (snd run) = 2.
Proof.
  intros reqs run. split; [vm_compute; reflexivity|].
  assert (Hall : Forall (fun er : env * request =>
                           url (snd er) <> str "/clear") reqs)
    by (repeat constructor; vm_compute; discriminate).
  destruct (log_only_grows 3947 reqs started (snd run) (fst run) Hall
              (surjective_pairing _))
    as (rs & Hc & Hrs & _ & _ & Htext & Hcount).
  exists rs. split; [exact Hc|]. split; [exact Hrs|].
  split; [exact Htext|]. rewrite Hcount. vm_compute. reflexivity.
Defined.

Lemma only_post_changes_state_witness :
  method (mkRequest (str "GET") (str "/clear") []) <> str "POST" /\
  exists r,
    handle 3947 failing_env (mkRequest (str "GET") (str "/clear") []) started
    = (Normal r, started).
Proof.
  assert (H : method (mkRequest (str "GET") (str "/clear") []) <> str "POST")
    by (vm_compute; discriminate).
  split; [exact H|].
  exact (only_post_changes_state 3947 failing_env
           (mkRequest (str "GET") (str "/clear") []) started H).
Defined.

Lemma acknowledged_is_stored_witness :
  exists data,
    JSON_parse sample_payload = Some data /\
    log_file (snd (handle 3947 sample_env (Ingest sample_payload) started))
    = Some (JSON_stringify (stamped sample_env data) ++ [10]).
Proof.
  destruct (acknowledged_is_stored 3947 sample_env sample_payload started
              (snd (handle 3947 sample_env (Ingest sample_payload) started))
              (reply 200 [] (str "ok")))
    as (data & Hparse & _ & _ & _ & Hfile & _);
    [vm_compute; reflexivity | reflexivity |].
  exists data. split; [exact Hparse | exact Hfile].
Defined.

Lemma refused_is_not_stored_witness :
  statusCode (reply 400 [] (str "Invalid JSON")) = 400 /\
  fst (handle 3947 failing_env (Ingest sample_payload) started)
  = Normal (reply 400 [] (str "Invalid JSON")) /\
  snd (handle 3947 failing_env (Ingest sample_payload) started) = started.
Proof.
  split; [reflexivity|]. split; [vm_compute; reflexivity|].
  apply (refused_is_not_stored 3947 failing_env sample_payload started
           (snd (handle 3947 failing_env (Ingest sample_payload) started))
           (reply 400 [] (str "Invalid JSON")));
    [vm_compute; reflexivity | reflexivity |].
  intros ps k Hp. vm_compute in Hp. injection Hp as <-.
  intros [<- | [<- | [<- | []]]]; exact I.
Defined.

Lemma ingests_in_order_witness :
  exists st',
    serve 3947 [(sample_env, Ingest sample_payload);
                (sample_env, Ingest empty_id_payload)] started
    = (Normal [reply 200 [] (str "ok"); reply 200 [] (str "ok")], st') /\
    logCount st' = 2.
Proof.
  destruct (ingests_in_order 3947
              [(sample_env, sample_payload); (sample_env, empty_id_payload)]
              started) as (st' & Hrun & _ & Hcount).
  - repeat constructor; cbn [fst snd]; eexists;
      (split; [vm_compute; reflexivity|]);
      (split; [discriminate | vm_compute; reflexivity]).
  - exists st'. split; [exact Hrun | exact Hcount].
Defined.

Lemma metadata_comes_last_witness :
  stamped sample_env (Obj [(str "b", Null); (str "a", Bool true)])
  = Obj [(str "b", Null); (str "a", Bool true);
         (str "id", Str (fresh_id sample_env));
         (str "serverTimestamp", Num (number_of_N (clock_ts sample_env)))].
Proof.
  exact (proj1 (metadata_comes_last sample_env
                  [(str "b", Null); (str "a", Bool true)] eq_refl) eq_refl).
Defined.

Lemma refused_but_stored_witness :
  handle 3947 sample_env (Ingest opaque_location_payload) started
  = (Normal (reply 400 [] (str "Invalid JSON")),
     mkState (Some (str "{" ++ quoted "location" ++ str ":{"
                    ++ quoted "toString" ++ str ":1},"
                    ++ quoted "id" ++ str ":"
                    ++ quoted "log_1700000000000_k3j9" ++ str ","
                    ++ quoted "serverTimestamp" ++ str ":1700000000001}"
                    ++ [10])) 1).
Proof.
  rewrite (refused_but_stored 3947 sample_env opaque_location_payload
             (str "location") started
             [(str "location", Obj [(str "toString", Num (number_of_N 1))])]
             [(str "toString", Num (number_of_N 1))]).
  - vm_compute. reflexivity.
  - vm_compute. reflexivity.
  - left. reflexivity.
  - reflexivity.
  - reflexivity.
  - reflexivity.
Defined.

Lemma clear_is_restart_witness :
  serve 3947 [(sample_env, Ingest sample_payload); (sample_env, Clear []);
              (sample_env, Health [])] started
  = (Normal [reply 200 [] (str "ok"); reply 200 [] (str "Logs cleared");
             reply 200 [(str "Content-Type", str "application/json")]
               (str "{" ++ quoted "status" ++ str ":" ++ quoted "ok" ++ str ","
                ++ quoted "logCount" ++ str ":0," ++ quoted "port"
                ++ str ":3947}")], started).
Proof.
  assert (H1 : serve 3947 [(sample_env, Ingest sample_payload)] started
               = (Normal [reply 200 [] (str "ok")],
                  snd (handle 3947 sample_env (Ingest sample_payload)
                         started)))
    by (vm_compute; reflexivity).
  pose proof (clear_is_restart 3947 [(sample_env, Ingest sample_payload)]
                [(sample_env, Health [])] sample_env [] started _ _
                H1 eq_refl) as H.
  cbn [app] in H. rewrite H. vm_compute. reflexivity.
Defined.

Lemma port_is_leading_digits_witness :
  PORT_of (Some (str " 8080abc")) = number_of_N 8080 /\
  Number_toString (PORT_of (Some (str " 8080abc"))) = str "8080" /\
  legal_port (PORT_of (Some (str " 8080abc"))) = Some 8080.
Proof.
  exact (port_is_leading_digits 8080 (str " ") (str "abc")
           eq_refl eq_refl eq_refl eq_refl).
Defined.

Lemma port_in_hexadecimal_witness :
  PORT_of (Some (str "0x1f90")) = number_of_N 8080 /\
  legal_port (PORT_of (Some (str "0x1f90"))) = Some 8080.
Proof.
  exact (port_in_hexadecimal 8080 120 [] eq_refl eq_refl
           (or_introl eq_refl) eq_refl).
Defined.

(** A second server started while the first one listens on the port. *)
Lemma launch_empties_log_first_witness :
  old_log_file sample_disk = Some (str "stale" ++ [10]) /\
  launch None sample_disk no_boot_error true = (Throw, Some []).
Proof.
  split; [reflexivity|].
  apply (proj2 (launch_empties_log_first None sample_disk no_boot_error true
                  started eq_refl)).
  left. reflexivity.
Defined.

Lemma launch_listens_witness :
  launch (Some (str "8080")) sample_disk no_boot_error false
  = (Normal (8080, started), Some []) /\
  PORT_of (Some (str "8080")) = number_of_N 8080 /\
  running 8080 started.
Proof.
  assert (H : launch (Some (str "8080")) sample_disk no_boot_error false
              = (Normal (8080, started), Some []))
    by (vm_compute; reflexivity).
  split; [exact H|].
  destruct (launch_listens _ _ _ _ _ _ _ H)
    as (_ & _ & Hport & _ & _ & _ & _ & Hrun).
  split; assumption.
Defined.

Lemma banner_row_widths_witness :
  map (@List.length N) (banner_rows 3947 (LOG_FILE_of 47 None))
  = [60; 60; 60; 58; 58; 60; 60; 60; 60; 60; 60; 60; 60; 60]%nat.
Proof.
  exact (proj1 (banner_row_widths 3947 (LOG_FILE_of 47 None) eq_refl)).
Defined.

Lemma total_counts_lines_witness :
  total_line (snd (handle 3947 sample_env (Ingest sample_payload) started))
  = str "Total logs received: 1".
Proof.
  exact (total_counts_lines 3947 _ one_entry_running eq_refl).
Defined.

Lemma inline_log_only_grows_witness :
  inline_startup sample_disk no_boot_error
  = Normal (mkState (Some (str "stale" ++ [10])) 0) /\
  exists rs suffix,
    fst (inline_serve [(sample_env, Ingest own_id_payload);
                       (failing_env, Ingest own_id_payload)]
           (mkState (Some (str "stale" ++ [10])) 0)) = Normal rs /\
    log_text (snd (inline_serve [(sample_env, Ingest own_id_payload);
                                 (failing_env, Ingest own_id_payload)]
                     (mkState (Some (str "stale" ++ [10])) 0)))
    = str "stale" ++ [10] ++ suffix.
Proof.
  split; [reflexivity|].
  destruct (inline_log_only_grows sample_disk no_boot_error
              [(sample_env, Ingest own_id_payload);
               (failing_env, Ingest own_id_payload)]
              (mkState (Some (str "stale" ++ [10])) 0) _ _
              eq_refl (surjective_pairing _))
    as (_ & rs & suffix & Hc & _ & Htext).
  exists rs, suffix. split; [exact Hc|].
  rewrite Htext. cbn [log_text log_file]. rewrite <- app_assoc. reflexivity.
Defined.

Lemma inline_id_always_assigned_witness :
  JSON_parse own_id_payload
  = Some (Obj [(str "id", Str (str "mine")); (str "message", Str (str "m"))])
  /\
  exists qs,
    inline_handle sample_env (Ingest own_id_payload) started
    = (Normal (reply 200 [] (str "ok")),
       mkState (Some (JSON_stringify (Obj qs) ++ [10])) 0) /\
    get_property (str "id") qs = Some (Str (fresh_id sample_env)).
Proof.
  assert (Hparse : JSON_parse own_id_payload
                   = Some (Obj [(str "id", Str (str "mine"));
                                (str "message", Str (str "m"))]))
    by (vm_compute; reflexivity).
  split; [exact Hparse|].
  destruct (inline_id_always_assigned sample_env own_id_payload started _
              Hparse eq_refl) as (qs & Hrun & Hid & _).
  exists qs. split; [exact Hrun | exact Hid].
Defined.

Lemma inline_answer_matches_storage_witness :
  (fst (inline_handle failing_env (Ingest own_id_payload) started)
   = Normal (reply 200 [] (str "ok")) /\
   exists data,
     JSON_parse own_id_payload = Some data /\ data <> Null /\
     fs_error failing_env = false /\
     log_file (snd (inline_handle failing_env (Ingest own_id_payload) started))
     = Some (log_text started
             ++ JSON_stringify (inline_entry failing_env data) ++ [10])) \/
  (fst (inline_handle failing_env (Ingest own_id_payload) started)
   = Normal (reply 400 [] (str "bad json")) /\
   snd (inline_handle failing_env (Ingest own_id_payload) started) = started /\
   (JSON_parse own_id_payload = None \/ JSON_parse own_id_payload = Some Null
    \/ fs_error failing_env = true)).
Proof.
  exact (inline_answer_matches_storage failing_env own_id_payload started _ _
           (surjective_pairing _)).
Defined.

Lemma log_call_is_logged_witness :
  let data := Obj [(str "a", Num (number_of_N 5))] in
  let entry :=
    Obj [(str "location", Str (str "filename.js:15"));
         (str "message", Str (str "Function entry"));
         (str "data", data);
         (str "timestamp", Num (number_of_N 1700000000000));
         (str "sessionId", Str (str "SESSION_ID"));
         (str "runId", Str (str "initial"));
         (str "hypothesisId", Str (str "A"));
         (str "id", Str (fresh_id sample_env));
         (str "serverTimestamp", Num (number_of_N (clock_ts sample_env)))] in
  List.length sample_call_pieces = 2%nat /\
  List.concat sample_call_pieces = JSON_stringify sample_call /\
  handle 3947 sample_env
    (Ingest (collect (map utf8_encode sample_call_pieces))) started
  = (Normal (reply 200 [] (str "ok")),
     mkState (Some (log_text started ++ JSON_stringify entry ++ [10]))
       (logCount started + 1)) /\
  JSON_parse (JSON_stringify entry) = Some entry.
Proof.
  intros data entry. split; [reflexivity|].
  split; [vm_compute; reflexivity|].
  apply (log_call_is_logged 3947 sample_env started (str "filename.js:15")
           (str "Function entry") (Obj [(str "a", Num (number_of_N 5))])
           1700000000000 (str "SESSION_ID") (str "initial") (str "A")
           sample_call_pieces eq_refl eq_refl eq_refl eq_refl).
  - repeat constructor; vm_compute; reflexivity.
  - vm_compute. reflexivity.
Defined.

(** * The encoding of the log file *)

Lemma plain_well_formed (a b : jsstring) :
  forallb (fun c => negb (is_high_surrogate c || is_low_surrogate c)) a = true ->
  well_formed (a ++ b) = well_formed b.
Proof.
  induction a as [|c a IH]; cbn [forallb app well_formed]; [reflexivity|].
  intros H. apply andb_true_iff in H as [Hc Ha].
  apply negb_true_iff, orb_false_iff in Hc as [Hh Hl].
  rewrite Hh, Hl. exact (IH Ha).
Qed.

Lemma plain_is_well_formed (a : jsstring) :
  forallb (fun c => negb (is_high_surrogate c || is_low_surrogate c)) a = true ->
  well_formed a = true.
Proof.
  intros H. rewrite <- (app_nil_r a). rewrite (plain_well_formed a [] H).
  reflexivity.
Qed.

Lemma well_formed_app (a b : jsstring) :
  well_formed a = true -> well_formed b = true -> well_formed (a ++ b) = true.
Proof.
  intros Ha Hb. remember (List.length a) as n eqn:Hn.
  assert (Hle : (List.length a <= n)%nat) by lia. clear Hn.
  revert a Ha Hle. induction n as [|n IH]; intros a Ha Hle.
  - destruct a; [exact Hb | cbn [List.length] in Hle; lia].
  - destruct a as [|c a]; [exact Hb|]. cbn [app well_formed] in *.
    destruct (is_high_surrogate c).
    + destruct a as [|d a]; [discriminate Ha|]. cbn [app].
      apply andb_true_iff in Ha as [Hd Ha]. rewrite Hd.
      apply IH; [exact Ha | cbn [List.length] in Hle; lia].
    + apply andb_true_iff in Ha as [Hc Ha]. rewrite Hc.
      apply IH; [exact Ha | cbn [List.length] in Hle; lia].
Qed.

Lemma plain_app (a b : jsstring) :
  forallb (fun c => negb (is_high_surrogate c || is_low_surrogate c)) (a ++ b)
  = forallb (fun c => negb (is_high_surrogate c || is_low_surrogate c)) a
    && forallb (fun c => negb (is_high_surrogate c || is_low_surrogate c)) b.
Proof. apply forallb_app. Qed.

Lemma plain_below (a : jsstring) :
  forallb (fun c => c <? 128) a = true ->
  forallb (fun c => negb (is_high_surrogate c || is_low_surrogate c)) a = true.
Proof.
  rewrite !forallb_forall. intros H c Hc. specialize (H c Hc).
  apply N.ltb_lt in H. unfold is_high_surrogate, is_low_surrogate.
  replace (55296 <=? c) with false by (symmetry; apply N.leb_gt; lia).
  replace (56320 <=? c) with false by (symmetry; apply N.leb_gt; lia).
  reflexivity.
Qed.

Lemma ascii_app (a b : jsstring) :
  forallb (fun c => c <? 128) (a ++ b)
  = forallb (fun c => c <? 128) a && forallb (fun c => c <? 128) b.
Proof. apply forallb_app. Qed.

Lemma ascii_digits (ds : jsstring) :
  forallb is_digit ds = true -> forallb (fun c => c <? 128) ds = true.
Proof.
  rewrite !forallb_forall. intros H c Hc. specialize (H c Hc).
  apply is_digit_spec in H. apply N.ltb_lt. lia.
Qed.

Lemma ascii_hex4 (c : N) : forallb (fun c => c <? 128) (hex4 c) = true.
Proof.
  unfold hex4. cbn [forallb].
  repeat match goal with
  | |- context [hex_digit ?v <? 128] =>
      let H := fresh in
      assert (H : v < 16) by (apply N.mod_lt; discriminate);
      apply hex_digit_range in H;
      replace (hex_digit v <? 128) with true
        by (symmetry; apply N.ltb_lt; lia);
      clear H
  end.
  reflexivity.
Qed.

(** A number is printed in ASCII. *)
Lemma ascii_Number_toString (x : number) :
  number_ok x = true -> forallb (fun c => c <? 128) (Number_toString x) = true.
Proof.
  destruct x as [|neg ds n|neg]; intros Hok.
  - reflexivity.
  - simpl in Hok. apply andb_true_iff in Hok as [Hok _].
    apply andb_true_iff in Hok as [Hs _].
    apply significant_digits in Hs as (Hd & _).
    pose proof (ascii_digits ds Hd) as Hds.
    assert (Hz : forall m, forallb (fun c => c <? 128) (repeat 48 m) = true)
      by (intros m; apply forallb_repeat; reflexivity).
    assert (He : forall e, forallb (fun c => c <? 128)
                   ((if (e <? 0)%Z then str "-" else str "+")
                    ++ decimal (Z.abs_N e)) = true).
    { intros e. rewrite ascii_app.
      rewrite (ascii_digits _ (decimal_digits _)).
      destruct (e <? 0)%Z; reflexivity. }
    unfold Number_toString. rewrite ascii_app.
    replace (forallb (fun c => c <? 128) (sign_prefix neg)) with true
      by (destruct neg; reflexivity).
    cbn [andb].
    destruct ((Z.of_nat (List.length ds) <=? n)%Z && (n <=? 21)%Z);
      [|destruct ((0 <? n)%Z && (n <=? 21)%Z);
        [|destruct ((-6 <? n)%Z && (n <=? 0)%Z)]].
    + rewrite ascii_app, Hds, Hz. reflexivity.
    + rewrite !ascii_app.
      rewrite (ascii_digits _ (forallb_firstn _ _ _ Hd)).
      rewrite (ascii_digits _ (forallb_skipn _ _ _ Hd)). reflexivity.
    + rewrite !ascii_app, Hz, Hds. reflexivity.
    + destruct ds as [|d more]; [reflexivity|].
      simpl in Hd. apply andb_true_iff in Hd as [Hd1 Hd2].
      assert (H1 : (d <? 128) = true).
      { apply is_digit_spec in Hd1. apply N.ltb_lt. lia. }
      cbv zeta. pose proof (He (n - 1)%Z) as Hes.
      set (es := (if (n - 1 <? 0)%Z then str "-" else str "+") ++ _) in *.
      destruct more as [|d' more']; cbn [forallb]; rewrite H1;
        rewrite !ascii_app, Hes; [reflexivity|].
      rewrite (ascii_digits _ Hd2). reflexivity.
  - destruct neg; reflexivity.
Qed.

Lemma surrogate_large (c : N) :
  is_high_surrogate c || is_low_surrogate c = true -> 55296 <= c.
Proof.
  unfold is_high_surrogate, is_low_surrogate.
  rewrite orb_true_iff, !andb_true_iff, !N.leb_le. lia.
Qed.

(** A surrogate of a pair is written as it is. *)
Lemma quote_unit_paired (c : N) :
  is_high_surrogate c || is_low_surrogate c = true -> quote_unit true c = [c].
Proof.
  intros H. pose proof (surrogate_large c H) as Hc. unfold quote_unit.
  repeat match goal with
  | |- context [c =? ?k] =>
      replace (c =? k) with false by (symmetry; apply N.eqb_neq; lia)
  end.
  replace (c <? 32) with false by (symmetry; apply N.ltb_ge; lia).
  rewrite andb_false_r. reflexivity.
Qed.

(** Anything else is written without a surrogate. *)
Lemma quote_unit_plain (paired : bool) (c : N) :
  (is_high_surrogate c || is_low_surrogate c) && paired = false ->
  forallb (fun c => negb (is_high_surrogate c || is_low_surrogate c))
    (quote_unit paired c) = true.
Proof.
  intros H. unfold quote_unit, unicode_escape.
  destruct (c =? 8); [reflexivity|].
  destruct (c =? 9); [reflexivity|].
  destruct (c =? 10); [reflexivity|].
  destruct (c =? 12); [reflexivity|].
  destruct (c =? 13); [reflexivity|].
  destruct (c =? 34); [reflexivity|].
  destruct (c =? 92); [reflexivity|].
  destruct (c <? 32).
  { apply plain_below. rewrite ascii_app, ascii_hex4. reflexivity. }
  destruct (is_high_surrogate c || is_low_surrogate c) eqn:Hs.
  - cbn [andb] in *. rewrite H. cbn [negb].
    apply plain_below. rewrite ascii_app, ascii_hex4. reflexivity.
  - cbn [andb forallb]. rewrite Hs. reflexivity.
Qed.

Lemma high_not_low (c : N) :
  is_low_surrogate c = true -> is_high_surrogate c = false.
Proof.
  unfold is_high_surrogate, is_low_surrogate.
  rewrite andb_true_iff, andb_false_iff, !N.leb_le, !N.leb_gt. lia.
Qed.

(** [QuoteJSONString] writes an unpaired surrogate as an escape. *)
Lemma well_formed_quote_units (s : jsstring) :
  well_formed (quote_units false s) = true.
Proof.
  induction s as [|c r IH]; [reflexivity|]. cbn [quote_units].
  destruct (is_low_surrogate c) eqn:Hl.
  - rewrite andb_false_r, plain_well_formed; [exact IH|].
    apply quote_unit_plain, andb_false_r.
  - destruct (is_high_surrogate c) eqn:Hh; cbn [andb].
    + destruct r as [|d r']; cbn [starts_with].
      * rewrite plain_well_formed; [reflexivity|].
        apply quote_unit_plain, andb_false_r.
      * destruct (is_low_surrogate d) eqn:Hd.
        -- rewrite quote_unit_paired by (rewrite Hh; reflexivity).
           cbn [quote_units]. rewrite Hd.
           rewrite quote_unit_paired by (rewrite Hd; apply orb_true_r).
           rewrite (high_not_low d Hd). cbn [andb app well_formed].
           rewrite Hh, Hd. cbn [andb].
           cbn [quote_units] in IH. rewrite Hd, andb_false_r in IH.
           rewrite plain_well_formed in IH; [exact IH|].
           apply quote_unit_plain, andb_false_r.
        -- rewrite plain_well_formed; [exact IH|].
           apply quote_unit_plain, andb_false_r.
    + rewrite plain_well_formed; [exact IH|].
      apply quote_unit_plain. rewrite Hh, Hl. reflexivity.
Qed.

Lemma well_formed_QuoteJSONString (s : jsstring) :
  well_formed (QuoteJSONString s) = true.
Proof.
  unfold QuoteJSONString.
  change (34 :: quote_units false s ++ [34])
    with ([34] ++ quote_units false s ++ [34]).
  apply well_formed_app; [reflexivity|].
  apply well_formed_app; [apply well_formed_quote_units | reflexivity].
Qed.

Lemma well_formed_join (sep : jsstring) (parts : list jsstring) :
  well_formed sep = true -> forallb well_formed parts = true ->
  well_formed (join sep parts) = true.
Proof.
  intros Hsep. induction parts as [|p parts IH]; [reflexivity|].
  cbn [forallb]. rewrite andb_true_iff. intros [Hp Hps].
  destruct parts as [|q parts]; [exact Hp|].
  change (join sep (p :: q :: parts)) with (p ++ sep ++ join sep (q :: parts)).
  apply well_formed_app; [exact Hp|].
  apply well_formed_app; [exact Hsep | exact (IH Hps)].
Qed.

(** [JSON.stringify] returns a well-formed string. *)
Lemma well_formed_stringify (v : value) :
  value_ok v = true -> well_formed (JSON_stringify v) = true.
Proof.
  induction v as [|b|x|s|vs IH|ps IH] using value_ind; intros Hok;
    cbn [JSON_stringify value_ok] in *.
  - reflexivity.
  - destruct b; reflexivity.
  - destruct (is_finite x); [|reflexivity].
    apply plain_is_well_formed, plain_below, ascii_Number_toString.
    exact Hok.
  - apply well_formed_QuoteJSONString.
  - apply well_formed_app; [reflexivity|].
    apply well_formed_app; [|reflexivity].
    apply well_formed_join; [reflexivity|].
    induction IH as [|v vs Hv _ IHvs]; [reflexivity|].
    cbn [forallb map] in *. apply andb_true_iff in Hok as [H1 H2].
    rewrite (Hv H1), (IHvs H2). reflexivity.
  - apply andb_true_iff in Hok as [_ Hok].
    apply well_formed_app; [reflexivity|].
    apply well_formed_app; [|reflexivity].
    apply well_formed_join; [reflexivity|].
    induction IH as [|[k v] ps Hv _ IHps]; [reflexivity|].
    cbn [forallb map fst snd] in *. apply andb_true_iff in Hok as [H1 H2].
    rewrite (IHps H2), andb_true_r.
    apply well_formed_app; [apply well_formed_QuoteJSONString|].
    apply well_formed_app; [reflexivity | exact (Hv H1)].
Qed.

Lemma well_formed_ndjson (vs : list value) :
  forallb value_ok vs = true -> well_formed (ndjson vs) = true.
Proof.
  unfold ndjson. induction vs as [|v vs IH]; [reflexivity|].
  cbn [forallb map List.concat]. rewrite andb_true_iff. intros [Hv Hvs].
  rewrite <- app_assoc.
  apply well_formed_app; [exact (well_formed_stringify v Hv)|].
  apply well_formed_app; [reflexivity | exact (IH Hvs)].
Qed.

(** X23.  The log file of a running server is well-formed Unicode: it
    holds no surrogate that is not half of a pair, whatever the payloads
    were, because [JSON.stringify] writes an unpaired surrogate of a string
    as an escape.  The file is therefore stored in UTF-8 without loss, and
    GET /logs returns the text that was appended. *)
Theorem log_file_is_well_formed (PORT : N) (e : env) (b : jsstring)
  (st : state) :
  running PORT st ->
  well_formed (log_text st) = true /\
  (fs_error e = false ->
   exists r, handle PORT e (GetLogs b) st = (Normal r, st) /\
             statusCode r = 200 /\ content r = log_text st /\
             well_formed (content r) = true).
Proof.
  intros Hrun.
  destruct (running_log_file PORT st Hrun) as (vs & Hfile & Hok & _).
  assert (Hwf : well_formed (log_text st) = true).
  { unfold log_text. rewrite Hfile.
    apply well_formed_ndjson, accepted_all_ok. exact Hok. }
  split; [exact Hwf|]. intros Hfs.
  rewrite handle_GetLogs, Hfile, Hfs. eexists. split; [reflexivity|].
  unfold log_text in *. rewrite Hfile in *. cbn [statusCode content reply].
  auto.
Qed.

(** X24.  The log call of the templates and the server of the skill
    document fit together: the body of the call, arriving in chunks that
    hold whole characters each and decoded chunk by chunk, is answered with
    the acknowledgment by this server too, and the entry it appends has the
    seven properties of the call in their order, with the values of the
    call, followed by the [id] the server makes. *)
Theorem log_call_is_logged_inline (e : env) (st : state)
  (location message : jsstring) (data : value) (timestamp : N)
  (sessionId runId hypothesisId : jsstring) (pieces : list jsstring) :
  value_ok data = true -> timestamp < 10 ^ 21 -> fs_error e = false ->
  Forall (fun p => forallb (fun c => c <? 65536) p = true
                   /\ well_formed p = true) pieces ->
  List.concat pieces
  = JSON_stringify (log_call location message data timestamp sessionId runId
                      hypothesisId) ->
  inline_handle e (Ingest (collect (map utf8_encode pieces))) st
  = (Normal (reply 200 [] (str "ok")),
     mkState
       (Some (log_text st
              ++ JSON_stringify
                   (Obj [(str "location", Str location);
                         (str "message", Str message);
                         (str "data", written data);
                         (str "timestamp", Num (number_of_N timestamp));
                         (str "sessionId", Str sessionId);
                         (str "runId", Str runId);
                         (str "hypothesisId", Str hypothesisId);
                         (str "id", Str (fresh_id e))])
              ++ [10])) (logCount st)).
Proof.
  intros Hdata Hts Hfs Hpieces Hbody.
  rewrite (collect_pieces pieces Hpieces), Hbody.
  set (call := log_call location message data timestamp sessionId runId
                 hypothesisId).
  assert (Hcall : value_ok call = true).
  { unfold call, log_call. cbn [value_ok forallb snd].
    rewrite Hdata, number_of_N_ok. reflexivity. }
  pose proof (JSON_parse_stringify call Hcall) as Hparse.
  assert (Hwritten : written call
                     = Obj [(str "location", Str location);
                            (str "message", Str message);
                            (str "data", written data);
                            (str "timestamp", Num (number_of_N timestamp));
                            (str "sessionId", Str sessionId);
                            (str "runId", Str runId);
                            (str "hypothesisId", Str hypothesisId)]).
  { unfold call, log_call. cbn [written map fst snd].
    rewrite (number_of_N_finite timestamp Hts). reflexivity. }
  rewrite Hwritten in Hparse.
  rewrite inline_handle_routes. cbn [Ingest method url body].
  change (jsstring_eqb (str "POST") (str "OPTIONS")) with false.
  change (jsstring_eqb (str "/debug") (str "/health")) with false.
  change (jsstring_eqb (str "/debug") (str "/debug")
          && jsstring_eqb (str "POST") (str "POST")) with true.
  cbv iota. rewrite Hparse, Hfs. reflexivity.
Qed.

Lemma lone_surrogate_running :
  running 3947
    (snd (handle 3947 sample_env (Ingest lone_surrogate_payload) started)).
Proof.
  apply (running_step 3947 started sample_env (Ingest lone_surrogate_payload)
           (reply 200 [] (str "ok")) _ (started_running 3947)).
  vm_compute. reflexivity.
Qed.

Lemma log_file_is_well_formed_witness :
  JSON_parse lone_surrogate_payload
  = Some (Obj [(str "message", Str [55357])]) /\
  well_formed [55357] = false /\
  well_formed
    (log_text (snd (handle 3947 sample_env (Ingest lone_surrogate_payload)
                      started))) = true.
Proof.
  split; [vm_compute; reflexivity|]. split; [reflexivity|].
  exact (proj1 (log_file_is_well_formed 3947 sample_env [] _
                  lone_surrogate_running)).
Defined.

Lemma log_call_is_logged_inline_witness :
  List.concat sample_call_pieces = JSON_stringify sample_call /\
  exists line,
    inline_handle sample_env
      (Ingest (collect (map utf8_encode sample_call_pieces))) started
    = (Normal (reply 200 [] (str "ok")), mkState (Some (line ++ [10])) 0).
Proof.
  split; [vm_compute; reflexivity|].
  eexists.
  apply (log_call_is_logged_inline sample_env started (str "filename.js:15")
           (str "Function entry") (Obj [(str "a", Num (number_of_N 5))])
           1700000000000 (str "SESSION_ID") (str "initial") (str "A")
           sample_call_pieces eq_refl eq_refl eq_refl).
  - repeat constructor; vm_compute; reflexivity.
  - vm_compute. reflexivity.
Defined.
